(** * election-orchestra: the performer jobs of the key ceremony

    A shallow embedding of [create_election/performer_jobs.py]:
    [check_election_data], [generate_private_info],
    [generate_private_info_verificatum] and [generate_public_key],
    followed by the properties of the ceremony they establish.

    Python values are a small inductive type, dictionaries are [gmap]s,
    exceptions are an error monad, and the file system, the database
    session and the external tools are an explicit state. *)

From stdpp Require Import gmap strings list.

#[local] Set Warnings "-register-all".
#[local] Open Scope string_scope.

(** ** Python values *)

(** The values that travel in task payloads.  [PDate] stands for a
    [datetime] (seconds on some clock); dictionaries have string keys. *)
Inductive pyval :=
  | PNone
  | PBool (b : bool)
  | PInt (n : Z)
  | PStr (s : string)
  | PDate (t : Z)
  | PList (l : list pyval)
  | PDict (d : gmap string pyval).

#[global] Instance pyval_eq_dec : EqDecision pyval.
Proof.
  refine (fix go (x y : pyval) {struct x} : Decision (x = y) :=
    let _ : EqDecision pyval := go in
    match x, y with
    | PNone, PNone => left _
    | PBool a, PBool b => cast_if (decide (a = b))
    | PInt a, PInt b => cast_if (decide (a = b))
    | PStr a, PStr b => cast_if (decide (a = b))
    | PDate a, PDate b => cast_if (decide (a = b))
    | PList a, PList b => cast_if (decide (a = b))
    | PDict a, PDict b => cast_if (decide (a = b))
    | _, _ => right _
    end); abstract congruence.
Defined.

(** The classes the code tests with [isinstance]. *)
Inductive pytype := Tbasestring | Tbool | Tlist | Tdict | Tdatetime.

Definition isinstance (v : pyval) (t : pytype) : bool :=
  match t, v with
  | Tbasestring, PStr _ => true
  | Tbool, PBool _ => true
  | Tlist, PList _ => true
  | Tdict, PDict _ => true
  | Tdatetime, PDate _ => true
  | _, _ => false
  end.

(** Truth value of a Python object, as [if x] and [not x] use it. *)
Definition py_truthy (v : pyval) : bool :=
  match v with
  | PNone => false
  | PBool b => b
  | PInt n => negb (n =? 0)%Z
  | PStr s => negb (String.eqb s "")
  | PDate _ => true
  | PList l => negb (bool_decide (l = []))
  | PDict d => negb (bool_decide (d = ∅))
  end.

(** ** Exceptions *)

(** [TaskError] is the typed failure of the ceremony; the others are the
    interpreter's and the libraries' own exceptions. *)
Inductive exn :=
  | TaskError (reason : string)
  | KeyError
  | TypeError
  | AttributeError
  | IOError
  | OSError
  | ShutilError
  | CalledProcessError
  | ValueError.

#[global] Instance exn_eq_dec : EqDecision exn.
Proof. solve_decision. Defined.

Inductive result (A : Type) :=
  | Ok (a : A)
  | Raise (e : exn).
Arguments Ok {A} a.
Arguments Raise {A} e.

#[global] Instance result_ret : MRet result := @Ok.
#[global] Instance result_bind : MBind result := λ A B f r,
  match r with
  | Ok a => f a
  | Raise e => Raise e
  end.

Definition is_Ok {A} (r : result A) : bool :=
  match r with Ok _ => true | Raise _ => false end.

(** [if not b: raise e]. *)
Definition ensure (b : bool) (e : exn) : result unit :=
  if b then Ok tt else Raise e.

(** ** Operations on values *)

(** A value used as a list ([len], [for]) or as a text ([%s] of an
    identifier, path components). *)
Definition py_list (v : pyval) : result (list pyval) :=
  match v with
  | PList l => Ok l
  | _ => Raise TypeError
  end.

Definition py_text (v : pyval) : result string :=
  match v with
  | PStr s => Ok s
  | _ => Raise TypeError
  end.

(** [k in v] for a string [k]: key of a dict, element of a list, substring
    of a string; any other operand is not iterable. *)
Fixpoint is_substring (k s : string) : bool :=
  String.prefix k s ||
  match s with
  | EmptyString => false
  | String _ s' => is_substring k s'
  end.

Definition py_in (k : string) (v : pyval) : result bool :=
  match v with
  | PDict d => Ok (bool_decide (is_Some (d !! k)))
  | PList l => Ok (bool_decide (PStr k ∈ l))
  | PStr s => Ok (is_substring k s)
  | _ => Raise TypeError
  end.

(** [v[k]] for a string [k]. *)
Definition py_getitem (v : pyval) (k : string) : result pyval :=
  match v with
  | PDict d =>
      match d !! k with
      | Some x => Ok x
      | None => Raise KeyError
      end
  | _ => Raise TypeError
  end.

(** [data[k]] on a dictionary. *)
Definition dict_getitem (d : gmap string pyval) (k : string) : result pyval :=
  match d !! k with
  | Some x => Ok x
  | None => Raise KeyError
  end.

(** [data.get(k, None)]. *)
Definition dict_get (d : gmap string pyval) (k : string) : pyval :=
  default PNone (d !! k).

(** Hashable values, and the representative under which [set] identifies
    them ([True == 1] and [False == 0]). *)
Definition py_hashable (v : pyval) : bool :=
  match v with
  | PList _ | PDict _ => false
  | _ => true
  end.

Definition py_hash_key (v : pyval) : pyval :=
  match v with
  | PBool b => PInt (if b then 1 else 0)
  | _ => v
  end.

(** [len(set(vs))]. *)
Definition py_set_len (vs : list pyval) : result nat :=
  if forallb py_hashable vs
  then Ok (length (remove_dups (py_hash_key <$> vs)))
  else Raise TypeError.

(** [[i[k] for i in l]]. *)
Fixpoint py_collect (l : list pyval) (k : string) : result (list pyval) :=
  match l with
  | [] => Ok []
  | i :: l' =>
      x ← py_getitem i k;
      xs ← py_collect l' k;
      Ok (x :: xs)
  end.

(** ** The identifier pattern *)

(** [re.match("^[a-zA-Z0-9_-]+$", s)]: one or more characters of the
    class, up to the end of the string or up to a final newline (which
    [$] does not consume). *)
Definition is_id_char (c : Ascii.ascii) : bool :=
  let n := Ascii.nat_of_ascii c in
  (((97 <=? n) && (n <=? 122)) || ((65 <=? n) && (n <=? 90)) ||
   ((48 <=? n) && (n <=? 57)) || (n =? 95) || (n =? 45))%nat.

Fixpoint id_tail (s : string) : bool :=
  match s with
  | EmptyString => true
  | String c EmptyString => is_id_char c || (Ascii.nat_of_ascii c =? 10)%nat
  | String c s' => is_id_char c && id_tail s'
  end.

Definition re_match_id (s : string) : bool :=
  match s with
  | EmptyString => false
  | String c s' => is_id_char c && id_tail s'
  end.

(** [re.match(pattern, v)] on an arbitrary value. *)
Definition py_re_match_id (v : pyval) : result bool :=
  match v with
  | PStr s => Ok (re_match_id s)
  | _ => Raise TypeError
  end.

(** ** Models of the store *)

Module Election.
Record t := mk {
  id : pyval;
  title : pyval;
  url : pyval;
  description : pyval;
  questions_data : pyval;
  voting_start_date : pyval;
  voting_end_date : pyval;
  is_recurring : pyval;
  num_parties : pyval;
  threshold_parties : pyval
}.
End Election.

Module Authority.
Record t := mk {
  name : pyval;
  ssl_cert : pyval;
  orchestra_url : pyval;
  election_id : pyval
}.
End Authority.

Module Session.
Record t := mk {
  id : pyval;
  election_id : pyval;
  status : string;
  public_key : string;
  question_number : nat
}.
End Session.

Inductive row :=
  | ElectionRow (e : Election.t)
  | AuthorityRow (a : Authority.t)
  | SessionRow (s : Session.t).

(** The committed tables. *)
Record store := mkStore {
  elections : list Election.t;
  authorities : list Authority.t;
  sessions : list Session.t
}.

Definition store_add (r : row) (s : store) : store :=
  match r with
  | ElectionRow e =>
      mkStore (elections s ++ [e])%list (authorities s) (sessions s)
  | AuthorityRow a =>
      mkStore (elections s) (authorities s ++ [a])%list (sessions s)
  | SessionRow x =>
      mkStore (elections s) (authorities s) (sessions s ++ [x])%list
  end.

(** [Election.query.filter_by(id=v).count()]. *)
Definition election_count (s : store) (v : pyval) : nat :=
  length (filter (λ e, Election.id e = v) (elections s)).

(** [db.session.query(Election).filter(Election.id == v).first()]. *)
Definition election_first (s : store) (v : pyval) : option Election.t :=
  head (filter (λ e, Election.id e = v) (elections s)).

(** ** Configuration *)

Definition path := list string.

(** [app.config]; an absent text entry reads as the empty default. *)
Record config := mkConfig {
  PRIVATE_DATA_PATH : path;
  PUBLIC_DATA_PATH : path;
  ROOT_URL : string;
  SSL_CERT_STRING : string;
  AUTOACCEPT_REQUESTS : bool;
  MAX_NUM_QUESTIONS_PER_ELECTION : option nat
}.

(** ** check_election_data *)

Definition requirement : Type := string * pytype.

Definition invalid_parameter (name : string) : exn :=
  TaskError ("invalid " +:+ name +:+ " parameter").

Definition base_requirements : list requirement :=
  [ ("election_id", Tbasestring); ("title", Tbasestring);
    ("url", Tbasestring); ("description", Tbasestring);
    ("is_recurring", Tbool); ("authorities", Tlist) ].

Definition extra_requirements : list requirement :=
  [ ("callback_url", Tbasestring); ("extra", Tlist);
    ("questions_data", Tlist) ].

(** [req['name'] in data and isinstance(data[req['name']], req['isinstance'])]. *)
Definition req_holds (data : gmap string pyval) (req : requirement) : bool :=
  match data !! req.1 with
  | Some v => isinstance v req.2
  | None => false
  end.

Fixpoint check_requirements (data : gmap string pyval)
    (reqs : list requirement) : result unit :=
  match reqs with
  | [] => Ok tt
  | req :: reqs' =>
      if req_holds data req then check_requirements data reqs'
      else Raise (invalid_parameter req.1)
  end.

(** ['k' not in data or (data['k'] is not None and not
    isinstance(data['k'], datetime))], negated. *)
Definition date_holds (data : gmap string pyval) (k : string) : bool :=
  match data !! k with
  | None => false
  | Some PNone => true
  | Some v => isinstance v Tdatetime
  end.

Definition auth_reqs : list requirement :=
  [ ("name", Tbasestring); ("orchestra_url", Tbasestring);
    ("ssl_cert", Tbasestring) ].

(** One pass of the inner loop over [auth_reqs]. *)
Definition check_auth_req (adata : pyval) (req : requirement) : result unit :=
  present ← py_in req.1 adata;
  if negb present then Raise (invalid_parameter req.1)
  else
    v ← py_getitem adata req.1;
    if isinstance v req.2 then Ok tt else Raise (invalid_parameter req.1).

Fixpoint check_auth_reqs (adata : pyval) (reqs : list requirement)
    : result unit :=
  match reqs with
  | [] => Ok tt
  | req :: reqs' => check_auth_req adata req;; check_auth_reqs adata reqs'
  end.

Fixpoint check_authorities (l : list pyval) : result unit :=
  match l with
  | [] => Ok tt
  | adata :: l' => check_auth_reqs adata auth_reqs;; check_authorities l'
  end.

Fixpoint unique_by_keys (l : list pyval) (keys : list string) : result bool :=
  match keys with
  | [] => Ok true
  | k :: keys' =>
      vs ← py_collect l k;
      n ← py_set_len vs;
      if bool_decide (length l ≠ n) then Ok false
      else unique_by_keys l keys'
  end.

Section Validator.
(** [json.loads] on a text; [None] when it raises. *)
Variable json_loads : string → option pyval.
Variable cfg : config.
Variable db : store.

Definition max_questions : nat :=
  default 10 (MAX_NUM_QUESTIONS_PER_ELECTION cfg).

(** The first block: which value the later question count looks at. *)
Definition load_questions_data (data : gmap string pyval)
    (check_extra : bool) : result pyval :=
  if check_extra then Ok (dict_get data "questions_data")
  else
    match dict_get data "questions_data" with
    | PStr s =>
        match json_loads s with
        | Some v => Ok v
        | None => Raise (TaskError "questions_data is not in json")
        end
    | _ => Raise (TaskError "questions_data is not in json")
    end.

Definition questions_count_ok (questions_data : pyval) : bool :=
  match questions_data with
  | PList l => negb (length l <? 1)%nat && negb (max_questions <? length l)%nat
  | _ => false
  end.

Definition check_election_data (data : gmap string pyval)
    (check_extra : bool) : result unit :=
  let requirements :=
    if check_extra then (base_requirements ++ extra_requirements)%list
    else base_requirements in
  questions_data ← load_questions_data data check_extra;
  check_requirements data requirements;;
  ensure (date_holds data "voting_start_date")
    (TaskError "invalid voting_start_date parameter");;
  ensure (date_holds data "voting_end_date")
    (TaskError "invalid voting_send_date parameter");;
  election_id ← dict_getitem data "election_id";
  matched ← py_re_match_id election_id;
  ensure matched (TaskError "invalid characters in election_id");;
  auths ← dict_getitem data "authorities";
  l ← py_list auths;
  ensure (negb (bool_decide (length l = 0))) (TaskError "no authorities");;
  ensure (questions_count_ok questions_data)
    (TaskError "Unsupported number of questions in the election");;
  (if check_extra && (0 <? election_count db election_id)%nat
   then s ← py_text election_id;
        Raise (TaskError ("an election with id " +:+ s +:+ " already exists"))
   else Ok tt);;
  check_authorities l;;
  distinct ← unique_by_keys l ["ssl_cert"; "orchestra_url"];
  ensure distinct (TaskError "invalid authorities parameters").
End Validator.

(** ** The file system *)

(** A tree of directories and text files.  A path is the list of the
    names of its entries from the root, and [os.path.join(p, name)] with
    one name appends it. *)
Inductive node :=
  | File (content : string)
  | Dir (entries : gmap string node).

Fixpoint walk (n : node) (p : path) : option node :=
  match p with
  | [] => Some n
  | c :: p' =>
      match n with
      | Dir es =>
          match es !! c with
          | Some n' => walk n' p'
          | None => None
          end
      | File _ => None
      end
  end.

(** [os.path.exists(p)]. *)
Definition path_exists (n : node) (p : path) : bool :=
  match walk n p with
  | Some _ => true
  | None => false
  end.

(** The content read from [open(p, 'r')]. *)
Definition read_file (n : node) (p : path) : option string :=
  match walk n p with
  | Some (File c) => Some c
  | _ => None
  end.

(** [open(p, 'w')] followed by a write of [content]: the directory of [p]
    has to exist and [p] must not be a directory. *)
Fixpoint write_file (n : node) (p : path) (content : string) : option node :=
  match p with
  | [] => None
  | c :: p' =>
      match n with
      | Dir es =>
          match p' with
          | [] =>
              match es !! c with
              | Some (Dir _) => None
              | _ => Some (Dir (<[c := File content]> es))
              end
          | _ :: _ =>
              match es !! c with
              | Some n' =>
                  match write_file n' p' content with
                  | Some n'' => Some (Dir (<[c := n'']> es))
                  | None => None
                  end
              | None => None
              end
          end
      | File _ => None
      end
  end.

(** Modelled from the spec: [utils.mkdir_recursive] is not among the
    sources; the spec has it create the directory tree of a session, so
    it makes every missing directory on the way to [p] and leaves an
    existing path alone. *)
Fixpoint mkdir_recursive (n : node) (p : path) : option node :=
  match p with
  | [] => Some n
  | c :: p' =>
      match n with
      | Dir es =>
          match mkdir_recursive (default (Dir ∅) (es !! c)) p' with
          | Some n' => Some (Dir (<[c := n']> es))
          | None => None
          end
      | File _ => None
      end
  end.

(** [os.path.join(p, v)] for an identifier that has passed the pattern
    of identifiers, as the two steps that work on a validated payload
    join it: such a text is one plain name, and the join appends one
    entry.  A component that is not a text has no [startswith]. *)
Definition path_join (p : path) (v : pyval) : result path :=
  match v with
  | PStr s => Ok (p ++ [s])%list
  | _ => Raise AttributeError
  end.

(** ** Paths as the code spells them *)

(** [generate_public_key] joins identifiers that nothing has validated
    to the configured directories, and the system resolves the text it
    gets.  A spelled path is a configured directory with the texts joined
    to it.  The tree is the whole file system: its root is [/] and the
    configured directories are absolute. *)
Definition ospath : Type := path * list string.

Definition slash : Ascii.ascii := Ascii.ascii_of_nat 47.
Definition nul : Ascii.ascii := Ascii.ascii_of_nat 0.

(** [os.path.join(p, v)]: a component that is not a text has no
    [startswith]. *)
Definition os_path_join (p : ospath) (v : pyval) : result ospath :=
  match v with
  | PStr s => Ok (p.1, (p.2 ++ [s])%list)
  | _ => Raise AttributeError
  end.

(** [os.path.join(p, name)] for a text of the code. *)
Definition os_child (p : ospath) (name : string) : ospath :=
  (p.1, (p.2 ++ [name])%list).

(** The components of a text, between its slashes. *)
Fixpoint components (s : string) : list string :=
  match s with
  | EmptyString => [""]
  | String c s' =>
      if Ascii.eqb c slash then "" :: components s'
      else
        match components s' with
        | x :: xs => String c x :: xs
        | [] => [String c ""]
        end
  end.

Definition is_absolute (s : string) : bool := String.prefix "/" s.

(** What a join leaves to resolve: the directory to start from and the
    components to follow.  A text that starts with a slash discards all
    that was joined before it. *)
Definition spelled_step (st : path * list string) (s : string)
    : path * list string :=
  if is_absolute s then ([], components s)
  else (st.1, (st.2 ++ components s)%list).

Definition spelled (p : ospath) : path * list string :=
  foldl spelled_step (p.1, []) p.2.

Fixpoint has_nul_char (s : string) : bool :=
  match s with
  | EmptyString => false
  | String c s' => Ascii.eqb c nul || has_nul_char s'
  end.

Definition has_nul (p : ospath) : bool := existsb has_nul_char p.2.

Definition is_dir (n : node) (p : path) : bool :=
  match walk n p with
  | Some (Dir _) => true
  | _ => false
  end.

(** A component that names no entry: the empty one and [.] stay where
    they are. *)
Definition is_here (c : string) : bool :=
  String.eqb c "" || String.eqb c ".".

Definition is_parent (c : string) : bool := String.eqb c "..".

(** One component of a path, from the directory [cur]: an empty
    component and [.] stay, [..] goes to the parent, and all three need
    [cur] to be a directory; a name is looked up by what follows. *)
Definition resolve_step (n : node) (cur : path) (c : string) : option path :=
  if is_here c then (if is_dir n cur then Some cur else None)
  else if is_parent c
  then (if is_dir n cur then Some (removelast cur) else None)
  else Some (cur ++ [c])%list.

Fixpoint resolve_components (n : node) (cur : path) (cs : list string)
    : option path :=
  match cs with
  | [] => Some cur
  | c :: cs' =>
      match resolve_step n cur c with
      | Some q => resolve_components n q cs'
      | None => None
      end
  end.

(** The place a spelled path leads to, when the system can follow it;
    the last name need not exist. *)
Definition resolve (n : node) (p : ospath) : option path :=
  resolve_components n (spelled p).1 (spelled p).2.

(** The same place, read off the spelling alone. *)
Definition lexical_step (cur : path) (c : string) : path :=
  if is_here c then cur
  else if is_parent c then removelast cur
  else (cur ++ [c])%list.

Definition lexical (p : ospath) : path :=
  foldl lexical_step (spelled p).1 (spelled p).2.

(** [os.stat(p)] as far as the place: a text with a NUL byte is refused
    with [TypeError], and a path that cannot be followed leads
    nowhere. *)
Definition locate (n : node) (p : ospath) : result (option path) :=
  if has_nul p then Raise TypeError else Ok (resolve n p).

(** Whether there is something at the place. *)
Definition found (n : node) (q : option path) : bool :=
  match q with
  | Some q => path_exists n q
  | None => false
  end.

(** [os.path.exists(p)]. *)
Definition os_path_exists (n : node) (p : ospath) : result bool :=
  q ← locate n p; Ok (found n q).

(** The content of the file at [p]. *)
Definition os_read_file (n : node) (p : ospath) : option string :=
  match resolve n p with
  | Some q => read_file n q
  | None => None
  end.

(** Modelled from the spec: [utils.mkdir_recursive] is not among the
    sources.  On a spelled path it makes, in order, every missing
    directory that the path passes through, and it fails on a component
    that is a file. *)
Fixpoint mkdir_components (n : node) (cur : path) (cs : list string)
    : option node :=
  match cs with
  | [] => Some n
  | c :: cs' =>
      if is_here c
      then (if is_dir n cur then mkdir_components n cur cs' else None)
      else if is_parent c
      then (if is_dir n cur then mkdir_components n (removelast cur) cs'
            else None)
      else
        match mkdir_recursive n (cur ++ [c])%list with
        | Some n' =>
            if is_dir n' (cur ++ [c])%list
            then mkdir_components n' (cur ++ [c])%list cs'
            else None
        | None => None
        end
  end.

(** Modelled from the spec: [utils.mkdir_recursive] on a spelled path
    leaves a path that exists alone. *)
Definition os_mkdir_recursive (n : node) (p : ospath) : option node :=
  if found n (resolve n p) then Some n
  else
    match mkdir_recursive n (spelled p).1 with
    | Some n0 =>
        if is_dir n0 (spelled p).1
        then mkdir_components n0 (spelled p).1 (spelled p).2
        else None
    | None => None
    end.

(** ** Tasks *)

(** The summary shown to the operator; the text layout of [info_text] is
    kept as its fields. *)
Record approval_info := mkInfo {
  info_url : pyval;
  info_title : pyval;
  info_description : pyval;
  info_start_date : string;
  info_end_date : string;
  info_questions_data : string;
  info_authorities : string
}.

Inductive subtask :=
  | ExternalTask (label : string) (data : approval_info)
  | SimpleTask (receiver_url action queue : string) (data : gmap string pyval).

(** What [task.get_data()] gives to [generate_private_info] and to
    [generate_public_key]. *)
Record task_data := mkTask {
  input_data : gmap string pyval;
  sender_ssl_cert : string
}.

(** What [generate_private_info_verificatum] sees of its neighbours: the
    output of the previous task of the sequence, when there is one, and
    the input of the parent task. *)
Record local_task := mkLocal {
  prev_output_data : option pyval;
  parent_input_data : gmap string pyval
}.

(** ** The state of a node *)

Definition engine_call : Type := list string * path.

Record world := mkWorld {
  fs : node;
  db : store;
  db_session : list row;
  engine_log : list engine_call;
  subtasks : list subtask;
  output_data : pyval;
  parent_output_data : pyval;
  parent_update_sent : bool
}.

Definition set_fs (n : node) (w : world) : world :=
  mkWorld n (db w) (db_session w) (engine_log w) (subtasks w)
    (output_data w) (parent_output_data w) (parent_update_sent w).

Definition M (A : Type) : Type := world → result A * world.

#[global] Instance M_ret : MRet M := λ A a w, (Ok a, w).
#[global] Instance M_bind : MBind M := λ A B f m w,
  match m w with
  | (Ok a, w') => f a w'
  | (Raise e, w') => (Raise e, w')
  end.

Definition lift {A} (r : result A) : M A := λ w, (r, w).
Definition raise {A} (e : exn) : M A := λ w, (Raise e, w).
Definition get_fs : M node := λ w, (Ok (fs w), w).
Definition get_db : M store := λ w, (Ok (db w), w).

(** [os.path.exists] in the current state. *)
Definition exists_ (p : path) : M bool := λ w, (Ok (path_exists (fs w) p), w).

(** [codecs.open(p, 'w')] creates or empties the file. *)
Definition open_w (p : path) : M unit := λ w,
  match write_file (fs w) p "" with
  | Some n => (Ok tt, set_fs n w)
  | None => (Raise IOError, w)
  end.

(** [f.write(v)] on the file opened at [p]. *)
Definition file_write (p : path) (v : pyval) : M unit := λ w,
  match v with
  | PStr s =>
      match write_file (fs w) p s with
      | Some n => (Ok tt, set_fs n w)
      | None => (Raise IOError, w)
      end
  | _ => (Raise TypeError, w)
  end.

(** [codecs.open(p, 'r')] and [read()]. *)
Definition file_read (p : path) : M string := λ w,
  match read_file (fs w) p with
  | Some c => (Ok c, w)
  | None => (Raise IOError, w)
  end.

Definition mkdir_recursive_ (p : path) : M unit := λ w,
  match mkdir_recursive (fs w) p with
  | Some n => (Ok tt, set_fs n w)
  | None => (Raise OSError, w)
  end.

(** *** The same actions on a spelled path *)

(** [os.path.exists(p)] in the current state. *)
Definition os_exists (p : ospath) : M bool := λ w,
  (os_path_exists (fs w) p, w).

(** [open(p, 'w')] at the place [q] with the content [c]. *)
Definition write_at (q : option path) (c : string) : M unit := λ w,
  match q with
  | Some q =>
      match write_file (fs w) q c with
      | Some n => (Ok tt, set_fs n w)
      | None => (Raise IOError, w)
      end
  | None => (Raise IOError, w)
  end.

(** [codecs.open(p, 'w')] creates or empties the file. *)
Definition os_open_w (p : ospath) : M unit := λ w,
  match locate (fs w) p with
  | Ok q => write_at q "" w
  | Raise e => (Raise e, w)
  end.

(** [f.write(v)] on the file opened at [p]. *)
Definition os_file_write (p : ospath) (v : pyval) : M unit := λ w,
  match v with
  | PStr s =>
      match locate (fs w) p with
      | Ok q => write_at q s w
      | Raise e => (Raise e, w)
      end
  | _ => (Raise TypeError, w)
  end.

Definition os_mkdir_recursive_ (p : ospath) : M unit := λ w,
  if has_nul p then (Raise TypeError, w)
  else
    match os_mkdir_recursive (fs w) p with
    | Some n => (Ok tt, set_fs n w)
    | None => (Raise OSError, w)
    end.

(** Two places that are one existing file or directory. *)
Definition same_place (n : node) (a b : option path) : bool :=
  match a, b with
  | Some qa, Some qb => bool_decide (qa = qb) && path_exists n qa
  | _, _ => false
  end.

(** [shutil.copyfile(src, dst)]: refuses two spellings of one existing
    file, reads [src], then opens [dst] for writing. *)
Definition copyfile (src dst : ospath) : M unit := λ w,
  match locate (fs w) src with
  | Raise e => (Raise e, w)
  | Ok a =>
      match locate (fs w) dst with
      | Raise e => (Raise e, w)
      | Ok b =>
          if same_place (fs w) a b then (Raise ShutilError, w)
          else
            match a ≫= read_file (fs w) with
            | Some c => write_at b c w
            | None => (Raise IOError, w)
            end
      end
  end.

(** [db.session.add(r)]. *)
Definition db_add (r : row) : M unit := λ w,
  (Ok tt,
   mkWorld (fs w) (db w) (db_session w ++ [r])%list (engine_log w)
     (subtasks w) (output_data w) (parent_output_data w)
     (parent_update_sent w)).

(** [db.session.commit()]. *)
Definition db_commit : M unit := λ w,
  (Ok tt,
   mkWorld (fs w) (foldl (λ s r, store_add r s) (db w) (db_session w)) []
     (engine_log w) (subtasks w) (output_data w) (parent_output_data w)
     (parent_update_sent w)).

Definition query_election_first (v : pyval) : M (option Election.t) := λ w,
  (Ok (election_first (db w) v), w).

(** [task.add(t)]. *)
Definition task_add (t : subtask) : M unit := λ w,
  (Ok tt,
   mkWorld (fs w) (db w) (db_session w) (engine_log w)
     (subtasks w ++ [t])%list (output_data w) (parent_output_data w)
     (parent_update_sent w)).

(** [task.set_output_data(v)]. *)
Definition set_output_data (v : pyval) : M unit := λ w,
  (Ok tt,
   mkWorld (fs w) (db w) (db_session w) (engine_log w) (subtasks w) v
     (parent_output_data w) (parent_update_sent w)).

(** [task.get_parent().set_output_data(v, send_update_to_sender=True)]. *)
Definition parent_set_output_data (v : pyval) : M unit := λ w,
  (Ok tt,
   mkWorld (fs w) (db w) (db_session w) (engine_log w) (subtasks w)
     (output_data w) v true).

(** ** The ceremony steps *)

(** [for x in v]: the elements of a list, the characters of a text, the
    keys of a dictionary. *)
Fixpoint string_chars (s : string) : list pyval :=
  match s with
  | EmptyString => []
  | String c s' => PStr (String c EmptyString) :: string_chars s'
  end.

Definition py_iter (v : pyval) : result (list pyval) :=
  match v with
  | PList l => Ok l
  | PStr s => Ok (string_chars s)
  | PDict d => Ok (PStr <$> (map_to_list d).*1)
  | _ => Raise TypeError
  end.

(** The condition of the session loop of [generate_private_info],
    negated: [true] when the entry is well formed. *)
Definition session_ok (session : pyval) : result bool :=
  match session with
  | PDict d =>
      match d !! "id", d !! "stub" with
      | Some i, Some (PStr _) => py_re_match_id i
      | _, _ => Ok false
      end
  | _ => Ok false
  end.

Fixpoint check_sessions (l : list pyval) : result unit :=
  match l with
  | [] => Ok tt
  | session :: l' =>
      ok ← session_ok session;
      ensure ok (TaskError "Invalid session data provided");;
      check_sessions l'
  end.

(** The loop that looks this node up among the authorities: the last
    entry whose endpoint is [root_url] gives the name. *)
Fixpoint find_auth_name (root_url : string) (l : list pyval) (auth_name : pyval)
    : result pyval :=
  match l with
  | [] => Ok auth_name
  | auth_data :: l' =>
      u ← py_getitem auth_data "orchestra_url";
      if bool_decide (u = PStr root_url)
      then n ← py_getitem auth_data "name"; find_auth_name root_url l' n
      else find_auth_name root_url l' auth_name
  end.

(** The loop that refuses a session whose [localProtInfo.xml] exists. *)
Fixpoint check_not_created (n : node) (election_privpath : path)
    (l : list pyval) : result unit :=
  match l with
  | [] => Ok tt
  | session :: l' =>
      sid ← py_getitem session "id";
      session_privpath ← path_join election_privpath sid;
      (if path_exists n (session_privpath ++ ["localProtInfo.xml"])%list
       then s ← py_text sid;
            Raise (TaskError ("session_id " +:+ s +:+ " already created"))
       else Ok tt);;
      check_not_created n election_privpath l'
  end.

Definition accepted : pyval := PDict {[ "status" := PStr "accepted" ]}.

Section Ceremony.
(** The collaborators: [json.loads], [frestq.utils.loads] and [dumps],
    [datetime.isoformat], [frestq.protocol.certs_differ], the two
    addresses of [utils], and the external tools, which are given the
    command line, the working directory and the file system and leave
    an exit status ([true] for zero) and a file system. *)
Variable json_loads : string → option pyval.
Variable loads : string → option pyval.
Variable dumps : pyval → string.
Variable isoformat : Z → string.
Variable certs_differ : string → string → bool.
Variable get_server_url : string.
Variable get_hint_server_url : string.
Variable engine : list string → path → node → bool * node.
Variable cfg : config.

(** [subprocess.check_call(argv, cwd=cwd)]. *)
Definition check_call (argv : list pyval) (cwd : path) : M unit := λ w,
  match mapM (λ v, match v with PStr s => Some s | _ => None end) argv with
  | None => (Raise TypeError, w)
  | Some args =>
      match walk (fs w) cwd with
      | Some (Dir _) =>
          let r := engine args cwd (fs w) in
          let w' :=
            mkWorld r.2 (db w) (db_session w)
              (engine_log w ++ [(args, cwd)])%list (subtasks w)
              (output_data w) (parent_output_data w)
              (parent_update_sent w) in
          if r.1 then (Ok tt, w') else (Raise CalledProcessError, w')
      | _ => (Raise OSError, w)
      end
  end.

(** [subprocess.check_call(argv, cwd=cwd)] on a spelled directory: the
    child changes to the place the directory leads to, and the tool runs
    there. *)
Definition os_check_call (argv : list pyval) (cwd : ospath) : M unit := λ w,
  match locate (fs w) cwd with
  | Ok (Some q) =>
      if is_dir (fs w) q then check_call argv q w else (Raise OSError, w)
  | Ok None => (Raise OSError, w)
  | Raise e => (Raise e, w)
  end.

(** *** generate_private_info *)

Definition new_election (input_data : gmap string pyval)
    : result Election.t :=
  i ← dict_getitem input_data "election_id";
  t ← dict_getitem input_data "title";
  u ← dict_getitem input_data "url";
  d ← dict_getitem input_data "description";
  q ← dict_getitem input_data "questions_data";
  s ← dict_getitem input_data "voting_start_date";
  e ← dict_getitem input_data "voting_end_date";
  r ← dict_getitem input_data "is_recurring";
  n ← dict_getitem input_data "num_parties";
  h ← dict_getitem input_data "threshold_parties";
  Ok (Election.mk i t u d q s e r n h).

Fixpoint add_authorities (election_id : pyval) (l : list pyval) : M unit :=
  match l with
  | [] => mret tt
  | auth_data :: l' =>
      n ← lift (py_getitem auth_data "name");
      c ← lift (py_getitem auth_data "ssl_cert");
      u ← lift (py_getitem auth_data "orchestra_url");
      db_add (AuthorityRow (Authority.mk n c u election_id));;
      add_authorities election_id l'
  end.

(** The loop that makes the session rows, the directories and the
    stubs; [i] is the counter. *)
Fixpoint add_sessions (election_id : pyval) (election_privpath : path)
    (l : list pyval) (i : nat) : M unit :=
  match l with
  | [] => mret tt
  | session :: l' =>
      sid ← lift (py_getitem session "id");
      db_add (SessionRow (Session.mk sid election_id "default" "" i));;
      session_privpath ← lift (path_join election_privpath sid);
      mkdir_recursive_ session_privpath;;
      let stub_path := (session_privpath ++ ["stub.xml"])%list in
      open_w stub_path;;
      stub ← lift (py_getitem session "stub");
      file_write stub_path stub;;
      add_sessions election_id election_privpath l' (S i)
  end.

(** The branch of a performer: rows, directories and stubs. *)
Definition create_local_data (input_data : gmap string pyval)
    (election_id : pyval) (election_privpath : path)
    (auths sess : list pyval) : M Election.t :=
  there ← exists_ election_privpath;
  (if there : bool
   then s ← lift (py_text election_id);
        raise (TaskError ("Already existing election id " +:+ s))
   else mret tt);;
  election ← lift (new_election input_data);
  db_add (ElectionRow election);;
  add_authorities election_id auths;;
  add_sessions election_id election_privpath sess 0;;
  db_commit;;
  mret election.

Definition str_date (date : pyval) : result string :=
  if py_truthy date then
    match date with
    | PDate t => Ok (isoformat t)
    | _ => Raise AttributeError
    end
  else Ok "".

(** The text of the approval task. *)
Definition approval_text (input_data : gmap string pyval)
    (election : option Election.t) : result approval_info :=
  u ← dict_getitem input_data "url";
  match election with
  | None => Raise AttributeError
  | Some el =>
      sd ← str_date (Election.voting_start_date el);
      ed ← str_date (Election.voting_end_date el);
      q ← dict_getitem input_data "questions_data";
      qs ← py_text q;
      match loads qs with
      | None => Raise ValueError
      | Some parsed =>
          a ← dict_getitem input_data "authorities";
          Ok (mkInfo u (Election.title el) (Election.description el)
                sd ed (dumps parsed) (dumps a))
      end
  end.

(** What the checks at the head of [generate_private_info] leave for
    the rest of the step. *)
Record checked_input := mkChecked {
  checked_election_id : pyval;
  checked_privpath : path;
  checked_sessions : list pyval;
  checked_authorities : list pyval
}.

(** The head of [generate_private_info], up to the loop over
    [localProtInfo.xml]: it reads the file system and the store and
    changes nothing. *)
Definition preliminary_checks (n : node) (store : store)
    (input_data : gmap string pyval) : result checked_input :=
  election_id ← dict_getitem input_data "election_id";
  election_privpath ← path_join (PRIVATE_DATA_PATH cfg) election_id;
  check_election_data json_loads cfg store input_data false;;
  sess ← match dict_get input_data "sessions" with
         | PList l =>
             ensure (negb (bool_decide (length l = 0)))
               (TaskError "No sessions provided");;
             Ok l
         | _ => Raise (TaskError "No sessions provided")
         end;
  check_sessions sess;;
  auths ← dict_getitem input_data "authorities" ≫= py_iter;
  auth_name ← find_auth_name (ROOT_URL cfg) auths PNone;
  ensure (py_truthy auth_name)
    (TaskError "trying to process what SEEMS to be an external election");;
  check_not_created n election_privpath sess;;
  Ok (mkChecked election_id election_privpath sess auths).

Definition generate_private_info (task : task_data) : M unit :=
  let input_data := input_data task in
  c ← (λ w, (preliminary_checks (fs w) (db w) input_data, w));
  election ←
    (if certs_differ (sender_ssl_cert task) (SSL_CERT_STRING cfg)
     then el ← create_local_data input_data (checked_election_id c)
                 (checked_privpath c) (checked_authorities c)
                 (checked_sessions c);
          mret (Some el)
     else query_election_first (checked_election_id c));
  (if negb (AUTOACCEPT_REQUESTS cfg)
   then info ← lift (approval_text input_data election);
        task_add (ExternalTask "approve_election" info)
   else mret tt);;
  task_add (SimpleTask (ROOT_URL cfg) "generate_private_info_verificatum"
              "orchestra_performer" ∅).

(** *** generate_private_info_verificatum *)

(** The command line of the tool that writes [localProtInfo.xml]. *)
Definition vmni_argv (auth_name : pyval) : list pyval :=
  [ PStr "vmni"; PStr "-party"; PStr "-arrays"; PStr "file"; PStr "-name";
    auth_name; PStr "-http"; PStr get_server_url; PStr "-hint";
    PStr get_hint_server_url ].

(** The loop over the sessions; [protinfos] is the list built so far.
    The identifiers are those of the parent task, which
    [generate_private_info] has validated: they are joined as names. *)
Fixpoint collect_protinfos (election_privpath : path) (auth_name : pyval)
    (l : list pyval) (protinfos : list pyval) : M (list pyval) :=
  match l with
  | [] => mret protinfos
  | session :: l' =>
      sid ← lift (py_getitem session "id");
      session_privpath ← lift (path_join election_privpath sid);
      let protinfo_path := (session_privpath ++ ["localProtInfo.xml"])%list in
      check_call (vmni_argv auth_name) session_privpath;;
      content ← file_read protinfo_path;
      collect_protinfos election_privpath auth_name l'
        (protinfos ++ [PStr content])%list
  end.

(** The guard on the approval: [true] when the step has to stop. *)
Definition not_accepted (task : local_task) : result bool :=
  if negb (AUTOACCEPT_REQUESTS cfg) then
    match prev_output_data task with
    | Some d => Ok (bool_decide (d ≠ accepted))
    | None => Raise AttributeError
    end
  else Ok false.

(** What the step reads from the parent task before the loop: the
    directory of the election, the name of this authority and the
    sessions. *)
Definition phase1_inputs (input_data : gmap string pyval)
    : result (path * pyval * list pyval) :=
  election_id ← dict_getitem input_data "election_id";
  sess ← dict_getitem input_data "sessions";
  auths ← dict_getitem input_data "authorities" ≫= py_iter;
  auth_name ← find_auth_name (ROOT_URL cfg) auths PNone;
  election_privpath ← path_join (PRIVATE_DATA_PATH cfg) election_id;
  sess_l ← py_iter sess;
  Ok (election_privpath, auth_name, sess_l).

Definition generate_private_info_verificatum (task : local_task) : M unit :=
  stop ← lift (not_accepted task);
  (if stop : bool
   then set_output_data (PStr "task not accepted");;
        raise (TaskError "task not accepted")
   else mret tt);;
  '(election_privpath, auth_name, sess_l) ←
    lift (phase1_inputs (parent_input_data task));
  protinfos ← collect_protinfos election_privpath auth_name sess_l [];
  parent_set_output_data (PList protinfos).

(** *** generate_public_key *)

(** The part of [generate_public_key] that follows its two guards:
    the merged [protInfo.xml], the two tools and the publication. *)
Definition publish_key (input_data : gmap string pyval)
    (election_id session_id : pyval) (session_privpath : ospath) : M unit :=
  let protinfo_path := os_child session_privpath "protInfo.xml" in
  merged ← os_exists protinfo_path;
  (if merged : bool then mret tt
   else os_open_w protinfo_path;;
        content ← lift (dict_getitem input_data "protInfo_content");
        os_file_write protinfo_path content);;
  os_check_call [PStr "vmn"; PStr "-keygen"; PStr "publicKey_raw"]
    session_privpath;;
  os_check_call [PStr "vmnc"; PStr "-pkey"; PStr "-outi"; PStr "json";
                 PStr "publicKey_raw"; PStr "publicKey_json"]
    session_privpath;;
  election_pubpath ←
    lift (os_path_join (PUBLIC_DATA_PATH cfg, []) election_id);
  session_pubpath ← lift (os_path_join election_pubpath session_id);
  published ← os_exists session_pubpath;
  (if published : bool then mret tt
   else os_mkdir_recursive_ session_pubpath);;
  copyfile (os_child session_privpath "publicKey_json")
           (os_child session_pubpath "publicKey_json");;
  copyfile (os_child session_privpath "protInfo.xml")
           (os_child session_pubpath "protInfo.xml").

Definition generate_public_key (task : task_data) : M unit :=
  let input_data := input_data task in
  session_id ← lift (dict_getitem input_data "session_id");
  election_id ← lift (dict_getitem input_data "election_id");
  election_privpath ←
    lift (os_path_join (PRIVATE_DATA_PATH cfg, []) election_id);
  session_privpath ← lift (os_path_join election_privpath session_id);
  there ← os_exists session_privpath;
  lift (ensure there (TaskError "invalid session_id / election_id"));;
  raw ← os_exists (os_child session_privpath "publicKey_raw");
  key ← (if raw : bool then mret true
         else os_exists (os_child session_privpath "publicKey_json"));
  lift (ensure (negb key) (TaskError "pubkey already created"));;
  publish_key input_data election_id session_id session_privpath.
End Ceremony.

(** ** The rules of the validator, as a table *)

(** A rule is a condition with the reason reported when it fails; a table
    of rules reports its first failing rule. *)
Definition rule : Type := bool * string.

Fixpoint verdict (rules : list rule) : result unit :=
  match rules with
  | [] => Ok tt
  | (holds, reason) :: rules' =>
      if holds then verdict rules' else Raise (TaskError reason)
  end.

(** A field of an entry of the payload; [None] when there is none. *)
Definition field_of (k : string) (adata : pyval) : pyval :=
  match adata with
  | PDict d => default PNone (d !! k)
  | _ => PNone
  end.

Definition is_dict (v : pyval) : bool := isinstance v Tdict.

(** The field [k] of the entry is there and is a text. *)
Definition is_text_field (k : string) (a : pyval) : Prop :=
  isinstance (field_of k a) Tbasestring = true.

Definition text_of (data : gmap string pyval) (k : string) : string :=
  match data !! k with
  | Some (PStr s) => s
  | _ => ""
  end.

Definition list_of (data : gmap string pyval) (k : string) : list pyval :=
  match data !! k with
  | Some (PList l) => l
  | _ => []
  end.

Definition auth_rules (adata : pyval) : list rule :=
  [ (isinstance (field_of "name" adata) Tbasestring,
     "invalid name parameter");
    (isinstance (field_of "orchestra_url" adata) Tbasestring,
     "invalid orchestra_url parameter");
    (isinstance (field_of "ssl_cert" adata) Tbasestring,
     "invalid ssl_cert parameter") ].

Section Rules.
Variable json_loads : string → option pyval.
Variable cfg : config.
Variable db : store.
Variable data : gmap string pyval.
Variable check_extra : bool.

(** The question list the count is taken of: the payload itself on a
    first submission, its parse otherwise. *)
Definition questions_of : pyval :=
  if check_extra then dict_get data "questions_data"
  else
    match dict_get data "questions_data" with
    | PStr s => default PNone (json_loads s)
    | _ => PNone
    end.

Definition questions_parse : bool :=
  match dict_get data "questions_data" with
  | PStr s => bool_decide (is_Some (json_loads s))
  | _ => false
  end.

Definition parse_rules : list rule :=
  [ (check_extra || questions_parse, "questions_data is not in json") ].

Definition field_rules : list rule :=
  [ (req_holds data ("election_id", Tbasestring),
     "invalid election_id parameter");
    (req_holds data ("title", Tbasestring), "invalid title parameter");
    (req_holds data ("url", Tbasestring), "invalid url parameter");
    (req_holds data ("description", Tbasestring),
     "invalid description parameter");
    (req_holds data ("is_recurring", Tbool),
     "invalid is_recurring parameter");
    (req_holds data ("authorities", Tlist),
     "invalid authorities parameter") ].

Definition extra_rules : list rule :=
  [ (negb check_extra || req_holds data ("callback_url", Tbasestring),
     "invalid callback_url parameter");
    (negb check_extra || req_holds data ("extra", Tlist),
     "invalid extra parameter");
    (negb check_extra || req_holds data ("questions_data", Tlist),
     "invalid questions_data parameter") ].

Definition date_rules : list rule :=
  [ (date_holds data "voting_start_date",
     "invalid voting_start_date parameter");
    (date_holds data "voting_end_date",
     "invalid voting_send_date parameter") ].

Definition shape_rules : list rule :=
  [ (re_match_id (text_of data "election_id"),
     "invalid characters in election_id");
    (negb (bool_decide (list_of data "authorities" = [])),
     "no authorities");
    (questions_count_ok cfg questions_of,
     "Unsupported number of questions in the election");
    (negb check_extra ||
     bool_decide (election_count db (PStr (text_of data "election_id")) = 0),
     "an election with id " +:+ text_of data "election_id" +:+
     " already exists") ].

Definition authority_rules : list rule :=
  flat_map auth_rules (list_of data "authorities").

Definition uniqueness_rules : list rule :=
  [ (bool_decide
       (NoDup (field_of "ssl_cert" <$> list_of data "authorities") ∧
        NoDup (field_of "orchestra_url" <$> list_of data "authorities")),
     "invalid authorities parameters") ].

(** The rules in the order the validator applies them. *)
Definition validation_rules : list rule :=
  (parse_rules ++ field_rules ++ extra_rules ++ date_rules ++
   shape_rules ++ authority_rules ++ uniqueness_rules)%list.

(** Every entry of the authority list is a dictionary. *)
Definition authorities_are_dicts : bool :=
  forallb is_dict (list_of data "authorities").
End Rules.

(** ** What the steps leave behind *)

(** The private directory of a session. *)
Definition session_privpath_of (cfg : config) (eid sid : string) : path :=
  ((PRIVATE_DATA_PATH cfg ++ [eid]) ++ [sid])%list.

(** The directory of a session under [base], as the key publisher
    spells it. *)
Definition session_dir (base : path) (eid sid : string) : ospath :=
  (base, [eid; sid]).

(** A text that is one name of an entry. *)
Definition is_name (s : string) : bool :=
  negb (is_absolute s) && bool_decide (components s = [s]) &&
  negb (is_here s) && negb (is_parent s).

(** The rows a performer makes of the entries of the payload. *)
Definition authority_row (election_id : pyval) (auth_data : pyval)
    : Authority.t :=
  Authority.mk (field_of "name" auth_data) (field_of "ssl_cert" auth_data)
    (field_of "orchestra_url" auth_data) election_id.

Definition session_row (election_id : pyval) (i : nat) (session : pyval)
    : Session.t :=
  Session.mk (field_of "id" session) election_id "default" "" i.

(** Nothing was created between two states: same files, same tables,
    same pending rows. *)
Definition nothing_created (w w' : world) : Prop :=
  fs w' = fs w ∧ db w' = db w ∧ db_session w' = db_session w.

(** The files and the tables between two states of the session loop:
    the tables are the same, every path that existed still exists, and
    the files outside [written] read the same. *)
Definition files_extend (written : path → Prop) (w w' : world) : Prop :=
  db w' = db w ∧
  (∀ p, path_exists (fs w) p = true → path_exists (fs w') p = true) ∧
  (∀ p, ¬ written p → read_file (fs w') p = read_file (fs w) p).

(** The rows of a table among the pending rows. *)
Definition row_election (r : row) : option Election.t :=
  match r with ElectionRow e => Some e | _ => None end.
Definition row_authority (r : row) : option Authority.t :=
  match r with AuthorityRow a => Some a | _ => None end.
Definition row_session (r : row) : option Session.t :=
  match r with SessionRow s => Some s | _ => None end.

(** Only the tools ran between two states: the file system and the log of
    their invocations may differ, nothing else does. *)
Definition only_tools_ran (w w' : world) : Prop :=
  db w' = db w ∧ db_session w' = db_session w ∧ subtasks w' = subtasks w ∧
  output_data w' = output_data w ∧
  parent_output_data w' = parent_output_data w ∧
  parent_update_sent w' = parent_update_sent w.

(** A value read as a text. *)
Definition name_of (v : pyval) : string :=
  match v with
  | PStr s => s
  | _ => ""
  end.

(** The identifier of a session entry, as a text. *)
Definition session_id_of (session : pyval) : string :=
  match field_of "id" session with
  | PStr s => s
  | _ => ""
  end.

(** The stub file of a session. *)
Definition stub_path_of (election_privpath : path) (session : pyval) : path :=
  ((election_privpath ++ [session_id_of session]) ++ ["stub.xml"])%list.


Section Descriptors.
Variable engine : list string → path → node → bool * node.
Variable get_server_url : string.
Variable get_hint_server_url : string.

Definition vmni_args (auth_name : string) : list string :=
  [ "vmni"; "-party"; "-arrays"; "file"; "-name"; auth_name; "-http";
    get_server_url; "-hint"; get_hint_server_url ].

(** The invocation of the tool for a session. *)
Definition vmni_call (election_privpath : path) (auth_name : string)
    (session : pyval) : engine_call :=
  (vmni_args auth_name, (election_privpath ++ [session_id_of session])%list).

(** [content] is what an invocation of the tool for this session, exiting
    with status zero, left in the [localProtInfo.xml] of the session. *)
Definition descriptor_of (election_privpath : path) (auth_name : string)
    (session : pyval) (content : string) : Prop :=
  ∃ n : node,
    is_text_field "id" session ∧
    let call := vmni_call election_privpath auth_name session in
    (engine call.1 call.2 n).1 = true ∧
    read_file (engine call.1 call.2 n).2
      (call.2 ++ ["localProtInfo.xml"])%list = Some content.
End Descriptors.


(** ** The checks of the validator as the specification words them *)

(** The eight checks of the specification, in its order. *)
Inductive spec_check :=
  | RequiredFields
  | FirstTimeExtras
  | VotingWindow
  | IdentifierPattern
  | Sizes
  | NotInStore
  | AuthorityFields
  | Uniqueness.

Definition spec_checks : list spec_check :=
  [ RequiredFields; FirstTimeExtras; VotingWindow; IdentifierPattern;
    Sizes; NotInStore; AuthorityFields; Uniqueness ].

(** The reasons of the validator, by the check they are about. *)
Definition check_reasons (data : gmap string pyval) (c : spec_check)
    : list string :=
  match c with
  | RequiredFields =>
      [ "invalid election_id parameter"; "invalid title parameter";
        "invalid url parameter"; "invalid description parameter";
        "invalid is_recurring parameter"; "invalid authorities parameter" ]
  | FirstTimeExtras =>
      [ "invalid callback_url parameter"; "invalid extra parameter";
        "invalid questions_data parameter"; "questions_data is not in json" ]
  | VotingWindow =>
      [ "invalid voting_start_date parameter";
        "invalid voting_send_date parameter" ]
  | IdentifierPattern => [ "invalid characters in election_id" ]
  | Sizes =>
      [ "no authorities"; "Unsupported number of questions in the election" ]
  | NotInStore =>
      [ "an election with id " +:+ text_of data "election_id" +:+
        " already exists" ]
  | AuthorityFields =>
      [ "invalid name parameter"; "invalid orchestra_url parameter";
        "invalid ssl_cert parameter" ]
  | Uniqueness => [ "invalid authorities parameters" ]
  end.

Section SpecChecks.
Variable json_loads : string → option pyval.
Variable cfg : config.
Variable db : store.
Variable data : gmap string pyval.
Variable first_time : bool.

(** A window field, if present, is a date or null. *)
Definition spec_window_field (k : string) : bool :=
  match data !! k with
  | None | Some PNone | Some (PDate _) => true
  | _ => false
  end.

(** The question list: parsed from the raw payload on a first
    submission, the payload itself otherwise. *)
Definition spec_questions : pyval :=
  if first_time then
    match dict_get data "questions_data" with
    | PStr s => default PNone (json_loads s)
    | _ => PNone
    end
  else dict_get data "questions_data".

Definition spec_check_holds (c : spec_check) : bool :=
  match c with
  | RequiredFields => forallb (req_holds data) base_requirements
  | FirstTimeExtras =>
      if first_time then
        bool_decide (is_Some (data !! "callback_url")) &&
        bool_decide (is_Some (data !! "extra")) &&
        match dict_get data "questions_data" with
        | PStr s => bool_decide (is_Some (json_loads s))
        | _ => false
        end
      else isinstance (dict_get data "questions_data") Tlist
  | VotingWindow =>
      spec_window_field "voting_start_date" &&
      spec_window_field "voting_end_date"
  | IdentifierPattern => re_match_id (text_of data "election_id")
  | Sizes =>
      negb (bool_decide (list_of data "authorities" = [])) &&
      questions_count_ok cfg spec_questions
  | NotInStore =>
      negb first_time ||
      bool_decide (election_count db (PStr (text_of data "election_id")) = 0)
  | AuthorityFields =>
      forallb (λ a, isinstance (field_of "name" a) Tbasestring &&
                    isinstance (field_of "orchestra_url" a) Tbasestring &&
                    isinstance (field_of "ssl_cert" a) Tbasestring)
        (list_of data "authorities")
  | Uniqueness =>
      bool_decide
        (NoDup (field_of "ssl_cert" <$> list_of data "authorities") ∧
         NoDup (field_of "orchestra_url" <$> list_of data "authorities"))
  end.

Definition spec_first_violated : option spec_check :=
  find (λ c, negb (spec_check_holds c)) spec_checks.

(** The validator does what the specification says of it: it accepts
    when no check is violated and otherwise raises one typed failure
    whose reason is one of the first violated check. *)
Definition follows_spec_order : Prop :=
  match spec_first_violated with
  | None => check_election_data json_loads cfg db data first_time = Ok tt
  | Some c =>
      ∃ reason,
        check_election_data json_loads cfg db data first_time =
          Raise (TaskError reason) ∧
        reason ∈ check_reasons data c
  end.
End SpecChecks.

(** ** A small election, to run the steps on *)

Module Demo.
(** A [json.loads] that knows two texts. *)
Definition json_loads (s : string) : option pyval :=
  if String.eqb s "[1]" then Some (PList [PInt 1])
  else if String.eqb s "[1, 2]" then Some (PList [PInt 1; PInt 2])
  else None.

Definition dumps (v : pyval) : string := "<json>".
Definition isoformat (t : Z) : string := "<date>".
Definition certs_differ (a b : string) : bool := negb (String.eqb a b).

(** Tools that write the file they are asked for into the working
    directory and exit with status zero. *)
Definition tool_output (argv : list string) : option (string * string) :=
  match argv with
  | "vmni" :: _ => Some ("localProtInfo.xml", "<localProtInfo/>")
  | "vmn" :: _ => Some ("publicKey_raw", "<raw key>")
  | "vmnc" :: _ => Some ("publicKey_json", "<json key>")
  | _ => None
  end.

Definition engine (argv : list string) (cwd : path) (n : node)
    : bool * node :=
  match tool_output argv with
  | Some (name, content) =>
      match write_file n (cwd ++ [name])%list content with
      | Some n' => (true, n')
      | None => (false, n)
      end
  | None => (false, n)
  end.

(** A tool that always exits with a nonzero status. *)
Definition broken_engine (argv : list string) (cwd : path) (n : node)
    : bool * node := (false, n).

Definition cfg : config :=
  mkConfig ["private"] ["public"] "https://a2" "CERT-A2" true None.

Definition cfg_manual : config :=
  mkConfig ["private"] ["public"] "https://a2" "CERT-A2" false None.

Definition authority (name url cert : string) : pyval :=
  PDict (list_to_map
    [ ("name", PStr name); ("orchestra_url", PStr url);
      ("ssl_cert", PStr cert) ]).

Definition two_authorities : pyval :=
  PList [ authority "a1" "https://a1" "CERT-A1";
          authority "a2" "https://a2" "CERT-A2" ].

Definition same_name_authorities : pyval :=
  PList [ authority "a" "https://a1" "CERT-A1";
          authority "a" "https://a2" "CERT-A2" ].

Definition session (id stub : string) : pyval :=
  PDict (list_to_map [ ("id", PStr id); ("stub", PStr stub) ]).

(** The payload a performer receives for election [E1]. *)
Definition payload (auths questions start_date end_date : pyval)
    : gmap string pyval :=
  list_to_map
    [ ("election_id", PStr "E1"); ("title", PStr "Board");
      ("url", PStr "https://vote/E1"); ("description", PStr "A vote");
      ("is_recurring", PBool false); ("authorities", auths);
      ("questions_data", questions);
      ("voting_start_date", start_date); ("voting_end_date", end_date);
      ("num_parties", PInt 2); ("threshold_parties", PInt 2);
      ("sessions", PList [session "S1" "<stub/>"]) ].

Definition input : gmap string pyval :=
  payload two_authorities (PStr "[1]") PNone PNone.

(** The submission of the same election to the public API. *)
Definition submission (questions : pyval) : gmap string pyval :=
  <["callback_url" := PStr "https://cb"]>
    (<["extra" := PList []]> (payload two_authorities questions PNone PNone)).

(** The same payload with an unreadable question text and no title,
    and with no start of the voting window. *)
Definition untitled : gmap string pyval :=
  delete "title" (payload two_authorities (PStr "oops") PNone PNone).

Definition no_start_date : gmap string pyval :=
  delete "voting_start_date" input.

Definition task : task_data := mkTask input "CERT-A1".

Definition empty_store : store := mkStore [] [] [].

Definition world0 : world :=
  mkWorld (Dir ∅) empty_store [] [] [] PNone PNone false.

Definition run {A} (m : M A) (w : world) : world := (m w).2.

(** The three steps on this node, and the states they lead to. *)
Definition bootstrap : M unit :=
  generate_private_info json_loads json_loads dumps isoformat certs_differ
    cfg task.

Definition phase1 (local : local_task) : M unit :=
  generate_private_info_verificatum "a2:8443" "a2:8081" engine cfg local.

(** Phase 1 on a node that asks its operator, after a refusal. *)
Definition phase1_manual (local : local_task) : M unit :=
  generate_private_info_verificatum "a2:8443" "a2:8081" engine cfg_manual
    local.

Definition rejected : pyval := PDict {[ "status" := PStr "rejected" ]}.

Definition refused_task : local_task := mkLocal (Some rejected) input.

Definition key_task : task_data :=
  mkTask (list_to_map
            [ ("election_id", PStr "E1"); ("session_id", PStr "S1");
              ("protInfo_content", PStr "<protInfo/>") ])
    "CERT-A1".

(** The same request with the session spelled [./S1]. *)
Definition respelled_key_task : task_data :=
  mkTask (list_to_map
            [ ("election_id", PStr "E1"); ("session_id", PStr "./S1");
              ("protInfo_content", PStr "<protInfo/>") ])
    "CERT-A1".

Definition publish : M unit := generate_public_key engine cfg key_task.

Definition world1 : world := run bootstrap world0.
Definition world2 : world := run (phase1 (mkLocal None input)) world1.
Definition world3 : world := run publish world2.
Definition world_refused : world := run (phase1_manual refused_task) world1.

(** The same election with a voting window that ends before it starts. *)
Definition backwards_task : task_data :=
  mkTask (payload two_authorities (PStr "[1]") (PDate 2000) (PDate 1000))
    "CERT-A1".

Definition bootstrap_backwards : M unit :=
  generate_private_info json_loads json_loads dumps isoformat certs_differ
    cfg backwards_task.

Definition world_backwards : world := run bootstrap_backwards world0.
End Demo.

(** ** Vocabulary of the further properties *)

(** The text of one newline. *)
Definition newline : string := String (Ascii.ascii_of_nat 10) EmptyString.

(** Every character is a letter, a digit, an underscore or a hyphen. *)
Fixpoint all_id_chars (s : string) : bool :=
  match s with
  | EmptyString => true
  | String c s' => is_id_char c && all_id_chars s'
  end.

(** An exception that is not the typed failure of the ceremony. *)
Definition untyped (e : exn) : Prop := ∀ reason, e ≠ TaskError reason.

(** Whatever the outcome of [m], the states before and after are related
    by [P] and an exception it raises satisfies [Q]. *)
Definition keeps {A} (P : world → world → Prop) (Q : exn → Prop) (m : M A)
    : Prop :=
  ∀ w r w', m w = (r, w') → P w w' ∧ ∀ e, r = Raise e → Q e.

(** A session entry as the bootstrap accepts it: a dictionary with a
    text stub and an identifier that matches the pattern. *)
Definition session_wellformed (session : pyval) : Prop :=
  is_dict session = true ∧ is_text_field "stub" session ∧
  is_text_field "id" session ∧ re_match_id (session_id_of session) = true.

(** The same tasks and outputs, and the same log of the tools. *)
Definition same_tasks (w w' : world) : Prop :=
  engine_log w' = engine_log w ∧ subtasks w' = subtasks w ∧
  output_data w' = output_data w ∧
  parent_output_data w' = parent_output_data w ∧
  parent_update_sent w' = parent_update_sent w.

(** The two invocations of the tools by the key publisher. *)
Definition keygen_call (dir : path) : engine_call :=
  (["vmn"; "-keygen"; "publicKey_raw"], dir).

Definition transcode_call (dir : path) : engine_call :=
  (["vmnc"; "-pkey"; "-outi"; "json"; "publicKey_raw"; "publicKey_json"],
   dir).

(** Any two states. *)
Definition any_state (w w' : world) : Prop := True.

(** The keys of the payload that the validator looks at. *)
Definition validated_keys (check_extra : bool) : list string :=
  ([ "questions_data"; "election_id"; "title"; "url"; "description";
     "is_recurring"; "authorities"; "voting_start_date";
     "voting_end_date" ] ++
   (if check_extra then ["callback_url"; "extra"] else []))%list.

(** * Properties *)

(** ** The error monad *)

Ltac rsimpl :=
  unfold mbind, result_bind, mret, result_ret, ensure in *; simpl in *.

Lemma verdict_app (r1 r2 : list rule) :
  verdict (r1 ++ r2) = verdict r1 ≫= λ _, verdict r2.
Proof.
  induction r1 as [|[b s] r1 IH]; simpl; [done|].
  destruct b; [exact IH|done].
Qed.

Lemma verdict_Ok (rules : list rule) :
  verdict rules = Ok tt ↔ Forall (λ r, r.1 = true) rules.
Proof.
  induction rules as [|[b s] rules IH]; simpl.
  - split; [constructor|done].
  - destruct b.
    + rewrite IH. split; [by constructor|by inversion 1].
    + split; [done|]. inversion 1; simplify_eq/=.
Qed.

(** ** The validator against its table *)

Lemma check_requirements_verdict (data : gmap string pyval)
    (reqs : list requirement) :
  check_requirements data reqs =
  verdict ((λ req, (req_holds data req,
                    "invalid " +:+ req.1 +:+ " parameter")) <$> reqs).
Proof.
  induction reqs as [|req reqs IH]; simpl; [done|].
  destruct (req_holds data req); [exact IH|done].
Qed.

Lemma check_auth_req_dict (d : gmap string pyval) (req : requirement) :
  check_auth_req (PDict d) req =
  verdict [(isinstance (field_of req.1 (PDict d)) req.2,
            "invalid " +:+ req.1 +:+ " parameter")].
Proof.
  unfold check_auth_req, field_of. rsimpl.
  destruct (d !! req.1) as [v|] eqn:E; simpl.
  - by destruct (isinstance v req.2).
  - by destruct req.2.
Qed.

Lemma check_authorities_verdict (l : list pyval) :
  forallb is_dict l = true →
  check_authorities l = verdict (flat_map auth_rules l).
Proof.
  induction l as [|a l IH]; [done|].
  intros [Ha Hl]%andb_true_iff.
  change (flat_map auth_rules (a :: l))
    with (auth_rules a ++ flat_map auth_rules l)%list.
  rewrite verdict_app, <- (IH Hl).
  destruct a; try discriminate Ha. clear.
  unfold check_authorities at 1; fold check_authorities.
  unfold check_auth_reqs, auth_reqs.
  rewrite !check_auth_req_dict. unfold auth_rules, field_of. rsimpl.
  repeat match goal with
         | |- context [default PNone (d !! ?k)] =>
             destruct (default PNone (d !! k))
         end; done.
Qed.
Lemma remove_dups_length_le {A} `{EqDecision A} (l : list A) :
  (length (remove_dups l) ≤ length l)%nat.
Proof.
  induction l as [|x l IH]; simpl; [done|].
  destruct (decide_rel elem_of x l); simpl; lia.
Qed.

Lemma remove_dups_length_NoDup {A} `{EqDecision A} (l : list A) :
  length (remove_dups l) = length l ↔ NoDup l.
Proof.
  induction l as [|x l IH]; simpl.
  - split; [constructor|done].
  - pose proof (remove_dups_length_le l) as Hle.
    destruct (decide_rel elem_of x l) as [Hin|Hin]; simpl.
    + split; [lia|]. by inversion 1.
    + split.
      * intros Hlen. constructor; [done|]. apply IH. lia.
      * inversion 1; subst. f_equal. by apply IH.
Qed.

Lemma py_collect_fields (l : list pyval) (k : string) :
  Forall (is_text_field k) l → py_collect l k = Ok (field_of k <$> l).
Proof.
  induction 1 as [|a l Ha _ IH]; simpl; [done|].
  rewrite IH. unfold is_text_field, field_of in *.
  destruct a; try discriminate Ha. simpl.
  destruct (d !! k); [done|discriminate Ha].
Qed.

Lemma py_set_len_plain (vs : list pyval) :
  Forall (λ v, py_hashable v = true ∧ py_hash_key v = v) vs →
  py_set_len vs = Ok (length (remove_dups vs)).
Proof.
  intros Hv. unfold py_set_len.
  replace (forallb py_hashable vs) with true.
  - do 3 f_equal.
    induction Hv as [|v vs' [_ Hv] _ IH]; csimpl; [done|]. by rewrite Hv, IH.
  - symmetry. apply forallb_forall. intros v Hin.
    rewrite Forall_forall in Hv. apply Hv. by apply list_elem_of_In.
Qed.

Lemma py_set_len_texts (l : list pyval) (k : string) :
  Forall (is_text_field k) l →
  py_set_len (field_of k <$> l) =
  Ok (length (remove_dups (field_of k <$> l))).
Proof.
  intros Hl. apply py_set_len_plain, Forall_fmap.
  eapply Forall_impl; [exact Hl|].
  intros a Ha. unfold is_text_field in Ha. simpl.
  by destruct (field_of k a).
Qed.

Lemma unique_by_keys_fields (l : list pyval) :
  Forall (is_text_field "ssl_cert") l →
  Forall (is_text_field "orchestra_url") l →
  unique_by_keys l ["ssl_cert"; "orchestra_url"] =
  Ok (bool_decide (NoDup (field_of "ssl_cert" <$> l) ∧
                   NoDup (field_of "orchestra_url" <$> l))).
Proof.
  intros Hc Hu. cbn [unique_by_keys].
  rewrite !py_collect_fields by done. cbn [mbind result_bind].
  rewrite !py_set_len_texts by done. cbn [mbind result_bind].
  pose proof (remove_dups_length_NoDup (field_of "ssl_cert" <$> l)) as Hcert.
  pose proof (remove_dups_length_NoDup (field_of "orchestra_url" <$> l))
    as Hurl.
  rewrite length_fmap in Hcert, Hurl.
  repeat case_bool_decide; try done; exfalso;
    rewrite <- ?Hcert, <- ?Hurl in *; lia.
Qed.
Lemma auth_rules_Ok (l : list pyval) :
  verdict (flat_map auth_rules l) = Ok tt →
  Forall (λ a, is_text_field "name" a ∧ is_text_field "orchestra_url" a ∧
               is_text_field "ssl_cert" a) l.
Proof.
  rewrite verdict_Ok. induction l as [|a l IH]; [constructor|].
  change (flat_map auth_rules (a :: l))
    with (auth_rules a ++ flat_map auth_rules l)%list.
  rewrite Forall_app. intros [Ha Hl]. constructor; [|by apply IH].
  unfold auth_rules in Ha. rewrite !Forall_cons in Ha.
  destruct Ha as (? & ? & ? & _). by repeat split.
Qed.

Section ValidatorTable.
Variable json_loads : string → option pyval.
Variable cfg : config.
Variable db : store.
Variable data : gmap string pyval.
Variable check_extra : bool.

Lemma load_questions_data_verdict :
  load_questions_data json_loads data check_extra =
  verdict (parse_rules json_loads data check_extra) ≫= λ _,
  Ok (questions_of json_loads data check_extra).
Proof.
  unfold load_questions_data, parse_rules, questions_of, questions_parse.
  destruct check_extra; simpl; [done|].
  destruct (dict_get data "questions_data"); try done.
  by destruct (json_loads s).
Qed.

Lemma requirements_verdict :
  check_requirements data
    (if check_extra then (base_requirements ++ extra_requirements)%list
     else base_requirements) =
  verdict (field_rules data ++ extra_rules data check_extra).
Proof.
  rewrite check_requirements_verdict.
  destruct check_extra; reflexivity.
Qed.

Lemma field_rules_Ok :
  verdict (field_rules data) = Ok tt →
  ∃ eid l, data !! "election_id" = Some (PStr eid) ∧
           data !! "authorities" = Some (PList l).
Proof.
  rewrite verdict_Ok. unfold field_rules, req_holds.
  rewrite !Forall_cons. simpl. intros (He & _ & _ & _ & _ & Ha & _).
  destruct (data !! "election_id") as [[]|]; try discriminate He.
  destruct (data !! "authorities") as [[]|]; try discriminate Ha.
  eauto.
Qed.

Lemma check_election_data_verdict :
  authorities_are_dicts data = true →
  check_election_data json_loads cfg db data check_extra =
  verdict (validation_rules json_loads cfg db data check_extra).
Proof.
  intros Hdicts. unfold check_election_data, validation_rules.
  rewrite load_questions_data_verdict, requirements_verdict.
  rewrite !verdict_app.
  destruct (verdict (parse_rules json_loads data check_extra))
    as [[]|]; [|done].
  cbn [mbind result_bind].
  destruct (verdict (field_rules data)) as [[]|] eqn:Hfields; [|done].
  destruct (field_rules_Ok Hfields) as (eid & l & Heid & Hl).
  cbn [mbind result_bind].
  destruct (verdict (extra_rules data check_extra)) as [[]|]; [|done].
  cbn [mbind result_bind].
  unfold date_rules, shape_rules, authority_rules, uniqueness_rules,
    authorities_are_dicts, text_of, list_of, dict_getitem, ensure in *.
  rewrite Heid, Hl in *. cbn [verdict].
  destruct (date_holds data "voting_start_date"); [|done].
  destruct (date_holds data "voting_end_date"); [|done].
  cbn [mbind result_bind py_re_match_id py_list py_text].
  destruct (re_match_id eid); [|done].
  cbn [mbind result_bind].
  rewrite (bool_decide_ext (length l = 0) (l = []))
    by apply length_zero_iff_nil.
  destruct (negb (bool_decide (l = []))); [|done].
  cbn [mbind result_bind].
  destruct (questions_count_ok _ _); [|done].
  cbn [mbind result_bind].
  assert ((0 <? election_count db (PStr eid))%nat =
          negb (bool_decide (election_count db (PStr eid) = 0))) as ->.
  { destruct (election_count db (PStr eid)); by case_bool_decide. }
  destruct check_extra, (bool_decide (election_count db (PStr eid) = 0));
    try done; cbn [andb orb negb mbind result_bind];
    rewrite (check_authorities_verdict _ Hdicts);
    (destruct (verdict (flat_map auth_rules l)) as [[]|] eqn:Hauth;
     [|done]);
    cbn [mbind result_bind];
    (rewrite unique_by_keys_fields by
       (eapply Forall_impl; [exact (auth_rules_Ok _ Hauth)|];
        by intros ? (? & ? & ?)));
    cbn [mbind result_bind]; by case_bool_decide.
Qed.
End ValidatorTable.
Lemma bind_Ok {A B} (m : result A) (f : A → result B) (b : B) :
  m ≫= f = Ok b → ∃ a, m = Ok a ∧ f a = Ok b.
Proof. destruct m as [a|e]; [eauto|discriminate]. Qed.

Lemma ensure_Ok (b : bool) (e : exn) (u : unit) : ensure b e = Ok u → b = true.
Proof. by destruct b. Qed.

Ltac bind_inv H :=
  repeat
    (let a := fresh "a" in
     let Ha := fresh "Ha" in
     apply bind_Ok in H as (a & Ha & H)).

Lemma check_authorities_Ok_dicts (l : list pyval) :
  check_authorities l = Ok tt → forallb is_dict l = true.
Proof.
  induction l as [|a l IH]; [done|].
  cbn [check_authorities forallb]. intros H.
  apply bind_Ok in H as (? & Ha & H). rewrite (IH H), andb_true_r.
  destruct a as [| | |s| |l0|]; try done;
    unfold check_auth_reqs, auth_reqs, check_auth_req in Ha; rsimpl.
  - destruct (is_substring "name" s); discriminate Ha.
  - destruct (bool_decide (PStr "name" ∈ l0)); discriminate Ha.
Qed.

Section ValidatorOk.
Variable json_loads : string → option pyval.
Variable cfg : config.
Variable db : store.
Variable data : gmap string pyval.
Variable check_extra : bool.

Lemma check_election_data_Ok_dicts :
  check_election_data json_loads cfg db data check_extra = Ok tt →
  authorities_are_dicts data = true.
Proof.
  unfold check_election_data. intros H.
  apply bind_Ok in H as (q & _ & H).
  apply bind_Ok in H as (? & _ & H).
  apply bind_Ok in H as (? & _ & H).
  apply bind_Ok in H as (? & _ & H).
  apply bind_Ok in H as (eid & _ & H).
  apply bind_Ok in H as (? & _ & H).
  apply bind_Ok in H as (? & _ & H).
  apply bind_Ok in H as (auths & Hauths & H).
  apply bind_Ok in H as (l & Hl & H).
  apply bind_Ok in H as (? & _ & H).
  apply bind_Ok in H as (? & _ & H).
  apply bind_Ok in H as (? & _ & H).
  apply bind_Ok in H as ([] & Hdicts & H).
  unfold authorities_are_dicts, list_of, dict_getitem in *.
  destruct (data !! "authorities") as [v|]; [|done].
  injection Hauths as <-. destruct v; try done.
  injection Hl as <-. by apply check_authorities_Ok_dicts.
Qed.

Lemma check_election_data_Ok :
  check_election_data json_loads cfg db data check_extra = Ok tt ↔
  Forall (λ r, r.1 = true)
    (validation_rules json_loads cfg db data check_extra).
Proof.
  rewrite <- verdict_Ok. split.
  - intros H. by rewrite <- check_election_data_verdict
      by by apply check_election_data_Ok_dicts.
  - intros H. rewrite check_election_data_verdict; [done|].
    apply verdict_Ok in H. unfold validation_rules in H.
    rewrite !Forall_app in H. destruct H as (_ & _ & _ & _ & _ & H & _).
    apply verdict_Ok, auth_rules_Ok in H. unfold authorities_are_dicts.
    apply forallb_forall. intros a Ha%list_elem_of_In.
    rewrite Forall_forall in H. destruct (H a Ha) as (Hn & _).
    unfold is_text_field, field_of in Hn. by destruct a.
Qed.
End ValidatorOk.

(** * The validator *)


(** ** C3 *)

(** C3, as stated, at a concrete input: on re-validation of a payload
    with no title and an unreadable question text the first violated
    check of the specification is the required fields, and the validator
    reports the question text. *)
Lemma revalidation_reports_payload_first :
  spec_first_violated Demo.json_loads Demo.cfg Demo.empty_store Demo.untitled false
    = Some RequiredFields ∧
  check_election_data Demo.json_loads Demo.cfg Demo.empty_store Demo.untitled false
    = Raise (TaskError "questions_data is not in json") ∧
  ¬ follows_spec_order Demo.json_loads Demo.cfg Demo.empty_store Demo.untitled false.
Proof.
  assert (spec_first_violated Demo.json_loads Demo.cfg Demo.empty_store Demo.untitled false
          = Some RequiredFields) as Hfirst by (vm_compute; reflexivity).
  assert (check_election_data Demo.json_loads Demo.cfg Demo.empty_store Demo.untitled false
          = Raise (TaskError "questions_data is not in json")) as Hcode
    by (vm_compute; reflexivity).
  split; [exact Hfirst|]. split; [exact Hcode|].
  unfold follows_spec_order. rewrite Hfirst, Hcode.
  intros (reason & [= <-] & Hin). revert Hin.
  unfold check_reasons. rewrite !elem_of_cons, elem_of_nil.
  intros Hin. repeat destruct Hin as [Hin|Hin]; discriminate || done.
Qed.

(** C3, amended. For a submission whose authority entries are
    dictionaries the validator returns the verdict of its table of rules:
    the typed failure of the first rule that fails, in the order of the
    code, and success exactly when every rule holds. *)
Theorem validator_reports_first_failing_rule
    (json_loads : string → option pyval) (cfg : config) (db : store)
    (data : gmap string pyval) (check_extra : bool)
    (Hdicts : authorities_are_dicts data = true) :
  check_election_data json_loads cfg db data check_extra =
    verdict (validation_rules json_loads cfg db data check_extra) ∧
  (check_election_data json_loads cfg db data check_extra = Ok tt ↔
   Forall (λ r, r.1 = true)
     (validation_rules json_loads cfg db data check_extra)).
Proof.
  split; [by apply check_election_data_verdict|].
  apply check_election_data_Ok.
Qed.

Lemma validator_reports_first_failing_rule_witness :
  authorities_are_dicts (Demo.submission (PList [PInt 1])) = true ∧
  check_election_data Demo.json_loads Demo.cfg Demo.empty_store (Demo.submission (PList [PInt 1]))
    true = Ok tt.
Proof.
  split; [reflexivity|].
  apply (validator_reports_first_failing_rule Demo.json_loads Demo.cfg Demo.empty_store
           (Demo.submission (PList [PInt 1])) true); [reflexivity|].
  vm_compute. repeat constructor.
Defined.

(** ** C7 *)

(** C7, as stated, at a concrete input: a first submission with a
    serialized question text and a re-validation with a parsed question
    list are both refused. *)
Lemma questions_payload_modes :
  check_election_data Demo.json_loads Demo.cfg Demo.empty_store (Demo.submission (PStr "[1]")) true
    = Raise (TaskError "invalid questions_data parameter") ∧
  check_election_data Demo.json_loads Demo.cfg Demo.empty_store
    (Demo.payload Demo.two_authorities (PList [PInt 1]) PNone PNone) false
    = Raise (TaskError "questions_data is not in json").
Proof. split; vm_compute; reflexivity. Qed.

(** C7, amended. On a first submission the question payload is never
    deserialized and has to be a list; on re-validation it has to be a
    text that [json.loads] parses to a list, and a text that does not
    parse is refused with "questions_data is not in json". *)
Theorem questions_payload_by_mode
    (json_loads : string → option pyval) (cfg : config) (db : store)
    (data : gmap string pyval) :
  (∀ json_loads', check_election_data json_loads cfg db data true =
                  check_election_data json_loads' cfg db data true) ∧
  (check_election_data json_loads cfg db data true = Ok tt →
   ∃ l, data !! "questions_data" = Some (PList l)) ∧
  (check_election_data json_loads cfg db data false = Ok tt →
   ∃ s l, data !! "questions_data" = Some (PStr s) ∧
          json_loads s = Some (PList l)) ∧
  (questions_parse json_loads data = false →
   check_election_data json_loads cfg db data false =
     Raise (TaskError "questions_data is not in json")).
Proof.
  split; [|split; [|split]].
  - intros json_loads'. reflexivity.
  - intros H%check_election_data_Ok. unfold validation_rules in H.
    rewrite !Forall_app in H. destruct H as (_ & _ & H & _).
    unfold extra_rules in H. rewrite !Forall_cons in H.
    destruct H as (_ & _ & H & _). simpl in H. unfold req_holds in H.
    simpl in H. destruct (data !! "questions_data") as [[]|]; try done.
    eauto.
  - intros H%check_election_data_Ok. unfold validation_rules in H.
    rewrite !Forall_app in H. destruct H as (Hp & _ & _ & _ & Hs & _).
    unfold parse_rules, shape_rules in *. rewrite !Forall_cons in *.
    destruct Hp as (Hp & _). destruct Hs as (_ & _ & Hs & _).
    simpl in *. unfold questions_parse, questions_of, dict_get in *.
    destruct (data !! "questions_data") as [[]|]; try done. simpl in *.
    destruct (json_loads s) as [[]|] eqn:E; try done. eauto.
  - intros H. unfold check_election_data, load_questions_data.
    unfold questions_parse in H.
    destruct (dict_get data "questions_data"); try reflexivity.
    destruct (json_loads s); [|reflexivity].
    by rewrite bool_decide_eq_true_2 in H by eauto.
Qed.

Lemma questions_payload_by_mode_witness :
  check_election_data Demo.json_loads Demo.cfg Demo.empty_store Demo.input false = Ok tt ∧
  ∃ s l, Demo.input !! "questions_data" = Some (PStr s) ∧
         Demo.json_loads s = Some (PList l).
Proof.
  split; [vm_compute; reflexivity|].
  apply (questions_payload_by_mode Demo.json_loads Demo.cfg Demo.empty_store Demo.input).
  vm_compute; reflexivity.
Defined.

(** ** C8 *)

(** C8, as stated, at a concrete input: two authorities with the same
    name, distinct certificates and distinct endpoints are accepted. *)
Lemma shared_name_is_accepted :
  field_of "name" <$>
    list_of (Demo.payload Demo.same_name_authorities (PStr "[1]") PNone PNone)
      "authorities" = [PStr "a"; PStr "a"] ∧
  check_election_data Demo.json_loads Demo.cfg Demo.empty_store
    (Demo.payload Demo.same_name_authorities (PStr "[1]") PNone PNone) false = Ok tt.
Proof. split; vm_compute; reflexivity. Qed.

(** C8, amended. A submission that passes the earlier rules is accepted
    when the certificates are pairwise distinct and the endpoints are
    pairwise distinct, and refused with "invalid authorities parameters"
    otherwise; the names are not compared. *)
Theorem uniqueness_by_certificate_and_endpoint
    (json_loads : string → option pyval) (cfg : config) (db : store)
    (data : gmap string pyval) (check_extra : bool)
    (Hbefore :
       verdict (parse_rules json_loads data check_extra ++ field_rules data ++
                extra_rules data check_extra ++ date_rules data ++
                shape_rules json_loads cfg db data check_extra ++
                authority_rules data) = Ok tt) :
  check_election_data json_loads cfg db data check_extra =
    if bool_decide
         (NoDup (field_of "ssl_cert" <$> list_of data "authorities") ∧
          NoDup (field_of "orchestra_url" <$> list_of data "authorities"))
    then Ok tt
    else Raise (TaskError "invalid authorities parameters").
Proof.
  assert (authorities_are_dicts data = true) as Hdicts.
  { apply verdict_Ok in Hbefore. rewrite !Forall_app in Hbefore.
    destruct Hbefore as (_ & _ & _ & _ & _ & H).
    apply verdict_Ok, auth_rules_Ok in H. unfold authorities_are_dicts.
    apply forallb_forall. intros a Ha%list_elem_of_In.
    rewrite Forall_forall in H. destruct (H a Ha) as (Hn & _).
    unfold is_text_field, field_of in Hn. by destruct a. }
  rewrite check_election_data_verdict by done. unfold validation_rules.
  rewrite !verdict_app in *.
  repeat match type of Hbefore with
         | (?m ≫= _) = Ok _ =>
             destruct m as [[]|]; [cbn [mbind result_bind] in *|done]
         end.
  rewrite Hbefore. reflexivity.
Qed.

Lemma uniqueness_by_certificate_and_endpoint_witness :
  check_election_data Demo.json_loads Demo.cfg Demo.empty_store
    (Demo.payload Demo.same_name_authorities (PStr "[1]") PNone PNone) false = Ok tt.
Proof.
  rewrite (uniqueness_by_certificate_and_endpoint Demo.json_loads Demo.cfg Demo.empty_store
             (Demo.payload Demo.same_name_authorities (PStr "[1]") PNone PNone) false);
    vm_compute; reflexivity.
Defined.

(** ** C10 *)

Lemma date_holds_insert_null (data : gmap string pyval) (k k' : string) :
  date_holds data k' = true →
  date_holds (<[k := PNone]> data) k' = true.
Proof.
  unfold date_holds. destruct (decide (k = k')) as [->|Hne].
  - by rewrite lookup_insert_eq.
  - by rewrite lookup_insert_ne.
Qed.

Lemma validation_rules_insert_null
    (json_loads : string → option pyval) (cfg : config) (db : store)
    (data : gmap string pyval) (check_extra : bool) (k : string) :
  k = "voting_start_date" ∨ k = "voting_end_date" →
  Forall (λ r, r.1 = true)
    (validation_rules json_loads cfg db data check_extra) →
  Forall (λ r, r.1 = true)
    (validation_rules json_loads cfg db (<[k := PNone]> data) check_extra).
Proof.
  intros Hk. unfold validation_rules. rewrite !Forall_app.
  intros (Hp & Hf & He & Hd & Hs & Ha & Hu).
  assert (∀ k', k' ≠ "voting_start_date" → k' ≠ "voting_end_date" →
          (<[k := PNone]> data) !! k' = data !! k') as Hlook.
  { intros k' H1 H2. apply lookup_insert_ne. by destruct Hk as [-> | ->]. }
  repeat split.
  - unfold parse_rules, questions_parse, dict_get in *.
    by rewrite Hlook.
  - unfold field_rules, req_holds in *. simpl. by rewrite !Hlook.
  - unfold extra_rules, req_holds in *. simpl. by rewrite !Hlook.
  - unfold date_rules in *. rewrite !Forall_cons in *.
    destruct Hd as (H1 & H2 & _). simpl in *.
    split; [by apply date_holds_insert_null|].
    split; [by apply date_holds_insert_null|done].
  - unfold shape_rules, text_of, list_of, questions_of, dict_get in *.
    simpl. by rewrite !Hlook.
  - unfold authority_rules, list_of in *. by rewrite Hlook.
  - unfold uniqueness_rules, list_of in *. by rewrite Hlook.
Qed.

(** C10. The two keys of the voting window are required and their
    values are not.  When the earlier rules pass, a submission without
    the key [voting_start_date], or with a value for it that is neither
    null nor a datetime, is refused with "invalid voting_start_date
    parameter"; past that, the same holds of [voting_end_date] with
    "invalid voting_send_date parameter"; and a submission in which
    either key is present with the value null or a datetime passes the two
    checks: it is accepted exactly when the later rules hold.  Setting
    either key to null keeps an accepted submission accepted. *)
Theorem voting_window_keys_required
    (json_loads : string → option pyval) (cfg : config) (db : store)
    (data : gmap string pyval) (check_extra : bool)
    (Hbefore :
       verdict (parse_rules json_loads data check_extra ++ field_rules data ++
                extra_rules data check_extra) = Ok tt) :
  let null_or_datetime v := v = PNone ∨ ∃ t, v = PDate t in
  (data !! "voting_start_date" = None →
   check_election_data json_loads cfg db data check_extra =
     Raise (TaskError "invalid voting_start_date parameter")) ∧
  (∀ v, data !! "voting_start_date" = Some v → ¬ null_or_datetime v →
   check_election_data json_loads cfg db data check_extra =
     Raise (TaskError "invalid voting_start_date parameter")) ∧
  (∀ start, data !! "voting_start_date" = Some start →
   null_or_datetime start →
   (data !! "voting_end_date" = None →
    check_election_data json_loads cfg db data check_extra =
      Raise (TaskError "invalid voting_send_date parameter")) ∧
   (∀ v, data !! "voting_end_date" = Some v → ¬ null_or_datetime v →
    check_election_data json_loads cfg db data check_extra =
      Raise (TaskError "invalid voting_send_date parameter")) ∧
   (∀ v, data !! "voting_end_date" = Some v → null_or_datetime v →
    (check_election_data json_loads cfg db data check_extra = Ok tt ↔
     verdict (shape_rules json_loads cfg db data check_extra ++
              authority_rules data ++ uniqueness_rules data) = Ok tt))) ∧
  (∀ k, k = "voting_start_date" ∨ k = "voting_end_date" →
   check_election_data json_loads cfg db data check_extra = Ok tt →
   check_election_data json_loads cfg db (<[k := PNone]> data) check_extra
     = Ok tt).
Proof.
  cbn zeta.
  assert (∀ k, data !! k = None → date_holds data k = false) as Habsent.
  { intros k Hk. unfold date_holds. by rewrite Hk. }
  assert (∀ k v, data !! k = Some v → ¬ (v = PNone ∨ ∃ t, v = PDate t) →
                 date_holds data k = false) as Hinvalid.
  { intros k v Hk Hv. unfold date_holds. rewrite Hk.
    destruct v; try done; exfalso; apply Hv; eauto. }
  assert (∀ k v, data !! k = Some v → v = PNone ∨ (∃ t, v = PDate t) →
                 date_holds data k = true) as Hvalid.
  { intros k v Hk Hv. unfold date_holds. rewrite Hk.
    by destruct Hv as [->|[t ->]]. }
  assert (verdict (parse_rules json_loads data check_extra) = Ok tt ∧
          verdict (field_rules data ++ extra_rules data check_extra) = Ok tt)
    as [Hparse Hfields].
  { rewrite !verdict_Ok in *. rewrite !Forall_app in *. tauto. }
  assert (∀ d1 d2,
          date_holds data "voting_start_date" = d1 →
          date_holds data "voting_end_date" = d2 →
          (d1 = false ∨ d2 = false) →
          check_election_data json_loads cfg db data check_extra =
          Raise (TaskError (if d1 then "invalid voting_send_date parameter"
                            else "invalid voting_start_date parameter")))
    as Hstep.
  { intros d1 d2 H1 H2 Hd. unfold check_election_data.
    rewrite load_questions_data_verdict, requirements_verdict.
    rewrite Hparse, Hfields. cbn [mbind result_bind]. unfold ensure.
    rewrite H1, H2. destruct d1, d2; try done. by destruct Hd. }
  split; [|split; [|split]].
  - intros Hk. by rewrite (Hstep false _ (Habsent _ Hk) eq_refl) by auto.
  - intros v Hk Hv.
    by rewrite (Hstep false _ (Hinvalid _ _ Hk Hv) eq_refl) by auto.
  - intros start Hstart Hs. split; [|split].
    + intros Hk.
      by rewrite (Hstep true false (Hvalid _ _ Hstart Hs) (Habsent _ Hk))
        by auto.
    + intros v Hk Hv.
      by rewrite (Hstep true false (Hvalid _ _ Hstart Hs)
                    (Hinvalid _ _ Hk Hv)) by auto.
    + intros v Hk Hv. rewrite check_election_data_Ok, !verdict_Ok.
      unfold validation_rules. rewrite !Forall_app.
      rewrite !verdict_Ok, !Forall_app in Hbefore.
      split; [tauto|]. intros (Hshape & Hauth & Hunique).
      repeat split; try tauto. unfold date_rules.
      repeat constructor; cbn [fst].
      * by apply (Hvalid _ start).
      * by apply (Hvalid _ v).
  - intros k Hk. rewrite !check_election_data_Ok.
    by apply validation_rules_insert_null.
Qed.

Lemma voting_window_keys_required_witness :
  check_election_data Demo.json_loads Demo.cfg Demo.empty_store
    Demo.no_start_date false =
    Raise (TaskError "invalid voting_start_date parameter") ∧
  Demo.input !! "voting_start_date" = Some PNone ∧
  Demo.input !! "voting_end_date" = Some PNone ∧
  check_election_data Demo.json_loads Demo.cfg Demo.empty_store
    Demo.input false = Ok tt.
Proof.
  assert (verdict (parse_rules Demo.json_loads Demo.no_start_date false ++
                   field_rules Demo.no_start_date ++
                   extra_rules Demo.no_start_date false) = Ok tt) as Hbefore
    by (vm_compute; reflexivity).
  assert (Demo.no_start_date !! "voting_start_date" = None) as Habsent
    by (vm_compute; reflexivity).
  assert (verdict (parse_rules Demo.json_loads Demo.input false ++
                   field_rules Demo.input ++
                   extra_rules Demo.input false) = Ok tt) as Hbefore'
    by (vm_compute; reflexivity).
  assert (Demo.input !! "voting_start_date" = Some PNone) as Hstart
    by (vm_compute; reflexivity).
  assert (Demo.input !! "voting_end_date" = Some PNone) as Hend
    by (vm_compute; reflexivity).
  assert (verdict (shape_rules Demo.json_loads Demo.cfg Demo.empty_store
                     Demo.input false ++
                   authority_rules Demo.input ++
                   uniqueness_rules Demo.input) = Ok tt) as Hlater
    by (vm_compute; reflexivity).
  split.
  { exact (proj1 (voting_window_keys_required Demo.json_loads Demo.cfg
                    Demo.empty_store Demo.no_start_date false Hbefore)
             Habsent). }
  split; [exact Hstart|]. split; [exact Hend|].
  exact (proj2 (proj2 (proj2 (proj1 (proj2 (proj2
           (voting_window_keys_required Demo.json_loads Demo.cfg
              Demo.empty_store Demo.input false Hbefore')))
           PNone Hstart (or_introl eq_refl))) PNone Hend (or_introl eq_refl))
           Hlater).
Defined.
(** * The file system *)

Lemma walk_app (n : node) (p q : path) :
  walk n (p ++ q)%list = walk n p ≫= λ m, walk m q.
Proof.
  revert n. induction p as [|c p IH]; intros n; [done|].
  simpl. destruct n as [|es]; [done|].
  destruct (es !! c); [apply IH|done].
Qed.

Lemma path_exists_prefix (n : node) (p q : path) :
  path_exists n (p ++ q)%list = true → path_exists n p = true.
Proof.
  unfold path_exists. rewrite walk_app.
  by destruct (walk n p).
Qed.

Lemma path_exists_walk (n : node) (p : path) :
  path_exists n p = true ↔ is_Some (walk n p).
Proof.
  unfold path_exists. destruct (walk n p); split; eauto; try done.
Qed.

Lemma write_file_exists_mono (n n' : node) (q p : path) (content : string) :
  write_file n q content = Some n' →
  path_exists n p = true → path_exists n' p = true.
Proof.
  rewrite !path_exists_walk.
  revert n n' p. induction q as [|c q IH]; intros n n' p Hw Hp; [done|].
  destruct p as [|c' p]; [by eexists|].
  simpl in Hw. destruct n as [|es]; [done|].
  simpl in Hp. destruct (es !! c') as [m|] eqn:Hm; [|by destruct Hp].
  destruct q as [|c2 q].
  - destruct (decide (c = c')) as [->|Hne].
    + rewrite Hm in Hw. destruct m as [content'|]; [|done].
      injection Hw as <-. simpl. rewrite lookup_insert_eq.
      destruct p; [by eexists|by destruct Hp].
    + assert (n' = Dir (<[c := File content]> es)) as ->.
      { destruct (es !! c) as [[]|]; by simplify_eq. }
      simpl. by rewrite lookup_insert_ne, Hm.
  - destruct (es !! c) as [m0|] eqn:Hm0; [|done].
    destruct (write_file m0 (c2 :: q) content) as [m1|] eqn:Hw1; [|done].
    injection Hw as <-. simpl.
    destruct (decide (c = c')) as [->|Hne].
    + rewrite lookup_insert_eq. simplify_eq. by eapply IH.
    + by rewrite lookup_insert_ne, Hm.
Qed.

Lemma write_file_read_same (n n' : node) (q : path) (content : string) :
  write_file n q content = Some n' → read_file n' q = Some content.
Proof.
  unfold read_file.
  revert n n'. induction q as [|c q IH]; intros n n' Hw; [done|].
  simpl in Hw. destruct n as [|es]; [done|].
  destruct q as [|c2 q].
  - assert (n' = Dir (<[c := File content]> es)) as ->.
    { destruct (es !! c) as [[]|]; by simplify_eq. }
    simpl. by rewrite lookup_insert_eq.
  - destruct (es !! c) as [m0|] eqn:Hm0; [|done].
    destruct (write_file m0 (c2 :: q) content) as [m1|] eqn:Hw1; [|done].
    injection Hw as <-. cbn [walk]. rewrite lookup_insert_eq.
    by apply (IH m0).
Qed.

Lemma read_file_File (content : string) (p : path) :
  read_file (File content) p = if p is [] then Some content else None.
Proof. by destruct p. Qed.

Lemma write_file_read_other (n n' : node) (q p : path) (content : string) :
  write_file n q content = Some n' → p ≠ q →
  read_file n' p = read_file n p.
Proof.
  unfold read_file.
  revert n n' p. induction q as [|c q IH]; intros n n' p Hw Hne; [done|].
  simpl in Hw. destruct n as [|es]; [done|].
  destruct p as [|c' p].
  { simpl. destruct q.
    - by destruct (es !! c) as [[]|]; simplify_eq.
    - destruct (es !! c); [|done].
      by destruct (write_file _ _ _); simplify_eq. }
  destruct q as [|c2 q].
  - assert (n' = Dir (<[c := File content]> es)
            ∧ ¬ (∃ d, es !! c = Some (Dir d))) as [-> Hnd].
    { destruct (es !! c) as [[]|]; simplify_eq; split; try done;
        by intros [? ?]. }
    simpl. destruct (decide (c = c')) as [->|Hc].
    + rewrite lookup_insert_eq.
      destruct p as [|c3 p]; [done|]. simpl.
      destruct (es !! c') as [[]|]; try done; destruct Hnd; eauto.
    + by rewrite lookup_insert_ne.
  - destruct (es !! c) as [m0|] eqn:Hm0; [|done].
    destruct (write_file m0 (c2 :: q) content) as [m1|] eqn:Hw1; [|done].
    injection Hw as <-. cbn [walk].
    destruct (decide (c = c')) as [->|Hc].
    + rewrite lookup_insert_eq, Hm0. apply (IH m0); [done|]. congruence.
    + by rewrite lookup_insert_ne.
Qed.

Lemma mkdir_recursive_exists (n n' : node) (p : path) :
  mkdir_recursive n p = Some n' → path_exists n' p = true.
Proof.
  rewrite path_exists_walk.
  revert n n'. induction p as [|c p IH]; intros n n' Hm; [by eexists|].
  simpl in Hm. destruct n as [|es]; [done|].
  destruct (mkdir_recursive _ p) as [m|] eqn:Hmk; [|done].
  injection Hm as <-. simpl. rewrite lookup_insert_eq. by eapply IH.
Qed.

Lemma mkdir_recursive_exists_mono (n n' : node) (p q : path) :
  mkdir_recursive n p = Some n' →
  path_exists n q = true → path_exists n' q = true.
Proof.
  rewrite !path_exists_walk.
  revert n n' q. induction p as [|c p IH]; intros n n' q Hm Hq.
  { by simplify_eq/=. }
  simpl in Hm. destruct n as [|es]; [done|].
  destruct (mkdir_recursive _ p) as [m|] eqn:Hmk; [|done].
  injection Hm as <-. destruct q as [|c' q]; [by eexists|].
  simpl in *. destruct (decide (c = c')) as [->|Hc].
  - rewrite lookup_insert_eq.
    destruct (es !! c') as [m0|]; [|by destruct Hq]. by eapply IH.
  - by rewrite lookup_insert_ne.
Qed.

Lemma mkdir_recursive_read (n n' : node) (p q : path) :
  mkdir_recursive n p = Some n' → read_file n' q = read_file n q.
Proof.
  unfold read_file.
  revert n n' q. induction p as [|c p IH]; intros n n' q Hm.
  { by simplify_eq/=. }
  simpl in Hm. destruct n as [|es]; [done|].
  destruct (mkdir_recursive _ p) as [m|] eqn:Hmk; [|done].
  injection Hm as <-. destruct q as [|c' q]; [done|].
  simpl. destruct (decide (c = c')) as [->|Hc].
  - rewrite lookup_insert_eq. rewrite (IH _ _ q Hmk).
    destruct (es !! c') as [m0|]; [done|]. simpl. by destruct q.
  - by rewrite lookup_insert_ne.
Qed.
(** * The state monad *)

Lemma M_bind_inv {A B} (m : M A) (f : A → M B) (w w' : world)
    (r : result B) :
  (m ≫= f) w = (r, w') →
  (∃ a w1, m w = (Ok a, w1) ∧ f a w1 = (r, w')) ∨
  (∃ e, m w = (Raise e, w') ∧ r = Raise e).
Proof.
  unfold mbind, M_bind. destruct (m w) as [[a|e] w1]; [eauto|].
  intros [= <- <-]. eauto.
Qed.

Lemma M_bind_Ok {A B} (m : M A) (f : A → M B) (w w' : world) (b : B) :
  (m ≫= f) w = (Ok b, w') →
  ∃ a w1, m w = (Ok a, w1) ∧ f a w1 = (Ok b, w').
Proof.
  intros [H|(e & _ & ?)]%M_bind_inv; [done|discriminate].
Qed.



Lemma lift_inv {A} (r r' : result A) (w w' : world) :
  lift r w = (r', w') → r = r' ∧ w = w'.
Proof. by intros [= -> ->]. Qed.

Lemma read_file_exists (n : node) (p : path) (content : string) :
  read_file n p = Some content → path_exists n p = true.
Proof. unfold read_file, path_exists. by destruct (walk n p). Qed.

(** * Spelled paths *)

Lemma spelled_child (p : ospath) (name : string) :
  is_absolute name = false →
  spelled (os_child p name) =
    ((spelled p).1, ((spelled p).2 ++ components name)%list).
Proof.
  intros Habs. unfold spelled, os_child. cbn [fst snd].
  rewrite foldl_app. cbn [foldl]. unfold spelled_step at 1.
  by rewrite Habs.
Qed.

Lemma resolve_components_app (n : node) (cur : path) (cs1 cs2 : list string) :
  resolve_components n cur (cs1 ++ cs2) =
  resolve_components n cur cs1 ≫= λ q, resolve_components n q cs2.
Proof.
  revert cur. induction cs1 as [|c cs1 IH]; intros cur; [done|].
  cbn [app resolve_components].
  destruct (resolve_step n cur c) as [q|]; [apply IH|done].
Qed.

Lemma is_name_spec (name : string) :
  is_name name = true →
  is_absolute name = false ∧ components name = [name] ∧
  is_here name = false ∧ is_parent name = false.
Proof.
  unfold is_name. rewrite !andb_true_iff, !negb_true_iff.
  intros [[[? ?%bool_decide_eq_true] ?] ?]. done.
Qed.

Lemma resolve_child (n : node) (p : ospath) (name : string) :
  is_name name = true →
  resolve n (os_child p name) = (λ q, (q ++ [name])%list) <$> resolve n p.
Proof.
  intros (Habs & Hcs & Hhere & Hparent)%is_name_spec.
  unfold resolve. rewrite spelled_child by done. cbn [fst snd].
  rewrite Hcs, resolve_components_app.
  destruct (resolve_components n _ _) as [q|]; [|done].
  cbn. unfold resolve_step. by rewrite Hhere, Hparent.
Qed.

Lemma has_nul_child (p : ospath) (name : string) :
  has_nul (os_child p name) = has_nul p || has_nul_char name.
Proof.
  unfold has_nul, os_child. cbn [snd].
  rewrite existsb_app. cbn [existsb]. by rewrite orb_false_r.
Qed.

Lemma write_file_is_dir (n n' : node) (p : path) (content : string) :
  write_file n p content = Some n' → ∀ q, is_dir n' q = is_dir n q.
Proof.
  revert n n'. induction p as [|x p IH]; intros n n' H q; [done|].
  destruct n as [|es]; [done|]. cbn [write_file] in H.
  destruct p as [|y p].
  - assert (n' = Dir (<[x := File content]> es) ∧
            ∀ es0, es !! x ≠ Some (Dir es0)) as [-> Hx].
    { destruct (es !! x) as [[]|]; try done; by injection H as <-. }
    destruct q as [|z q]; [done|]. unfold is_dir. cbn [walk].
    destruct (decide (z = x)) as [->|Hne].
    + rewrite lookup_insert_eq.
      destruct (es !! x) as [[c0|es0]|] eqn:Hes.
      * by destruct q.
      * by destruct (Hx es0).
      * by destruct q.
    + by rewrite lookup_insert_ne.
  - destruct (es !! x) as [n1|] eqn:Hes; [|done].
    destruct (write_file n1 (y :: p) content) as [n1'|] eqn:Hw; [|done].
    injection H as <-.
    destruct q as [|z q]; [done|]. unfold is_dir. cbn [walk].
    destruct (decide (z = x)) as [->|Hne].
    + rewrite lookup_insert_eq, Hes. exact (IH _ _ Hw q).
    + by rewrite lookup_insert_ne.
Qed.

Lemma resolve_components_ext (n n' : node) (cur : path) (cs : list string) :
  (∀ q, is_dir n' q = is_dir n q) →
  resolve_components n' cur cs = resolve_components n cur cs.
Proof.
  intros Hdir. revert cur. induction cs as [|c cs IH]; intros cur; [done|].
  cbn [resolve_components]. unfold resolve_step. rewrite Hdir.
  destruct (is_here c); [by destruct (is_dir n cur)|].
  destruct (is_parent c); [by destruct (is_dir n cur)|]. apply IH.
Qed.

Lemma resolve_write_file (n n' : node) (q : path) (content : string)
    (p : ospath) :
  write_file n q content = Some n' → resolve n' p = resolve n p.
Proof.
  intros H. apply resolve_components_ext. by eapply write_file_is_dir.
Qed.

Lemma resolve_components_lexical (n : node) (cur q : path)
    (cs : list string) :
  resolve_components n cur cs = Some q → q = foldl lexical_step cur cs.
Proof.
  revert cur. induction cs as [|c cs IH]; intros cur; [by intros [= <-]|].
  cbn [resolve_components foldl]. unfold resolve_step, lexical_step.
  destruct (is_here c); [destruct (is_dir n cur); [apply IH|done]|].
  destruct (is_parent c); [destruct (is_dir n cur); [apply IH|done]|].
  apply IH.
Qed.

Lemma resolve_lexical (n : node) (p : ospath) (q : path) :
  resolve n p = Some q → q = lexical p.
Proof. apply resolve_components_lexical. Qed.

Lemma os_path_exists_Ok (n : node) (p : ospath) (b : bool) :
  os_path_exists n p = Ok b ↔
  has_nul p = false ∧ found n (resolve n p) = b.
Proof.
  unfold os_path_exists, locate. destruct (has_nul p); cbn.
  - split; [done|]. by intros [? _].
  - split; [by intros [= <-]|]. by intros [_ <-].
Qed.

Lemma found_child (n : node) (p : ospath) (name : string) :
  is_name name = true →
  found n (resolve n (os_child p name)) = true →
  found n (resolve n p) = true.
Proof.
  intros Hname. rewrite resolve_child by done.
  destruct (resolve n p) as [q|]; [|done]. cbn.
  apply path_exists_prefix.
Qed.

Lemma os_read_file_found (n : node) (p : ospath) (content : string) :
  os_read_file n p = Some content → found n (resolve n p) = true.
Proof.
  unfold os_read_file. destruct (resolve n p) as [q|]; [|done]. cbn.
  apply read_file_exists.
Qed.

(** * The key publisher *)

Lemma os_exists_inv (p : ospath) (w w' : world) (r : result bool) :
  os_exists p w = (r, w') → w' = w ∧ r = os_path_exists (fs w) p.
Proof. by intros [= <- <-]. Qed.

Lemma write_at_Ok (q : option path) (c : string) (w w' : world) :
  write_at q c w = (Ok tt, w') →
  ∃ q' n, q = Some q' ∧ write_file (fs w) q' c = Some n ∧ w' = set_fs n w.
Proof.
  unfold write_at. destruct q as [q|]; [|done].
  destruct (write_file (fs w) q c) as [n|] eqn:Hw; [|done].
  intros [= <-]. by exists q, n.
Qed.

Lemma copyfile_Ok (src dst : ospath) (w w' : world) :
  copyfile src dst w = (Ok tt, w') →
  has_nul src = false ∧ has_nul dst = false ∧
  ∃ a b content n,
    resolve (fs w) src = Some a ∧ resolve (fs w) dst = Some b ∧ a ≠ b ∧
    read_file (fs w) a = Some content ∧
    write_file (fs w) b content = Some n ∧ w' = set_fs n w.
Proof.
  unfold copyfile, locate.
  destruct (has_nul src); [done|]. destruct (has_nul dst); [done|].
  destruct (same_place (fs w) _ _) eqn:Hsame; [done|].
  destruct (resolve (fs w) src) as [a|]; [|done]. cbn [mbind option_bind].
  destruct (read_file (fs w) a) as [c|] eqn:Hread; [|done].
  intros (b & n & Hb & Hw & ->)%write_at_Ok.
  split; [done|]. split; [done|]. exists a, b, c, n.
  rewrite Hb in Hsame. cbn in Hsame.
  rewrite (read_file_exists _ _ _ Hread), andb_true_r in Hsame.
  apply bool_decide_eq_false in Hsame. done.
Qed.

Section PublicKey.
Variable engine : list string → path → node → bool * node.
Variable cfg : config.

Lemma generate_public_key_guard (task : task_data) (w : world)
    (eid sid : string) :
  input_data task !! "session_id" = Some (PStr sid) →
  input_data task !! "election_id" = Some (PStr eid) →
  os_path_exists (fs w) (session_dir (PRIVATE_DATA_PATH cfg) eid sid)
    = Ok true →
  os_path_exists (fs w)
    (os_child (session_dir (PRIVATE_DATA_PATH cfg) eid sid) "publicKey_raw")
    = Ok true ∨
  os_path_exists (fs w)
    (os_child (session_dir (PRIVATE_DATA_PATH cfg) eid sid) "publicKey_json")
    = Ok true →
  generate_public_key engine cfg task w =
    (Raise (TaskError "pubkey already created"), w).
Proof.
  intros Hsid Heid Hdir Hkey.
  cbv [generate_public_key mbind M_bind lift os_exists dict_getitem
       mret M_ret].
  rewrite Hsid, Heid. cbv [os_path_join]. cbn [fst snd app].
  change (PRIVATE_DATA_PATH cfg, [eid; sid])
    with (session_dir (PRIVATE_DATA_PATH cfg) eid sid).
  rewrite Hdir. cbv [ensure].
  apply os_path_exists_Ok in Hdir as [Hnul _].
  destruct (os_path_exists (fs w) (os_child _ "publicKey_raw"))
    as [[]|e] eqn:Hraw.
  - done.
  - destruct Hkey as [Hkey|Hkey]; [done|]. by rewrite Hkey.
  - unfold os_path_exists, locate in Hraw.
    by rewrite has_nul_child, Hnul in Hraw.
Qed.

(** What a run that succeeds leaves: the two files read the same on
    both sides. *)
Lemma publish_key_copies (input : gmap string pyval) (eid sid : string)
    (w w' : world) :
  publish_key engine cfg input (PStr eid) (PStr sid)
    (session_dir (PRIVATE_DATA_PATH cfg) eid sid) w = (Ok tt, w') →
  let dir := session_dir (PRIVATE_DATA_PATH cfg) eid sid in
  let pub := session_dir (PUBLIC_DATA_PATH cfg) eid sid in
  has_nul dir = false ∧
  ∃ key info,
    os_read_file (fs w') (os_child dir "publicKey_json") = Some key ∧
    os_read_file (fs w') (os_child pub "publicKey_json") = Some key ∧
    os_read_file (fs w') (os_child dir "protInfo.xml") = Some info ∧
    os_read_file (fs w') (os_child pub "protInfo.xml") = Some info.
Proof.
  unfold publish_key. intros H. cbn zeta.
  apply M_bind_Ok in H as (merged & w1 & _ & H).
  apply M_bind_Ok in H as ([] & w2 & _ & H).
  apply M_bind_Ok in H as ([] & w3 & _ & H).
  apply M_bind_Ok in H as ([] & w4 & _ & H).
  apply M_bind_Ok in H as (epub & w5 & [[= <-] <-]%lift_inv & H).
  apply M_bind_Ok in H as (spub & w5 & [[= <-] <-]%lift_inv & H).
  cbn [fst snd app] in H.
  change (PUBLIC_DATA_PATH cfg, [eid; sid])
    with (session_dir (PUBLIC_DATA_PATH cfg) eid sid) in H.
  set (dir := session_dir (PRIVATE_DATA_PATH cfg) eid sid) in *.
  set (pub := session_dir (PUBLIC_DATA_PATH cfg) eid sid) in *.
  apply M_bind_Ok in H as (published & w5 & _ & H).
  apply M_bind_Ok in H as ([] & wd & _ & H).
  apply M_bind_Ok in H as ([] & we & Hc1 & Hc2).
  apply copyfile_Ok in Hc1
    as (Hnul & _ & a1 & b1 & key & n1 & Ha1 & Hb1 & Hne1 & Hread1 & Hwrite1
        & ->).
  apply copyfile_Ok in Hc2
    as (_ & _ & a2 & b2 & info & n2 & Ha2 & Hb2 & Hne2 & Hread2 & Hwrite2
        & ->).
  cbn [fs set_fs] in *.
  rewrite has_nul_child, orb_false_iff in Hnul. destruct Hnul as [Hnul _].
  split; [done|]. exists key, info.
  rewrite (resolve_write_file _ _ _ _ _ Hwrite1) in Ha2.
  rewrite (resolve_write_file _ _ _ _ _ Hwrite1) in Hb2.
  rewrite resolve_child in Ha1 by done. rewrite resolve_child in Hb1 by done.
  rewrite resolve_child in Ha2 by done. rewrite resolve_child in Hb2 by done.
  destruct (resolve (fs wd) dir) as [q|] eqn:Hq; [|done].
  destruct (resolve (fs wd) pub) as [qp|] eqn:Hqp; [|done].
  cbn in Ha1, Hb1, Ha2, Hb2.
  injection Ha1 as <-. injection Hb1 as <-.
  injection Ha2 as <-. injection Hb2 as <-.
  assert (∀ p, resolve n2 p = resolve (fs wd) p) as Hres.
  { intros p. rewrite (resolve_write_file _ _ _ _ _ Hwrite2).
    by rewrite (resolve_write_file _ _ _ _ _ Hwrite1). }
  unfold os_read_file. rewrite !Hres, !resolve_child by done.
  rewrite Hq, Hqp. cbn.
  assert (∀ (x y : path) (a b : string),
            a ≠ b → (x ++ [a])%list ≠ (y ++ [b])%list) as Hlast.
  { intros x y a b Hab Heq. by apply app_inj_tail in Heq as [_ ?]. }
  split; [|split; [|split]].
  - rewrite (write_file_read_other _ _ _ _ _ Hwrite2) by by apply Hlast.
    by rewrite (write_file_read_other _ _ _ _ _ Hwrite1).
  - rewrite (write_file_read_other _ _ _ _ _ Hwrite2) by by apply Hlast.
    by eapply write_file_read_same.
  - by rewrite (write_file_read_other _ _ _ _ _ Hwrite2).
  - by eapply write_file_read_same.
Qed.

Lemma generate_public_key_Ok (task : task_data) (w w' : world) :
  generate_public_key engine cfg task w = (Ok tt, w') →
  ∃ eid sid,
    input_data task !! "session_id" = Some (PStr sid) ∧
    input_data task !! "election_id" = Some (PStr eid) ∧
    publish_key engine cfg (input_data task) (PStr eid) (PStr sid)
      (session_dir (PRIVATE_DATA_PATH cfg) eid sid) w = (Ok tt, w').
Proof.
  unfold generate_public_key. intros H.
  apply M_bind_Ok in H as (vsid & w1 & [Hsid <-]%lift_inv & H).
  apply M_bind_Ok in H as (veid & w1 & [Heid <-]%lift_inv & H).
  apply M_bind_Ok in H as (epriv & w1 & [Hepriv <-]%lift_inv & H).
  apply M_bind_Ok in H as (spriv & w1 & [Hspriv <-]%lift_inv & H).
  destruct veid as [| | |eid| | |]; try discriminate Hepriv.
  injection Hepriv as <-.
  destruct vsid as [| | |sid| | |]; try discriminate Hspriv.
  injection Hspriv as <-. cbn [fst snd app] in H.
  exists eid, sid. unfold dict_getitem in Hsid, Heid.
  destruct (input_data task !! "session_id"); [|done].
  destruct (input_data task !! "election_id"); [|done].
  injection Hsid as ->. injection Heid as ->.
  split; [done|]. split; [done|].
  apply M_bind_Ok in H as (there & w1 & [-> _]%os_exists_inv & H).
  apply M_bind_Ok in H as ([] & w1 & [_ <-]%lift_inv & H).
  apply M_bind_Ok in H as (raw & w1 & [-> _]%os_exists_inv & H).
  apply M_bind_Ok in H as (key & w1 & Hkey & H).
  assert (w1 = w) as ->.
  { destruct raw; [by injection Hkey|].
    by apply os_exists_inv in Hkey as [-> _]. }
  by apply M_bind_Ok in H as ([] & w1 & [_ <-]%lift_inv & H).
Qed.

Lemma generate_public_key_twice (task : task_data) (w w' : world) :
  generate_public_key engine cfg task w = (Ok tt, w') →
  generate_public_key engine cfg task w' =
    (Raise (TaskError "pubkey already created"), w').
Proof.
  intros (eid & sid & Hsid & Heid & Hrun)%generate_public_key_Ok.
  apply publish_key_copies in Hrun as (Hnul & key & info & Hkey & _).
  apply os_read_file_found in Hkey.
  apply (generate_public_key_guard _ _ eid sid); try done.
  - apply os_path_exists_Ok. split; [done|].
    by apply (found_child _ _ "publicKey_json").
  - right. apply os_path_exists_Ok. split; [|done].
    by rewrite has_nul_child, Hnul.
Qed.
End PublicKey.

(** * The write-once guard of the key publisher *)

(** C1. When the private directory of the session exists and the raw or
    the encoded key file is already there, [generate_public_key] fails
    with "pubkey already created" and leaves the whole state, and so
    every file, as it was; in particular a call that follows a successful
    call fails this way.  The directory and the files are looked up as
    the system does, whatever the spelling of the two identifiers. *)
Theorem public_key_is_write_once
    (engine : list string → path → node → bool * node) (cfg : config)
    (task : task_data) (w : world) :
  (∀ eid sid,
     input_data task !! "session_id" = Some (PStr sid) →
     input_data task !! "election_id" = Some (PStr eid) →
     os_path_exists (fs w) (session_dir (PRIVATE_DATA_PATH cfg) eid sid)
       = Ok true →
     os_path_exists (fs w)
       (os_child (session_dir (PRIVATE_DATA_PATH cfg) eid sid)
          "publicKey_raw") = Ok true ∨
     os_path_exists (fs w)
       (os_child (session_dir (PRIVATE_DATA_PATH cfg) eid sid)
          "publicKey_json") = Ok true →
     generate_public_key engine cfg task w =
       (Raise (TaskError "pubkey already created"), w)) ∧
  (∀ w0,
     generate_public_key engine cfg task w0 = (Ok tt, w) →
     generate_public_key engine cfg task w =
       (Raise (TaskError "pubkey already created"), w)).
Proof.
  split.
  - intros eid sid. apply generate_public_key_guard.
  - intros w0. apply generate_public_key_twice.
Qed.

Lemma public_key_is_write_once_witness :
  Demo.publish Demo.world2 = (Ok tt, Demo.world3) ∧
  Demo.publish Demo.world3 =
    (Raise (TaskError "pubkey already created"), Demo.world3) ∧
  generate_public_key Demo.engine Demo.cfg Demo.respelled_key_task
    Demo.world3 = (Raise (TaskError "pubkey already created"), Demo.world3).
Proof.
  assert (Demo.publish Demo.world2 = (Ok tt, Demo.world3)) as Hfirst
    by (vm_compute; reflexivity).
  assert (os_path_exists (fs Demo.world3)
            (session_dir (PRIVATE_DATA_PATH Demo.cfg) "E1" "./S1")
          = Ok true) as Hdir by (vm_compute; reflexivity).
  assert (os_path_exists (fs Demo.world3)
            (os_child (session_dir (PRIVATE_DATA_PATH Demo.cfg) "E1" "./S1")
               "publicKey_raw") = Ok true) as Hraw
    by (vm_compute; reflexivity).
  assert (input_data Demo.respelled_key_task !! "session_id"
          = Some (PStr "./S1")) as Hsid by (vm_compute; reflexivity).
  assert (input_data Demo.respelled_key_task !! "election_id"
          = Some (PStr "E1")) as Heid by (vm_compute; reflexivity).
  split; [exact Hfirst|]. split.
  - exact (proj2 (public_key_is_write_once Demo.engine Demo.cfg
                    Demo.key_task Demo.world3) Demo.world2 Hfirst).
  - exact (proj1 (public_key_is_write_once Demo.engine Demo.cfg
                    Demo.respelled_key_task Demo.world3) "E1" "./S1"
             Hsid Heid Hdir (or_introl Hraw)).
Defined.
(** * Phase 1 *)

Lemma only_tools_ran_refl (w : world) : only_tools_ran w w.
Proof. by repeat split. Qed.

Lemma only_tools_ran_trans (w1 w2 w3 : world) :
  only_tools_ran w1 w2 → only_tools_ran w2 w3 → only_tools_ran w1 w3.
Proof.
  unfold only_tools_ran. intros (?&?&?&?&?&?) (?&?&?&?&?&?).
  repeat split; congruence.
Qed.

Section Phase1.
Variable get_server_url : string.
Variable get_hint_server_url : string.
Variable engine : list string → path → node → bool * node.
Variable cfg : config.

Lemma vmni_argv_texts (auth_name : pyval) (args : list string) :
  mapM (λ v, match v with PStr s => Some s | _ => None end)
    (vmni_argv get_server_url get_hint_server_url auth_name) = Some args →
  auth_name = PStr (name_of auth_name) ∧
  args = vmni_args get_server_url get_hint_server_url (name_of auth_name).
Proof.
  unfold vmni_argv, vmni_args. destruct auth_name; try done.
  by intros [= <-].
Qed.

Lemma check_call_inv (argv : list pyval) (cwd : path) (w w' : world)
    (r : result unit) :
  check_call engine argv cwd w = (r, w') →
  only_tools_ran w w' ∧
  (r = Ok tt →
   ∃ args,
     mapM (λ v, match v with PStr s => Some s | _ => None end) argv
       = Some args ∧
     (engine args cwd (fs w)).1 = true ∧
     fs w' = (engine args cwd (fs w)).2 ∧
     engine_log w' = (engine_log w ++ [(args, cwd)])%list).
Proof.
  unfold check_call.
  destruct (mapM _ argv) as [args|].
  2: { intros [= <- <-]. split; [apply only_tools_ran_refl|done]. }
  destruct (walk (fs w) cwd) as [[|es]|].
  1, 3: intros [= <- <-]; split; [apply only_tools_ran_refl|done].
  destruct (engine args cwd (fs w)) as [ok n] eqn:He. simpl.
  destruct ok; intros [= <- <-]; (split; [by repeat split|]); [|done].
  intros _. exists args. by rewrite He.
Qed.

Lemma file_read_inv (p : path) (w w' : world) (r : result string) :
  file_read p w = (r, w') →
  w' = w ∧ (∀ content, r = Ok content → read_file (fs w) p = Some content).
Proof.
  unfold file_read. destruct (read_file (fs w) p); intros [= <- <-];
    split; try done. by intros ? [= ->].
Qed.

Lemma py_getitem_field (v x : pyval) (k : string) :
  py_getitem v k = Ok x → field_of k v = x.
Proof.
  unfold py_getitem, field_of. destruct v; try done.
  destruct (d !! k); [|done]. by intros [= ->].
Qed.

Lemma collect_protinfos_spec (election_privpath : path) (auth_name : pyval)
    (l acc : list pyval) (w w' : world) (r : result (list pyval)) :
  collect_protinfos get_server_url get_hint_server_url engine
    election_privpath auth_name l acc w = (r, w') →
  only_tools_ran w w' ∧
  (∀ out, r = Ok out →
     ∃ ds,
       out = (acc ++ (PStr <$> ds))%list ∧
       Forall2 (descriptor_of engine get_server_url get_hint_server_url
                  election_privpath (name_of auth_name)) l ds ∧
       engine_log w' =
         (engine_log w ++
          (vmni_call get_server_url get_hint_server_url election_privpath
             (name_of auth_name) <$> l))%list).
Proof.
  revert acc w. induction l as [|session l IH]; intros acc w.
  { intros [= <- <-]. split; [apply only_tools_ran_refl|].
    intros out [= <-]. exists []. by rewrite !app_nil_r. }
  cbn [collect_protinfos]. intros H.
  apply M_bind_inv in H as [(sid & w1 & [Hsid <-]%lift_inv & H)|(e & [_ <-]%lift_inv & ->)];
    [|split; [apply only_tools_ran_refl|done]].
  apply M_bind_inv in H as [(cwd & w1 & [Hcwd <-]%lift_inv & H)|(e & [_ <-]%lift_inv & ->)];
    [|split; [apply only_tools_ran_refl|done]].
  apply M_bind_inv in H as [([] & w1 & Hcall & H)|(e & Hcall & ->)].
  2: { apply check_call_inv in Hcall as [? _]. by split. }
  apply check_call_inv in Hcall as [Hran Hcall].
  destruct (Hcall eq_refl) as (args & Hargs & Hok & Hfs & Hlog).
  apply M_bind_inv in H as [(content & w2 & Hread & H)|(e & Hread & ->)].
  2: { apply file_read_inv in Hread as [-> _]. by split. }
  apply file_read_inv in Hread as [-> Hread].
  specialize (Hread _ eq_refl).
  apply IH in H as [Hran' Hrest].
  split; [by eapply only_tools_ran_trans|].
  intros out ->. destruct (Hrest _ eq_refl) as (ds & -> & Hds & Hlog').
  apply vmni_argv_texts in Hargs as [Hname ->].
  apply py_getitem_field in Hsid.
  destruct sid as [| | |sid| | |]; try discriminate Hcwd.
  injection Hcwd as <-.
  assert (session_id_of session = sid) as Hid
    by (unfold session_id_of; by rewrite Hsid).
  exists (content :: ds). split; [by rewrite <- app_assoc|]. split.
  - constructor; [|done]. exists (fs w).
    split; [unfold is_text_field; by rewrite Hsid|].
    unfold vmni_call. cbn [fst snd]. rewrite Hid.
    split; [done|]. by rewrite <- Hfs.
  - rewrite Hlog', Hlog, fmap_cons, <- app_assoc. unfold vmni_call at 2.
    by rewrite Hid.
Qed.
End Phase1.
Section Verificatum.
Variable get_server_url : string.
Variable get_hint_server_url : string.
Variable engine : list string → path → node → bool * node.
Variable cfg : config.

Lemma verificatum_inv (task : local_task) (w w' : world) (r : result unit) :
  generate_private_info_verificatum get_server_url get_hint_server_url
    engine cfg task w = (r, w') →
  match not_accepted cfg task with
  | Raise e => r = Raise e ∧ w' = w
  | Ok true =>
      r = Raise (TaskError "task not accepted") ∧
      w' = (set_output_data (PStr "task not accepted") w).2
  | Ok false =>
      match phase1_inputs cfg (parent_input_data task) with
      | Raise e => r = Raise e ∧ w' = w
      | Ok (election_privpath, auth_name, sess) =>
          ∃ r1 w1,
            collect_protinfos get_server_url get_hint_server_url engine
              election_privpath auth_name sess [] w = (r1, w1) ∧
            match r1 with
            | Ok out =>
                r = Ok tt ∧ w' = (parent_set_output_data (PList out) w1).2
            | Raise e => r = Raise e ∧ w' = w1
            end
      end
  end.
Proof.
  unfold generate_private_info_verificatum.
  cbv [mbind M_bind lift raise mret M_ret].
  destruct (not_accepted cfg task) as [[]|]; try by intros [= <- <-].
  destruct (phase1_inputs cfg (parent_input_data task)) as [[[p a] l]|];
    [|by intros [= <- <-]].
  destruct (collect_protinfos _ _ _ p a l [] w) as [[out|e] w1] eqn:Hc.
  - intros [= <- <-]. by exists (Ok out), w1.
  - intros [= <- <-]. by exists (Raise e), w1.
Qed.

End Verificatum.
Section Phase1Claims.
Variable get_server_url : string.
Variable get_hint_server_url : string.
Variable engine : list string → path → node → bool * node.
Variable cfg : config.

Lemma phase1_inputs_Ok (input : gmap string pyval) (p : path) (a : pyval)
    (l : list pyval) :
  phase1_inputs cfg input = Ok (p, a, l) →
  ∃ eid v auths,
    input !! "election_id" = Some (PStr eid) ∧
    p = (PRIVATE_DATA_PATH cfg ++ [eid])%list ∧
    input !! "sessions" = Some v ∧ py_iter v = Ok l ∧
    (dict_getitem input "authorities" ≫= py_iter) = Ok auths ∧
    find_auth_name (ROOT_URL cfg) auths PNone = Ok a.
Proof.
  unfold phase1_inputs. intros H.
  apply bind_Ok in H as (veid & Heid & H).
  apply bind_Ok in H as (v & Hv & H).
  apply bind_Ok in H as (auths & Hauths & H).
  apply bind_Ok in H as (a' & Ha & H).
  apply bind_Ok in H as (p' & Hp & H).
  apply bind_Ok in H as (l' & Hl & H).
  injection H as <- <- <-.
  unfold dict_getitem in Heid, Hv.
  destruct (input !! "election_id") as [x|]; [|done]. injection Heid as ->.
  destruct (input !! "sessions") as [y|]; [|done]. injection Hv as ->.
  destruct veid as [| | |eid| | |]; try discriminate Hp.
  injection Hp as <-. by exists eid, v, auths.
Qed.

End Phase1Claims.

(** C6. A successful run of phase 1 sets as the output of the parent
    task one descriptor per session, in the order of the sessions, each
    the content that an invocation of the tool for that session left in
    its [localProtInfo.xml]; a run that fails reports nothing, and a run
    cannot succeed when the tool fails for one of the sessions. *)
Theorem phase1_reports_every_descriptor
    (get_server_url get_hint_server_url : string)
    (engine : list string → path → node → bool * node) (cfg : config)
    (task : local_task) (w w' : world) (r : result unit) (sess : list pyval)
    (Hsess : parent_input_data task !! "sessions" = Some (PList sess))
    (Hrun : generate_private_info_verificatum get_server_url
              get_hint_server_url engine cfg task w = (r, w')) :
  (r = Ok tt →
   ∃ eid name ds,
     parent_input_data task !! "election_id" = Some (PStr eid) ∧
     parent_output_data w' = PList (PStr <$> ds) ∧
     parent_update_sent w' = true ∧
     length ds = length sess ∧
     Forall2 (descriptor_of engine get_server_url get_hint_server_url
                (PRIVATE_DATA_PATH cfg ++ [eid])%list name) sess ds ∧
     engine_log w' =
       (engine_log w ++
        (vmni_call get_server_url get_hint_server_url
           (PRIVATE_DATA_PATH cfg ++ [eid])%list name <$> sess))%list) ∧
  (r ≠ Ok tt →
   parent_output_data w' = parent_output_data w ∧
   parent_update_sent w' = parent_update_sent w) ∧
  (∀ session,
     session ∈ sess →
     (∀ args priv n,
        (engine args (priv ++ [session_id_of session])%list n).1 = false) →
     r ≠ Ok tt).
Proof.
  apply verificatum_inv in Hrun.
  assert (r = Ok tt →
          ∃ eid name ds,
            parent_input_data task !! "election_id" = Some (PStr eid) ∧
            parent_output_data w' = PList (PStr <$> ds) ∧
            parent_update_sent w' = true ∧
            length ds = length sess ∧
            Forall2 (descriptor_of engine get_server_url get_hint_server_url
                       (PRIVATE_DATA_PATH cfg ++ [eid])%list name) sess ds ∧
            engine_log w' =
              (engine_log w ++
               (vmni_call get_server_url get_hint_server_url
                  (PRIVATE_DATA_PATH cfg ++ [eid])%list name <$> sess))%list)
    as Hok.
  { intros ->.
    destruct (not_accepted cfg task) as [[]|]; try by destruct Hrun.
    destruct (phase1_inputs cfg (parent_input_data task))
      as [[[p a] l]|] eqn:Hin; [|by destruct Hrun].
    destruct Hrun as (r1 & w1 & Hc & Hr).
    destruct r1 as [out|]; [|by destruct Hr]. destruct Hr as [_ ->].
    apply phase1_inputs_Ok in Hin
      as (eid & v & auths & Heid & -> & Hv & Hl & _).
    rewrite Hsess in Hv. injection Hv as <-. injection Hl as <-.
    apply collect_protinfos_spec in Hc as [_ Hc].
    destruct (Hc _ eq_refl) as (ds & -> & Hds & Hlog).
    exists eid, (name_of a), ds. repeat split; try done.
    symmetry. by eapply Forall2_length. }
  split; [exact Hok|]. split.
  - intros Hr.
    destruct (not_accepted cfg task) as [[]|];
      try (by destruct Hrun as [_ ->]).
    destruct (phase1_inputs cfg (parent_input_data task))
      as [[[p a] l]|]; [|by destruct Hrun as [_ ->]].
    destruct Hrun as (r1 & w1 & Hc & Hr1).
    destruct r1 as [out|]; [by destruct Hr1|]. destruct Hr1 as [_ ->].
    apply collect_protinfos_spec in Hc as [(_&_&_&_&?&?) _]. done.
  - intros session Hin Hfail Hr.
    destruct (Hok Hr) as (eid & name & ds & _ & _ & _ & _ & Hds & _).
    apply list_elem_of_lookup in Hin as [i Hi].
    destruct (Forall2_lookup_l _ _ _ _ _ Hds Hi) as (d & _ & n & _ & Hn & _).
    unfold vmni_call in Hn. cbn [fst snd] in Hn. by rewrite Hfail in Hn.
Qed.

Lemma phase1_reports_every_descriptor_witness :
  Demo.input !! "sessions" = Some (PList [Demo.session "S1" "<stub/>"]) ∧
  Demo.phase1 (mkLocal None Demo.input) Demo.world1 = (Ok tt, Demo.world2) ∧
  ∃ ds, parent_output_data Demo.world2 = PList (PStr <$> ds) ∧ length ds = 1.
Proof.
  assert (Demo.input !! "sessions"
          = Some (PList [Demo.session "S1" "<stub/>"])) as Hsess
    by reflexivity.
  assert (Demo.phase1 (mkLocal None Demo.input) Demo.world1
          = (Ok tt, Demo.world2)) as Hrun by (vm_compute; reflexivity).
  split; [exact Hsess|]. split; [exact Hrun|].
  destruct (proj1 (phase1_reports_every_descriptor "a2:8443" "a2:8081"
                     Demo.engine Demo.cfg (mkLocal None Demo.input)
                     Demo.world1 Demo.world2 (Ok tt)
                     [Demo.session "S1" "<stub/>"] Hsess Hrun) eq_refl)
    as (eid & name & ds & _ & Hout & _ & Hlen & _).
  exists ds. split; [exact Hout|exact Hlen].
Defined.

(** * The approval gate *)







(** * The bootstrap *)

Lemma nothing_created_refl (w : world) : nothing_created w w.
Proof. by repeat split. Qed.

Lemma nothing_created_trans (w1 w2 w3 : world) :
  nothing_created w1 w2 → nothing_created w2 w3 → nothing_created w1 w3.
Proof.
  unfold nothing_created. intros (?&?&?) (?&?&?). repeat split; congruence.
Qed.

Lemma add_authorities_inv (election_id : pyval) (l : list pyval)
    (w w' : world) (r : result unit) :
  add_authorities election_id l w = (r, w') →
  fs w' = fs w ∧ db w' = db w ∧
  (r = Ok tt →
   db_session w' =
     (db_session w ++ (AuthorityRow ∘ authority_row election_id <$> l))%list).
Proof.
  revert w. induction l as [|a l IH]; intros w.
  { intros [= <- <-]. repeat split. intros _. by rewrite app_nil_r. }
  cbn [add_authorities]. intros H.
  apply M_bind_inv in H
    as [(n & w1 & [Hn <-]%lift_inv & H)|(e & [_ <-]%lift_inv & ->)]; [|done].
  apply M_bind_inv in H
    as [(c & w1 & [Hc <-]%lift_inv & H)|(e & [_ <-]%lift_inv & ->)]; [|done].
  apply M_bind_inv in H
    as [(u & w1 & [Hu <-]%lift_inv & H)|(e & [_ <-]%lift_inv & ->)]; [|done].
  apply M_bind_inv in H as [([] & w1 & [= <-] & H)|(e & [=] & _)].
  apply IH in H as (Hfs & Hdb & Hrows). cbn [fs db db_session] in *.
  repeat split; try done. intros Hr. rewrite (Hrows Hr), <- app_assoc.
  rewrite fmap_cons. cbn [compose]. unfold authority_row.
  by rewrite (py_getitem_field _ _ _ Hn), (py_getitem_field _ _ _ Hc),
    (py_getitem_field _ _ _ Hu).
Qed.
Lemma files_extend_refl (written : path → Prop) (w : world) :
  files_extend written w w.
Proof. by repeat split. Qed.

Lemma files_extend_trans (written : path → Prop) (w1 w2 w3 : world) :
  files_extend written w1 w2 → files_extend written w2 w3 →
  files_extend written w1 w3.
Proof.
  intros (Hd1 & He1 & Hr1) (Hd2 & He2 & Hr2). repeat split.
  - congruence.
  - auto.
  - intros p Hp. by rewrite Hr2, Hr1.
Qed.

Lemma files_extend_weaken (written written' : path → Prop) (w w' : world) :
  (∀ p, written p → written' p) →
  files_extend written w w' → files_extend written' w w'.
Proof. intros Hsub (? & ? & Hr). repeat split; auto. Qed.

Lemma mkdir_recursive_extend (q : path) (w w' : world) (r : result unit) :
  mkdir_recursive_ q w = (r, w') →
  files_extend (λ _, False) w w' ∧ db_session w' = db_session w ∧
  (r = Ok tt → path_exists (fs w') q = true).
Proof.
  unfold mkdir_recursive_.
  destruct (mkdir_recursive (fs w) q) as [n|] eqn:Hm; intros [= <- <-].
  - repeat split; cbn [fs db].
    + intros p. by eapply mkdir_recursive_exists_mono.
    + intros p _. by eapply mkdir_recursive_read.
    + intros _. by eapply mkdir_recursive_exists.
  - split; [apply files_extend_refl|done].
Qed.

Lemma write_extend (q : path) (content : string) (n : node) (w : world) :
  write_file (fs w) q content = Some n →
  files_extend (λ p, p = q) w (set_fs n w).
Proof.
  intros Hw. repeat split; cbn [fs db set_fs].
  - intros p. by eapply write_file_exists_mono.
  - intros p Hp. by eapply write_file_read_other.
Qed.

Lemma open_w_extend (q : path) (w w' : world) (r : result unit) :
  open_w q w = (r, w') →
  files_extend (λ p, p = q) w w' ∧ db_session w' = db_session w.
Proof.
  unfold open_w. destruct (write_file (fs w) q "") as [n|] eqn:Hw;
    intros [= <- <-].
  - split; [by eapply write_extend|done].
  - split; [apply files_extend_refl|done].
Qed.

Lemma file_write_extend (q : path) (v : pyval) (w w' : world)
    (r : result unit) :
  file_write q v w = (r, w') →
  files_extend (λ p, p = q) w w' ∧ db_session w' = db_session w ∧
  (r = Ok tt → read_file (fs w') q = Some (name_of v)).
Proof.
  unfold file_write. destruct v as [| | |s| | |];
    try (intros [= <- <-]; split; [apply files_extend_refl|done]).
  destruct (write_file (fs w) q s) as [n|] eqn:Hw; intros [= <- <-].
  - split; [by eapply write_extend|]. split; [done|].
    intros _. by eapply write_file_read_same.
  - split; [apply files_extend_refl|done].
Qed.

Lemma add_sessions_inv (election_id : pyval) (election_privpath : path)
    (l : list pyval) (i : nat) (w w' : world) (r : result unit) :
  add_sessions election_id election_privpath l i w = (r, w') →
  files_extend (λ p, Exists (λ s, p = stub_path_of election_privpath s) l)
    w w' ∧
  (r = Ok tt →
   db_session w' =
     (db_session w ++
      imap (λ j s, SessionRow (session_row election_id (i + j) s)) l)%list ∧
   Forall (λ s,
       is_text_field "id" s ∧
       path_exists (fs w')
         (election_privpath ++ [session_id_of s])%list = true ∧
       path_exists (fs w') (stub_path_of election_privpath s) = true) l ∧
   (NoDup (session_id_of <$> l) →
    Forall (λ s,
        read_file (fs w') (stub_path_of election_privpath s)
          = Some (name_of (field_of "stub" s))) l)).
Proof.
  revert i w. induction l as [|session l IH]; intros i w.
  { intros [= <- <-]. split; [apply files_extend_refl|].
    intros _. by rewrite app_nil_r. }
  cbn [add_sessions]. intros H.
  set (written := λ p, Exists (λ s, p = stub_path_of election_privpath s)
                         (session :: l)).
  assert (∀ w0, files_extend written w0 w0) as Hrefl
    by (intros; apply files_extend_refl).
  apply M_bind_inv in H
    as [(sid & w1 & [Hsid <-]%lift_inv & H)|(e & [_ <-]%lift_inv & ->)];
    [|done].
  apply M_bind_inv in H as [([] & w1 & [= <-] & H)|(e & [=] & _)].
  match type of H with
  | _ ?w0 = _ => set (wa := w0) in *
  end.
  assert (files_extend written w wa ∧
          db_session wa =
            (db_session w ++
             [SessionRow (Session.mk sid election_id "default" "" i)])%list)
    as [Ha Hrow] by done.
  clearbody wa.
  apply M_bind_inv in H
    as [(dir & w1 & [Hdir <-]%lift_inv & H)|(e & [_ <-]%lift_inv & ->)];
    [|done].
  destruct sid as [| | |sid| | |]; try discriminate Hdir.
  injection Hdir as <-.
  pose proof (py_getitem_field _ _ _ Hsid) as Hfield.
  assert (session_id_of session = sid) as Hid
    by (unfold session_id_of; by rewrite Hfield).
  assert (∀ w1 w2, files_extend
            (λ p, p = (election_privpath ++ [sid]) ++ ["stub.xml"])%list
            w1 w2 → files_extend written w1 w2) as Hstub.
  { intros w1 w2. apply files_extend_weaken. intros p ->.
    apply Exists_cons_hd. unfold stub_path_of. by rewrite Hid. }
  apply M_bind_inv in H as [([] & wb & Hmk & H)|(e & Hmk & ->)].
  2: { apply mkdir_recursive_extend in Hmk as (Hmk & _).
       split; [|done]. eapply files_extend_trans; [exact Ha|].
       eapply files_extend_weaken; [|exact Hmk]. done. }
  apply mkdir_recursive_extend in Hmk as (Hmk & Hsb & Hdirb).
  specialize (Hdirb eq_refl).
  assert (files_extend written w wb) as Hb.
  { eapply files_extend_trans; [exact Ha|].
    eapply files_extend_weaken; [|exact Hmk]. done. }
  apply M_bind_inv in H as [([] & wc & Hop & H)|(e & Hop & ->)].
  2: { apply open_w_extend in Hop as (Hop & _). split; [|done].
       eapply files_extend_trans; [exact Hb|]. by apply Hstub. }
  apply open_w_extend in Hop as (Hop & Hsc).
  assert (files_extend written w wc) as Hc
    by (eapply files_extend_trans; [exact Hb|]; by apply Hstub).
  apply M_bind_inv in H
    as [(stub & w1 & [Hst <-]%lift_inv & H)|(e & [_ <-]%lift_inv & ->)];
    [|done].
  apply M_bind_inv in H as [([] & wd & Hwr & H)|(e & Hwr & ->)].
  2: { apply file_write_extend in Hwr as (Hwr & _). split; [|done].
       eapply files_extend_trans; [exact Hc|]. by apply Hstub. }
  apply file_write_extend in Hwr as (Hwr & Hsd & Hread).
  specialize (Hread eq_refl).
  assert (files_extend written w wd) as Hd
    by (eapply files_extend_trans; [exact Hc|]; by apply Hstub).
  apply IH in H as (Hrest & Hok).
  split.
  { eapply files_extend_trans; [exact Hd|].
    eapply files_extend_weaken; [|exact Hrest].
    intros p Hp. by apply Exists_cons_tl. }
  intros ->. destruct (Hok eq_refl) as (Hrows & Hdirs & Hstubs).
  destruct Hrest as (_ & Hmono & Hkeep).
  destruct Hop as (_ & Hmono_c & _). destruct Hwr as (_ & Hmono_d & _).
  split; [|split].
  - rewrite Hrows, Hsd, Hsc, Hsb, Hrow, <- app_assoc. cbn [imap app].
    f_equal. f_equal.
    + unfold session_row. by rewrite Hfield, Nat.add_0_r.
    + apply imap_ext. intros j s _. cbn [compose].
      by rewrite Nat.add_succ_r.
  - constructor; [|done]. rewrite Hid.
    split; [unfold is_text_field; by rewrite Hfield|].
    split.
    + by apply Hmono, Hmono_d, Hmono_c.
    + apply Hmono. unfold stub_path_of. rewrite Hid.
      by eapply read_file_exists.
  - intros Hnd. apply NoDup_cons in Hnd as [Hnotin Hnd].
    constructor; [|by apply Hstubs].
    rewrite Hkeep.
    + unfold stub_path_of. rewrite Hid.
      by rewrite Hread, (py_getitem_field _ _ _ Hst).
    + intros Hex. apply Exists_exists in Hex as (s & Hs & Heq).
      apply Hnotin. apply list_elem_of_fmap. exists s. split; [|done].
      unfold stub_path_of in Heq.
      apply app_inv_tail, app_inv_head in Heq. by injection Heq.
Qed.
Lemma foldl_store_add (rows : list row) (s : store) :
  foldl (λ s r, store_add r s) s rows =
  mkStore (elections s ++ omap row_election rows)
          (authorities s ++ omap row_authority rows)
          (sessions s ++ omap row_session rows).
Proof.
  revert s. induction rows as [|r rows IH]; intros s.
  { destruct s. simpl. by rewrite !app_nil_r. }
  cbn [foldl]. rewrite IH. destruct r; cbn; by rewrite <- ?app_assoc.
Qed.

Lemma omap_rows {A B} (f : A → row) (g : row → option B) (l : list A) :
  (∀ x, g (f x) = None) → omap g (f <$> l) = [].
Proof.
  intros H. induction l as [|x l IH]; [done|].
  rewrite fmap_cons. cbn. by rewrite H.
Qed.

Lemma omap_rows_same {A} (f : A → row) (g : row → option A) (l : list A) :
  (∀ x, g (f x) = Some x) → omap g (f <$> l) = l.
Proof.
  intros H. induction l as [|x l IH]; [done|].
  rewrite fmap_cons. cbn. by rewrite H, IH.
Qed.

Section Bootstrap.
Variable json_loads : string → option pyval.
Variable loads : string → option pyval.
Variable dumps : pyval → string.
Variable isoformat : Z → string.
Variable certs_differ : string → string → bool.
Variable cfg : config.


Lemma create_local_data_Ok (input : gmap string pyval) (election_id : pyval)
    (election_privpath : path) (auths sess : list pyval) (w w' : world)
    (el : Election.t) :
  create_local_data input election_id election_privpath auths sess w
    = (Ok el, w') →
  new_election input = Ok el ∧
  db w' =
    foldl (λ s r, store_add r s) (db w)
      (db_session w ++ [ElectionRow el] ++
       (AuthorityRow ∘ authority_row election_id <$> auths) ++
       (SessionRow <$> imap (session_row election_id) sess))%list ∧
  db_session w' = [] ∧
  (∀ p, path_exists (fs w) p = true → path_exists (fs w') p = true) ∧
  Forall (λ s,
      is_text_field "id" s ∧
      path_exists (fs w') (election_privpath ++ [session_id_of s])%list
        = true ∧
      path_exists (fs w') (stub_path_of election_privpath s) = true) sess ∧
  (NoDup (session_id_of <$> sess) →
   Forall (λ s,
       read_file (fs w') (stub_path_of election_privpath s)
         = Some (name_of (field_of "stub" s))) sess).
Proof.
  unfold create_local_data. intros H.
  apply M_bind_Ok in H as (there & w1 & [= <- <-] & H).
  apply M_bind_Ok in H as ([] & w1 & Hguard & H).
  assert (w1 = w) as ->.
  { destruct (path_exists (fs w) election_privpath).
    - apply M_bind_Ok in Hguard as (? & ? & _ & [=]).
    - by injection Hguard. }
  clear Hguard.
  apply M_bind_Ok in H as (el' & w1 & [Hel <-]%lift_inv & H).
  apply M_bind_Ok in H as ([] & wa & [= <-] & H).
  apply M_bind_Ok in H as ([] & wb & Hauths & H).
  apply add_authorities_inv in Hauths as (Hfs_b & Hdb_b & Hrows_b).
  specialize (Hrows_b eq_refl). cbn [fs db db_session] in *.
  apply M_bind_Ok in H as ([] & wc & Hsess & H).
  apply add_sessions_inv in Hsess as ((Hdb_c & Hmono & _) & Hok).
  destruct (Hok eq_refl) as (Hrows_c & Hdirs & Hstubs).
  apply M_bind_Ok in H as ([] & wd & [= <-] & [= <- <-]).
  cbn [fs db db_session].
  split; [done|]. split; [|split; [done|]].
  - rewrite Hdb_c, Hdb_b, Hrows_c, Hrows_b, <- !app_assoc.
    do 4 f_equal. rewrite fmap_imap. by apply imap_ext.
  - split; [|by split].
    intros p Hp. apply Hmono. by rewrite Hfs_b.
Qed.

Lemma check_election_data_revalidation_store (db db' : store)
    (data : gmap string pyval) :
  check_election_data json_loads cfg db data false =
  check_election_data json_loads cfg db' data false.
Proof. reflexivity. Qed.

Lemma preliminary_checks_Ok (n : node) (store : store)
    (input : gmap string pyval) (c : checked_input) :
  preliminary_checks json_loads cfg n store input = Ok c →
  ∃ eid,
    input !! "election_id" = Some (PStr eid) ∧
    checked_election_id c = PStr eid ∧
    checked_privpath c = (PRIVATE_DATA_PATH cfg ++ [eid])%list ∧
    check_election_data json_loads cfg store input false = Ok tt ∧
    input !! "sessions" = Some (PList (checked_sessions c)) ∧
    checked_sessions c ≠ [] ∧
    input !! "authorities" = Some (PList (checked_authorities c)) ∧
    check_sessions (checked_sessions c) = Ok tt ∧
    check_not_created n (checked_privpath c) (checked_sessions c) = Ok tt.
Proof.
  unfold preliminary_checks. intros H.
  apply bind_Ok in H as (veid & Heid & H).
  apply bind_Ok in H as (priv & Hpriv & H).
  apply bind_Ok in H as ([] & Hcheck & H).
  apply bind_Ok in H as (sess & Hsess & H).
  apply bind_Ok in H as ([] & Hcs & H).
  apply bind_Ok in H as (auths & Hauths & H).
  apply bind_Ok in H as (auth_name & _ & H).
  apply bind_Ok in H as ([] & _ & H).
  apply bind_Ok in H as ([] & Hnc & H).
  injection H as <-. cbn.
  unfold dict_getitem in Heid.
  destruct (input !! "election_id") as [x|] eqn:Hx; [|done].
  injection Heid as ->.
  destruct veid as [| | |eid| | |]; try discriminate Hpriv.
  injection Hpriv as <-. exists eid.
  unfold dict_get in Hsess.
  destruct (input !! "sessions") as [[| | | | |l|]|]; try discriminate Hsess.
  simpl in Hsess. apply bind_Ok in Hsess as ([] & Hne & [= <-]).
  apply ensure_Ok, negb_true_iff, bool_decide_eq_false in Hne.
  pose proof Hcheck as Hrules. apply check_election_data_Ok in Hrules.
  unfold validation_rules in Hrules. rewrite !Forall_app in Hrules.
  destruct Hrules as (_ & Hfields & _).
  apply verdict_Ok, field_rules_Ok in Hfields as (? & la & _ & Hla).
  unfold dict_getitem in Hauths. rewrite Hla in Hauths.
  injection Hauths as <-.
  repeat split; try done. by destruct l.
Qed.

Lemma check_not_created_again (n n2 : node) (election_privpath : path)
    (l : list pyval) :
  check_not_created n election_privpath l = Ok tt →
  check_not_created n2 election_privpath l = Ok tt ∨
  ∃ s, s ∈ l ∧
       check_not_created n2 election_privpath l =
         Raise (TaskError ("session_id " +:+ session_id_of s +:+
                           " already created")).
Proof.
  induction l as [|session l IH]; [by left|].
  cbn [check_not_created]. intros H.
  apply bind_Ok in H as (sid & Hsid & H).
  apply bind_Ok in H as (dir & Hdir & H).
  apply bind_Ok in H as ([] & _ & H).
  rewrite Hsid. cbn [mbind result_bind]. rewrite Hdir.
  cbn [mbind result_bind].
  destruct sid as [| | |sid| | |]; try discriminate Hdir.
  destruct (path_exists n2 _).
  - right. exists session. split; [by left|].
    unfold session_id_of. by rewrite (py_getitem_field _ _ _ Hsid).
  - cbn [mbind result_bind]. destruct (IH H) as [->|(s & Hs & ->)].
    + by left.
    + right. exists s. split; [by right|done].
Qed.

Lemma preliminary_checks_again (n n2 : node) (store store2 : store)
    (input : gmap string pyval) (c : checked_input) :
  preliminary_checks json_loads cfg n store input = Ok c →
  preliminary_checks json_loads cfg n2 store2 input =
    (check_not_created n2 (checked_privpath c) (checked_sessions c) ≫= λ _,
     Ok c).
Proof.
  unfold preliminary_checks. intros H.
  apply bind_Ok in H as (veid & E1 & H).
  apply bind_Ok in H as (priv & E2 & H).
  apply bind_Ok in H as ([] & E3 & H).
  apply bind_Ok in H as (sess & E4 & H).
  apply bind_Ok in H as ([] & E5 & H).
  apply bind_Ok in H as (auths & E6 & H).
  apply bind_Ok in H as (auth_name & E7 & H).
  apply bind_Ok in H as ([] & E8 & H).
  apply bind_Ok in H as ([] & _ & H).
  injection H as <-.
  rewrite E1. cbn [mbind result_bind]. rewrite E2. cbn [mbind result_bind].
  rewrite (check_election_data_revalidation_store store2 store), E3.
  cbn [mbind result_bind]. rewrite E4. cbn [mbind result_bind].
  rewrite E5. cbn [mbind result_bind]. rewrite E6. cbn [mbind result_bind].
  rewrite E7. cbn [mbind result_bind]. rewrite E8. cbn [mbind result_bind].
  reflexivity.
Qed.
End Bootstrap.
Section BootstrapRun.
Variable json_loads : string → option pyval.
Variable loads : string → option pyval.
Variable dumps : pyval → string.
Variable isoformat : Z → string.
Variable certs_differ : string → string → bool.
Variable cfg : config.

Lemma task_add_nothing_created (t : subtask) (w w' : world)
    (r : result unit) :
  task_add t w = (r, w') → nothing_created w w'.
Proof. by intros [= <- <-]. Qed.

Lemma generate_private_info_inv (task : task_data) (w w' : world)
    (r : result unit) :
  generate_private_info json_loads loads dumps isoformat certs_differ cfg
    task w = (r, w') →
  match preliminary_checks json_loads cfg (fs w) (db w) (input_data task)
  with
  | Raise e => r = Raise e ∧ w' = w
  | Ok c =>
      if certs_differ (sender_ssl_cert task) (SSL_CERT_STRING cfg)
      then
        ∃ r1 w1,
          create_local_data (input_data task) (checked_election_id c)
            (checked_privpath c) (checked_authorities c)
            (checked_sessions c) w = (r1, w1) ∧
          match r1 with
          | Raise e => r = Raise e ∧ w' = w1
          | Ok el => nothing_created w1 w'
          end
      else nothing_created w w'
  end.
Proof.
  unfold generate_private_info. intros H.
  apply M_bind_inv in H as [(c & w1 & [= Hc <-] & H)|(e & [= He <-] & ->)];
    [rewrite Hc|by rewrite He].
  assert (∀ el w1,
            (((if negb (AUTOACCEPT_REQUESTS cfg)
               then info ← lift (approval_text loads dumps isoformat
                                   (input_data task) el);
                    task_add (ExternalTask "approve_election" info)
               else mret tt);;
              task_add (SimpleTask (ROOT_URL cfg)
                          "generate_private_info_verificatum"
                          "orchestra_performer" ∅)) : M unit) w1 = (r, w') →
            nothing_created w1 w') as Htail.
  { intros el w1 Ht.
    apply M_bind_inv in Ht as [([] & w2 & Ha & Ht)|(e & Ha & ->)].
    - apply task_add_nothing_created in Ht.
      eapply nothing_created_trans; [|exact Ht].
      destruct (negb (AUTOACCEPT_REQUESTS cfg)).
      + apply M_bind_inv in Ha
          as [(info & w3 & [_ <-]%lift_inv & Ha)|(e & [_ <-]%lift_inv & ?)];
          [|done].
        by eapply task_add_nothing_created.
      + injection Ha as <-. apply nothing_created_refl.
    - destruct (negb (AUTOACCEPT_REQUESTS cfg)); [|done].
      apply M_bind_inv in Ha
        as [(info & w3 & [_ <-]%lift_inv & Ha)|(e' & [_ <-]%lift_inv & ?)].
      + by eapply task_add_nothing_created.
      + apply nothing_created_refl. }
  destruct (certs_differ _ _).
  - apply M_bind_inv in H as [(el & w1 & Hcreate & H)|(e & Hcreate & ->)].
    + apply M_bind_inv in Hcreate
        as [(el' & w2 & Hcreate & [= <- <-])|(e & _ & [=])].
      exists (Ok el'), w2. split; [done|]. by eapply Htail.
    + apply M_bind_inv in Hcreate
        as [(el' & w2 & _ & [=])|(e' & Hcreate & [= <-])].
      by exists (Raise e), w'.
  - apply M_bind_inv in H as [(el & w1 & [= <- <-] & H)|(e & [=] & _)].
    by eapply Htail.
Qed.
End BootstrapRun.
Section Performer.
Variable json_loads : string → option pyval.
Variable loads : string → option pyval.
Variable dumps : pyval → string.
Variable isoformat : Z → string.
Variable certs_differ : string → string → bool.
Variable cfg : config.

(** What a successful run of a performer leaves. *)
Lemma generate_private_info_performer_Ok (task : task_data) (w w' : world) :
  certs_differ (sender_ssl_cert task) (SSL_CERT_STRING cfg) = true →
  generate_private_info json_loads loads dumps isoformat certs_differ cfg
    task w = (Ok tt, w') →
  ∃ eid auths sess el,
    input_data task !! "election_id" = Some (PStr eid) ∧
    input_data task !! "authorities" = Some (PList auths) ∧
    input_data task !! "sessions" = Some (PList sess) ∧
    sess ≠ [] ∧
    check_election_data json_loads cfg (db w) (input_data task) false
      = Ok tt ∧
    preliminary_checks json_loads cfg (fs w) (db w) (input_data task)
      = Ok (mkChecked (PStr eid) (PRIVATE_DATA_PATH cfg ++ [eid])%list
              sess auths) ∧
    new_election (input_data task) = Ok el ∧
    db w' =
      foldl (λ s r, store_add r s) (db w)
        (db_session w ++ [ElectionRow el] ++
         (AuthorityRow ∘ authority_row (PStr eid) <$> auths) ++
         (SessionRow <$> imap (session_row (PStr eid)) sess))%list ∧
    db_session w' = [] ∧
    (∀ p, path_exists (fs w) p = true → path_exists (fs w') p = true) ∧
    Forall (λ s,
        is_text_field "id" s ∧
        path_exists (fs w') (session_privpath_of cfg eid (session_id_of s))
          = true ∧
        path_exists (fs w')
          (stub_path_of (PRIVATE_DATA_PATH cfg ++ [eid])%list s) = true)
      sess ∧
    (NoDup (session_id_of <$> sess) →
     Forall (λ s,
         read_file (fs w')
           (stub_path_of (PRIVATE_DATA_PATH cfg ++ [eid])%list s)
           = Some (name_of (field_of "stub" s))) sess).
Proof.
  intros Hdiffer Hrun. apply generate_private_info_inv in Hrun.
  destruct (preliminary_checks _ _ _ _ _) as [c|] eqn:Hpre;
    [|by destruct Hrun].
  rewrite Hdiffer in Hrun. destruct Hrun as (r1 & w1 & Hcreate & Hr1).
  destruct r1 as [el|]; [|by destruct Hr1].
  destruct Hr1 as (Hfs & Hdb & Hsession).
  pose proof Hpre as Hc.
  apply preliminary_checks_Ok in Hc
    as (eid & Heid & Hceid & Hpriv & Hcheck & Hsess & Hne & Hauths & _ & _).
  destruct c as [ceid cpriv csess cauths]. cbn in *. subst ceid cpriv.
  apply create_local_data_Ok in Hcreate
    as (Hel & Hdb1 & Hs1 & Hmono & Hdirs & Hstubs).
  exists eid, cauths, csess, el. rewrite Hfs, Hdb, Hsession.
  repeat split; try done.
Qed.


End Performer.

(** * The role of the node and the one-shot bootstrap *)

Lemma store_rows (s : store) (el : Election.t) (eid : pyval)
    (auths sess : list pyval) :
  foldl (λ s r, store_add r s) s
    ([] ++ [ElectionRow el] ++
     (AuthorityRow ∘ authority_row eid <$> auths) ++
     (SessionRow <$> imap (session_row eid) sess))%list =
  mkStore (elections s ++ [el])
          (authorities s ++ (authority_row eid <$> auths))
          (sessions s ++ imap (session_row eid) sess).
Proof.
  rewrite foldl_store_add. cbn [app]. rewrite list_fmap_compose.
  f_equal; f_equal; cbn [omap list_omap row_election row_authority
                           row_session]; rewrite ?omap_app.
  - by rewrite !omap_rows.
  - by rewrite omap_rows_same, omap_rows, app_nil_r.
  - by rewrite omap_rows, omap_rows_same.
Qed.






(** * The voting window *)

Lemma new_election_window (input : gmap string pyval) (el : Election.t) :
  new_election input = Ok el →
  input !! "voting_start_date" = Some (Election.voting_start_date el) ∧
  input !! "voting_end_date" = Some (Election.voting_end_date el).
Proof.
  unfold new_election. intros H.
  do 5 (apply bind_Ok in H as (? & _ & H)).
  apply bind_Ok in H as (s & Hs & H).
  apply bind_Ok in H as (e & He & H).
  do 3 (apply bind_Ok in H as (? & _ & H)).
  injection H as <-. cbn. unfold dict_getitem in *.
  destruct (input !! "voting_start_date"); [|done].
  destruct (input !! "voting_end_date"); [|done].
  by simplify_eq.
Qed.

Lemma date_holds_value (data : gmap string pyval) (k : string) (v : pyval) :
  date_holds data k = true → data !! k = Some v →
  v = PNone ∨ ∃ t, v = PDate t.
Proof.
  unfold date_holds. intros H Hk. rewrite Hk in H.
  destruct v; try done; eauto.
Qed.

(** C9, as stated, at a concrete input: an election whose window ends
    before it starts is created. *)
Lemma window_not_ordered :
  Demo.bootstrap_backwards Demo.world0 = (Ok tt, Demo.world_backwards) ∧
  (Election.voting_start_date <$> elections (db Demo.world_backwards))
    = [PDate 2000] ∧
  (Election.voting_end_date <$> elections (db Demo.world_backwards))
    = [PDate 1000] ∧
  (1000 < 2000)%Z.
Proof.
  split; [vm_compute; reflexivity|]. split; [vm_compute; reflexivity|].
  split; vm_compute; reflexivity.
Qed.

(** C9, amended. The election row that a performer creates carries the
    two dates of the payload, each of them null or a datetime; the code
    does not compare them. *)
Theorem created_election_window
    (json_loads loads : string → option pyval) (dumps : pyval → string)
    (isoformat : Z → string) (certs_differ : string → string → bool)
    (cfg : config) (task : task_data) (w w' : world)
    (Hdiffer : certs_differ (sender_ssl_cert task) (SSL_CERT_STRING cfg)
               = true)
    (Hfresh : db_session w = [])
    (Hrun : generate_private_info json_loads loads dumps isoformat
              certs_differ cfg task w = (Ok tt, w')) :
  ∃ el,
    elections (db w') = (elections (db w) ++ [el])%list ∧
    input_data task !! "voting_start_date"
      = Some (Election.voting_start_date el) ∧
    input_data task !! "voting_end_date"
      = Some (Election.voting_end_date el) ∧
    (Election.voting_start_date el = PNone ∨
     ∃ t, Election.voting_start_date el = PDate t) ∧
    (Election.voting_end_date el = PNone ∨
     ∃ t, Election.voting_end_date el = PDate t).
Proof.
  destruct (generate_private_info_performer_Ok _ _ _ _ _ _ _ _ _
              Hdiffer Hrun)
    as (eid & auths & sess & el & _ & _ & _ & _ & Hcheck & _ & Hel & Hdb
        & _).
  rewrite Hfresh, store_rows in Hdb.
  apply new_election_window in Hel as [Hs He].
  apply check_election_data_Ok in Hcheck. unfold validation_rules in Hcheck.
  rewrite !Forall_app in Hcheck. destruct Hcheck as (_ & _ & _ & Hd & _).
  unfold date_rules in Hd. rewrite !Forall_cons in Hd.
  destruct Hd as (Hds & Hde & _). cbn in Hds, Hde.
  exists el. rewrite Hdb. cbn [elections].
  split; [reflexivity|]. split; [exact Hs|]. split; [exact He|]. split.
  - exact (date_holds_value _ _ _ Hds Hs).
  - exact (date_holds_value _ _ _ Hde He).
Qed.

Lemma created_election_window_witness :
  Demo.certs_differ (sender_ssl_cert Demo.backwards_task)
    (SSL_CERT_STRING Demo.cfg) = true ∧
  db_session Demo.world0 = [] ∧
  Demo.bootstrap_backwards Demo.world0 = (Ok tt, Demo.world_backwards) ∧
  ∃ el, elections (db Demo.world_backwards) = [el] ∧
        Some (Election.voting_start_date el) = Some (PDate 2000).
Proof.
  assert (Demo.bootstrap_backwards Demo.world0
          = (Ok tt, Demo.world_backwards)) as Hrun
    by (vm_compute; reflexivity).
  assert (Demo.certs_differ (sender_ssl_cert Demo.backwards_task)
            (SSL_CERT_STRING Demo.cfg) = true) as Hdiffer
    by (vm_compute; reflexivity).
  assert (db_session Demo.world0 = []) as Hfresh by reflexivity.
  split; [exact Hdiffer|]. split; [exact Hfresh|]. split; [exact Hrun|].
  destruct (created_election_window Demo.json_loads Demo.json_loads
              Demo.dumps Demo.isoformat Demo.certs_differ Demo.cfg
              Demo.backwards_task Demo.world0 Demo.world_backwards
              Hdiffer Hfresh Hrun)
    as (el & Hel & Hs & _).
  exists el. split; [exact Hel|]. by rewrite <- Hs.
Defined.
(** * Further properties *)

(** ** The identifier pattern *)

Lemma id_tail_spec (s : string) :
  id_tail s = true ↔
  all_id_chars s = true ∨ ∃ body, s = body +:+ newline ∧ all_id_chars body = true.
Proof.
  induction s as [|c s IH]; [by split; [left|]|].
  destruct s as [|c' s'].
  - cbn [id_tail all_id_chars]. rewrite andb_true_r, orb_true_iff. split.
    + intros [H|H]; [by left|]. right. exists "". split; [|done].
      cbn. f_equal. apply Nat.eqb_eq in H.
      by rewrite <- (Ascii.ascii_nat_embedding c), H.
    + intros [H|(body & Hb & Hbody)]; [by left|]. right.
      destruct body as [|b body]; cbn in Hb.
      * injection Hb as ->. reflexivity.
      * injection Hb as _ Hb. by destruct body.
  - change (id_tail (String c (String c' s')))
      with (is_id_char c && id_tail (String c' s')).
    cbn [all_id_chars] in *. rewrite andb_true_iff, IH. split.
    + intros [Hc [H|(body & Hb & Hbody)]].
      * left. by rewrite Hc.
      * right. exists (String c body). cbn. rewrite Hb, Hc. by split.
    + intros [[Hc H]%andb_true_iff|(body & Hb & Hbody)].
      * split; [done|by left].
      * destruct body as [|b body]; cbn in Hb; [by destruct s'|].
        injection Hb as -> Hb. cbn in Hbody.
        apply andb_true_iff in Hbody as [Hc Hbody].
        split; [done|]. right. by exists body.
Qed.

Lemma all_id_chars_no_slash (s : string) :
  all_id_chars s = true → is_substring "/" s = false.
Proof.
  induction s as [|c s IH]; [done|].
  cbn [all_id_chars]. intros [Hc Hs]%andb_true_iff.
  cbn [is_substring]. rewrite (IH Hs), orb_false_r.
  cbn [String.prefix].
  match goal with
  | |- context [Ascii.ascii_dec ?a c] =>
      destruct (Ascii.ascii_dec a c) as [<-|]
  end; done.
Qed.

Lemma is_substring_app_newline (body : string) :
  is_substring "/" body = false →
  is_substring "/" (body +:+ newline) = false.
Proof.
  induction body as [|c body IH]; [done|].
  change (String c body +:+ newline) with (String c (body +:+ newline)).
  cbn [is_substring]. intros [Hc Hb]%orb_false_iff.
  rewrite (IH Hb), orb_false_r. cbn [String.prefix] in *.
  match goal with
  | |- context [Ascii.ascii_dec ?a c] =>
      destruct (Ascii.ascii_dec a c); [by destruct body|done]
  end.
Qed.

Lemma re_match_id_body (s : string) :
  re_match_id s = true ↔
  ∃ body, body ≠ "" ∧ all_id_chars body = true ∧
          (s = body ∨ s = body +:+ newline).
Proof.
  destruct s as [|c s]; cbn [re_match_id].
  - split; [done|]. intros (body & Hne & _ & [H|H]); [by subst|].
    by destruct body.
  - rewrite andb_true_iff, id_tail_spec. split.
    + intros [Hc [H|(body & -> & Hbody)]].
      * exists (String c s). cbn [all_id_chars]. rewrite Hc, H. eauto.
      * exists (String c body). cbn [all_id_chars]. rewrite Hc, Hbody.
        split; [done|]. split; [done|]. by right.
    + intros (body & Hne & Hbody & [H|H]).
      * subst body. cbn [all_id_chars] in Hbody.
        apply andb_true_iff in Hbody as [? ?]. split; [done|by left].
      * destruct body as [|b body]; [done|]. cbn in H.
        injection H as -> ->. cbn [all_id_chars] in Hbody.
        apply andb_true_iff in Hbody as [? ?]. split; [done|].
        right. by exists body.
Qed.

(** The characters of an identifier are neither the slash nor NUL, and
    neither is the newline that may end it. *)
Lemma id_char_plain (c : Ascii.ascii) :
  is_id_char c || (Ascii.nat_of_ascii c =? 10)%nat = true →
  Ascii.eqb c slash = false ∧ Ascii.eqb c nul = false.
Proof.
  intros H. split.
  - destruct (Ascii.eqb_spec c slash) as [->|]; [|done].
    by vm_compute in H.
  - destruct (Ascii.eqb_spec c nul) as [->|]; [|done]. by vm_compute in H.
Qed.

Lemma id_tail_plain (s : string) :
  id_tail s = true → components s = [s] ∧ has_nul_char s = false.
Proof.
  induction s as [|c s IH]; [done|].
  destruct s as [|c' s'].
  - cbn [id_tail components has_nul_char]. intros [Hs Hn]%id_char_plain.
    by rewrite Hs, Hn.
  - change (id_tail (String c (String c' s')))
      with (is_id_char c && id_tail (String c' s')).
    intros [Hc [Hcs Hnul]%IH]%andb_true_iff.
    destruct (id_char_plain c) as [Hs Hn]; [by rewrite Hc|].
    cbn [components has_nul_char] in *. by rewrite Hs, Hn, Hcs, Hnul.
Qed.

(** An identifier that has passed the pattern is one name: the system
    follows its join with a directory to the entry that [path_join]
    appends, so that on a validated payload the two joins agree. *)
Lemma path_join_validated (n : node) (base : path) (s : string) :
  re_match_id s = true →
  locate n (base, [s]) = Ok (Some (base ++ [s])%list) ∧
  path_join base (PStr s) = Ok (base ++ [s])%list.
Proof.
  intros Hid. split; [|done].
  destruct s as [|c s]; [done|]. cbn [re_match_id] in Hid.
  apply andb_true_iff in Hid as [Hc Htail].
  assert (id_tail (String c s) = true) as Hall.
  { destruct s; [by cbn; rewrite Hc|].
    change (is_id_char c && id_tail (String a s) = true).
    by rewrite Hc. }
  apply id_tail_plain in Hall as [Hcs Hnul].
  destruct (id_char_plain c) as [Hslash _]; [by rewrite Hc|].
  assert (is_name (String c s) = true) as Hname.
  { unfold is_name. rewrite Hcs, bool_decide_eq_true_2 by done.
    assert (is_absolute (String c s) = false) as ->.
    { unfold is_absolute. cbn [String.prefix].
      destruct (Ascii.ascii_dec _ c) as [<-|]; [|done].
      by vm_compute in Hc. }
    assert (is_here (String c s) = false) as ->.
    { unfold is_here. cbn [String.eqb orb].
      match goal with
      | |- context [Ascii.eqb c ?a] =>
          destruct (Ascii.eqb_spec c a) as [->|]; [|done]
      end.
      by vm_compute in Hc. }
    assert (is_parent (String c s) = false) as ->; [|done].
    unfold is_parent. cbn [String.eqb].
    match goal with
    | |- context [Ascii.eqb c ?a] =>
        destruct (Ascii.eqb_spec c a) as [->|]; [|done]
    end.
    by vm_compute in Hc. }
  unfold locate, has_nul. cbn [snd existsb]. rewrite Hnul. cbn [orb].
  change (base, [String c s]) with (os_child (base, []) (String c s)).
  by rewrite resolve_child.
Qed.

(** X1. An identifier passes [re.match("^[a-zA-Z0-9_-]+$", s)] exactly
    when it is a non-empty run of letters, digits, underscores and
    hyphens, alone or followed by one final newline; so an accepted
    identifier holds no "/" and is neither "." nor "..". *)
Theorem identifier_pattern (s : string) :
  (re_match_id s = true ↔
   ∃ body, body ≠ "" ∧ all_id_chars body = true ∧
           (s = body ∨ s = body +:+ newline)) ∧
  (re_match_id s = true →
   is_substring "/" s = false ∧ s ≠ "." ∧ s ≠ "..").
Proof.
  pose proof (re_match_id_body s) as Hiff.
  split; [exact Hiff|].
  intros (body & Hne & Hbody & Hs)%Hiff.
  pose proof (all_id_chars_no_slash _ Hbody) as Hslash.
  split; [|split].
  - destruct Hs as [->| ->]; [done|by apply is_substring_app_newline].
  - intros ->. destruct Hs as [<-|Hs]; [done|].
    destruct body as [|b [|]]; try done; cbn in Hs; by injection Hs as <-.
  - intros ->. destruct Hs as [<-|Hs]; [done|].
    destruct body as [|b [|b2 [|]]]; try done; cbn in Hs;
      try (by injection Hs); by injection Hs as <- <-.
Qed.

Lemma identifier_pattern_witness :
  re_match_id "E1" = true ∧
  is_substring "/" "E1" = false ∧ "E1" ≠ "." ∧ "E1" ≠ "..".
Proof.
  split; [reflexivity|].
  exact (proj2 (identifier_pattern "E1") eq_refl).
Defined.

(** ** Outcomes and frames of the primitive actions *)

Lemma keeps_bind {A B} (P : world → world → Prop) (Q : exn → Prop)
    (m : M A) (f : A → M B) :
  (∀ a b c, P a b → P b c → P a c) →
  keeps P Q m → (∀ a, keeps P Q (f a)) → keeps P Q (m ≫= f).
Proof.
  intros Htrans Hm Hf w r w' H.
  apply M_bind_inv in H as [(a & w1 & Ha & H)|(e & Ha & ->)].
  - destruct (Hm _ _ _ Ha) as [HP _]. destruct (Hf a _ _ _ H) as [HP' HQ].
    split; [by eapply Htrans|done].
  - destruct (Hm _ _ _ Ha) as [HP HQ]. split; [done|].
    intros e' [= <-]. by apply HQ.
Qed.

Lemma keeps_lift {A} (P : world → world → Prop) (Q : exn → Prop)
    (r : result A) :
  (∀ w, P w w) → (∀ e, r = Raise e → Q e) → keeps P Q (lift r).
Proof. intros Hrefl Hr w r' w' [= <- <-]. by split. Qed.

Lemma keeps_ret {A} (P : world → world → Prop) (Q : exn → Prop) (a : A) :
  (∀ w, P w w) → keeps P Q (mret a).
Proof. intros Hrefl w r' w' [= <- <-]. by split. Qed.

Lemma keeps_if {A} (P : world → world → Prop) (Q : exn → Prop) (b : bool)
    (m1 m2 : M A) :
  keeps P Q m1 → keeps P Q m2 → keeps P Q (if b then m1 else m2).
Proof. by destruct b. Qed.

Lemma dict_getitem_untyped (d : gmap string pyval) (k : string) (e : exn) :
  dict_getitem d k = Raise e → untyped e.
Proof. unfold dict_getitem. destruct (d !! k); by intros [= <-] ?. Qed.

Lemma py_getitem_untyped (v : pyval) (k : string) (e : exn) :
  py_getitem v k = Raise e → untyped e.
Proof.
  unfold py_getitem. destruct v; try by intros [= <-] ?.
  destruct (d !! k); by intros [= <-] ?.
Qed.

Lemma path_join_untyped (p : path) (v : pyval) (e : exn) :
  path_join p v = Raise e → untyped e.
Proof. destruct v; by intros [= <-] ?. Qed.

(** The actions on files and the tools leave the store and the tasks
    alone and raise no typed failure. *)
Lemma only_tools_ran_exists (p : path) :
  keeps only_tools_ran untyped (exists_ p).
Proof. intros w r w' [= <- <-]. split; [apply only_tools_ran_refl|done]. Qed.

Lemma only_tools_ran_open_w (p : path) :
  keeps only_tools_ran untyped (open_w p).
Proof.
  intros w r w'. unfold open_w.
  destruct (write_file (fs w) p ""); intros [= <- <-];
    (split; [by repeat split|]); by intros ? [= <-] ?.
Qed.

Lemma only_tools_ran_file_write (p : path) (v : pyval) :
  keeps only_tools_ran untyped (file_write p v).
Proof.
  intros w r w'. unfold file_write.
  destruct v; try (intros [= <- <-]; split;
                   [apply only_tools_ran_refl|by intros ? [= <-] ?]).
  destruct (write_file (fs w) p s); intros [= <- <-];
    (split; [by repeat split|]); by intros ? [= <-] ?.
Qed.

Lemma only_tools_ran_mkdir (p : path) :
  keeps only_tools_ran untyped (mkdir_recursive_ p).
Proof.
  intros w r w'. unfold mkdir_recursive_.
  destruct (mkdir_recursive (fs w) p); intros [= <- <-];
    (split; [by repeat split|]); by intros ? [= <-] ?.
Qed.

Lemma only_tools_ran_check_call
    (engine : list string → path → node → bool * node)
    (argv : list pyval) (cwd : path) :
  keeps only_tools_ran untyped (check_call engine argv cwd).
Proof.
  intros w r w' H. split; [by apply check_call_inv in H as [? _]|].
  revert H. unfold check_call.
  destruct (mapM _ argv); [|by intros [= <- <-] ? [= <-] ?].
  destruct (walk (fs w) cwd) as [[]|];
    try by intros [= <- <-] ? [= <-] ?.
  destruct (engine _ _ _) as [[] ?]; by intros [= <- <-] ? [= <-] ?.
Qed.

Ltac keeps_step :=
  first
    [ apply keeps_bind; [exact only_tools_ran_trans| |intros ?]
    | apply keeps_if
    | apply only_tools_ran_exists
    | apply only_tools_ran_open_w
    | apply only_tools_ran_file_write
    | apply only_tools_ran_mkdir
    | apply only_tools_ran_check_call
    | apply keeps_ret; exact only_tools_ran_refl
    | apply keeps_lift;
      [ exact only_tools_ran_refl
      | first [ apply dict_getitem_untyped | apply path_join_untyped
              | apply py_getitem_untyped ] ] ].

(** ** The key publisher *)

Lemma os_path_join_untyped (p : ospath) (v : pyval) (e : exn) :
  os_path_join p v = Raise e → untyped e.
Proof. destruct v; by intros [= <-] ?. Qed.

Lemma locate_untyped (n : node) (p : ospath) (e : exn) :
  locate n p = Raise e → untyped e.
Proof. unfold locate. destruct (has_nul p); by intros [= <-] ?. Qed.

Lemma only_tools_ran_os_exists (p : ospath) :
  keeps only_tools_ran untyped (os_exists p).
Proof.
  intros w r w' [= <- <-]. split; [apply only_tools_ran_refl|].
  unfold os_path_exists. intros e He.
  destruct (locate (fs w) p) eqn:Hl; [done|]. injection He as <-.
  by eapply locate_untyped.
Qed.

Lemma only_tools_ran_write_at (q : option path) (c : string) :
  keeps only_tools_ran untyped (write_at q c).
Proof.
  intros w r w'. unfold write_at.
  destruct q as [q|];
    [|intros [= <- <-]; split; [apply only_tools_ran_refl|];
      by intros ? [= <-] ?].
  destruct (write_file (fs w) q c); intros [= <- <-];
    (split; [by repeat split|]); by intros ? [= <-] ?.
Qed.

Lemma only_tools_ran_os_open_w (p : ospath) :
  keeps only_tools_ran untyped (os_open_w p).
Proof.
  intros w r w'. unfold os_open_w.
  destruct (locate (fs w) p) as [q|e] eqn:Hl.
  - apply only_tools_ran_write_at.
  - intros [= <- <-]. split; [apply only_tools_ran_refl|].
    intros ? [= <-]. by eapply locate_untyped.
Qed.

Lemma only_tools_ran_os_file_write (p : ospath) (v : pyval) :
  keeps only_tools_ran untyped (os_file_write p v).
Proof.
  intros w r w'. unfold os_file_write.
  destruct v; try (intros [= <- <-]; split;
                   [apply only_tools_ran_refl|by intros ? [= <-] ?]).
  destruct (locate (fs w) p) as [q|e] eqn:Hl.
  - apply only_tools_ran_write_at.
  - intros [= <- <-]. split; [apply only_tools_ran_refl|].
    intros ? [= <-]. by eapply locate_untyped.
Qed.

Lemma only_tools_ran_os_mkdir (p : ospath) :
  keeps only_tools_ran untyped (os_mkdir_recursive_ p).
Proof.
  intros w r w'. unfold os_mkdir_recursive_.
  destruct (has_nul p);
    [intros [= <- <-]; split; [apply only_tools_ran_refl|];
     by intros ? [= <-] ?|].
  destruct (os_mkdir_recursive (fs w) p); intros [= <- <-];
    (split; [by repeat split|]); by intros ? [= <-] ?.
Qed.

Lemma only_tools_ran_copyfile (src dst : ospath) :
  keeps only_tools_ran untyped (copyfile src dst).
Proof.
  intros w r w'. unfold copyfile.
  destruct (locate (fs w) src) as [a|e] eqn:Ha.
  2: { intros [= <- <-]. split; [apply only_tools_ran_refl|].
       intros ? [= <-]. by eapply locate_untyped. }
  destruct (locate (fs w) dst) as [b|e] eqn:Hb.
  2: { intros [= <- <-]. split; [apply only_tools_ran_refl|].
       intros ? [= <-]. by eapply locate_untyped. }
  destruct (same_place (fs w) a b).
  { intros [= <- <-]. split; [apply only_tools_ran_refl|].
    by intros ? [= <-] ?. }
  destruct (a ≫= read_file (fs w)) as [c|].
  - apply only_tools_ran_write_at.
  - intros [= <- <-]. split; [apply only_tools_ran_refl|].
    by intros ? [= <-] ?.
Qed.

Lemma only_tools_ran_os_check_call
    (engine : list string → path → node → bool * node)
    (argv : list pyval) (cwd : ospath) :
  keeps only_tools_ran untyped (os_check_call engine argv cwd).
Proof.
  intros w r w'. unfold os_check_call.
  destruct (locate (fs w) cwd) as [[q|]|e] eqn:Hl.
  - destruct (is_dir (fs w) q); [apply only_tools_ran_check_call|].
    intros [= <- <-]. split; [apply only_tools_ran_refl|].
    by intros ? [= <-] ?.
  - intros [= <- <-]. split; [apply only_tools_ran_refl|].
    by intros ? [= <-] ?.
  - intros [= <- <-]. split; [apply only_tools_ran_refl|].
    intros ? [= <-]. by eapply locate_untyped.
Qed.

Ltac os_keeps_step :=
  first
    [ apply keeps_bind; [exact only_tools_ran_trans| |intros ?]
    | apply keeps_if
    | apply only_tools_ran_os_exists
    | apply only_tools_ran_os_open_w
    | apply only_tools_ran_os_file_write
    | apply only_tools_ran_os_mkdir
    | apply only_tools_ran_copyfile
    | apply only_tools_ran_os_check_call
    | apply keeps_ret; exact only_tools_ran_refl
    | apply keeps_lift;
      [ exact only_tools_ran_refl
      | first [ apply dict_getitem_untyped | apply os_path_join_untyped ] ] ].

(** The invocations of the tools are the only entries of the log. *)
Lemma same_log_trans (a b c : world) :
  engine_log b = engine_log a → engine_log c = engine_log b →
  engine_log c = engine_log a.
Proof. congruence. Qed.

Lemma same_log_os_exists (p : ospath) :
  keeps (λ w w', engine_log w' = engine_log w) (λ _, True) (os_exists p).
Proof. by intros w r w' [= <- <-]. Qed.

Lemma same_log_write_at (q : option path) (c : string) :
  keeps (λ w w', engine_log w' = engine_log w) (λ _, True) (write_at q c).
Proof.
  intros w r w'. unfold write_at. destruct q as [q|]; [|by intros [= <- <-]].
  by destruct (write_file (fs w) q c); intros [= <- <-].
Qed.

Lemma same_log_os_open_w (p : ospath) :
  keeps (λ w w', engine_log w' = engine_log w) (λ _, True) (os_open_w p).
Proof.
  intros w r w'. unfold os_open_w.
  destruct (locate (fs w) p); [apply same_log_write_at|by intros [= <- <-]].
Qed.

Lemma same_log_os_file_write (p : ospath) (v : pyval) :
  keeps (λ w w', engine_log w' = engine_log w) (λ _, True)
    (os_file_write p v).
Proof.
  intros w r w'. unfold os_file_write.
  destruct v; try by intros [= <- <-].
  destruct (locate (fs w) p); [apply same_log_write_at|by intros [= <- <-]].
Qed.

Lemma same_log_os_mkdir (p : ospath) :
  keeps (λ w w', engine_log w' = engine_log w) (λ _, True)
    (os_mkdir_recursive_ p).
Proof.
  intros w r w'. unfold os_mkdir_recursive_.
  destruct (has_nul p); [by intros [= <- <-]|].
  by destruct (os_mkdir_recursive (fs w) p); intros [= <- <-].
Qed.

Lemma same_log_copyfile (src dst : ospath) :
  keeps (λ w w', engine_log w' = engine_log w) (λ _, True)
    (copyfile src dst).
Proof.
  intros w r w'. unfold copyfile.
  destruct (locate (fs w) src) as [a|]; [|by intros [= <- <-]].
  destruct (locate (fs w) dst) as [b|]; [|by intros [= <- <-]].
  destruct (same_place (fs w) a b); [by intros [= <- <-]|].
  destruct (a ≫= read_file (fs w)); [apply same_log_write_at|].
  by intros [= <- <-].
Qed.

Ltac same_log_step :=
  first
    [ apply keeps_bind; [exact same_log_trans| |intros ?]
    | apply keeps_if
    | apply same_log_os_exists
    | apply same_log_os_open_w
    | apply same_log_os_file_write
    | apply same_log_os_mkdir
    | apply same_log_copyfile
    | apply keeps_ret; done
    | apply keeps_lift; done ].

Lemma os_check_call_log
    (engine : list string → path → node → bool * node)
    (argv : list pyval) (args : list string) (cwd : ospath) (w w' : world)
    (r : result unit) :
  mapM (λ v, match v with PStr s => Some s | _ => None end) argv
    = Some args →
  os_check_call engine argv cwd w = (r, w') →
  (engine_log w' = engine_log w ∧ r ≠ Ok tt) ∨
  resolve (fs w) cwd = Some (lexical cwd) ∧
  engine_log w' = (engine_log w ++ [(args, lexical cwd)])%list.
Proof.
  intros Hargs. unfold os_check_call, locate.
  destruct (has_nul cwd); [intros [= <- <-]; by left|].
  destruct (resolve (fs w) cwd) as [q|] eqn:Hq;
    [|intros [= <- <-]; by left].
  pose proof (resolve_lexical _ _ _ Hq) as ->.
  destruct (is_dir (fs w) (lexical cwd)); [|intros [= <- <-]; by left].
  unfold check_call. rewrite Hargs.
  destruct (walk (fs w) (lexical cwd)) as [[]|];
    try (intros [= <- <-]; by left).
  destruct (engine args (lexical cwd) (fs w)) as [[] ?];
    intros [= <- <-]; by right.
Qed.

Section KeyPublisher.
Variable engine : list string → path → node → bool * node.
Variable cfg : config.

(** The two guards, and what follows them. *)
Lemma generate_public_key_inv (task : task_data) (w w' : world)
    (r : result unit) :
  generate_public_key engine cfg task w = (r, w') →
  (∃ e, r = Raise e ∧ untyped e ∧ w' = w) ∨
  ∃ eid sid,
    input_data task !! "session_id" = Some (PStr sid) ∧
    input_data task !! "election_id" = Some (PStr eid) ∧
    let dir := session_dir (PRIVATE_DATA_PATH cfg) eid sid in
    has_nul dir = false ∧
    if negb (found (fs w) (resolve (fs w) dir))
    then r = Raise (TaskError "invalid session_id / election_id") ∧ w' = w
    else if found (fs w) (resolve (fs w) (os_child dir "publicKey_raw"))
            || found (fs w)
                 (resolve (fs w) (os_child dir "publicKey_json"))
    then r = Raise (TaskError "pubkey already created") ∧ w' = w
    else publish_key engine cfg (input_data task) (PStr eid) (PStr sid) dir w
         = (r, w').
Proof.
  unfold generate_public_key. intros H.
  apply M_bind_inv in H
    as [(vsid & w1 & [Hsid <-]%lift_inv & H)|(e & [He <-]%lift_inv & ->)].
  2: { left. exists e. split; [done|]. split; [|done].
       by eapply dict_getitem_untyped. }
  apply M_bind_inv in H
    as [(veid & w1 & [Heid <-]%lift_inv & H)|(e & [He <-]%lift_inv & ->)].
  2: { left. exists e. split; [done|]. split; [|done].
       by eapply dict_getitem_untyped. }
  apply M_bind_inv in H
    as [(epriv & w1 & [Hepriv <-]%lift_inv & H)|(e & [He <-]%lift_inv & ->)].
  2: { left. exists e. split; [done|]. split; [|done].
       by eapply os_path_join_untyped. }
  apply M_bind_inv in H
    as [(spriv & w1 & [Hspriv <-]%lift_inv & H)|(e & [He <-]%lift_inv & ->)].
  2: { left. exists e. split; [done|]. split; [|done].
       by eapply os_path_join_untyped. }
  destruct veid as [| | |eid| | |]; try discriminate Hepriv.
  injection Hepriv as <-.
  destruct vsid as [| | |sid| | |]; try discriminate Hspriv.
  injection Hspriv as <-. cbn [fst snd app] in H.
  unfold dict_getitem in Hsid, Heid.
  destruct (input_data task !! "session_id") as [x|]; [|done].
  destruct (input_data task !! "election_id") as [y|]; [|done].
  injection Hsid as ->. injection Heid as ->.
  change (PRIVATE_DATA_PATH cfg, [eid; sid])
    with (session_dir (PRIVATE_DATA_PATH cfg) eid sid) in H.
  apply M_bind_inv in H
    as [(there & w1 & [Hw Hthere]%os_exists_inv & H)
       |(e & [Hw He]%os_exists_inv & ->)]; [subst w1|subst w'].
  2: { left. exists e. split; [done|]. split; [|done].
       unfold os_path_exists in He.
       destruct (locate (fs w) _) eqn:Hl; [done|].
       injection He as <-. by eapply locate_untyped. }
  symmetry in Hthere. apply os_path_exists_Ok in Hthere as [Hnul Hthere].
  right. exists eid, sid. split; [done|]. split; [done|]. cbn zeta.
  split; [done|]. rewrite Hthere.
  apply M_bind_inv in H
    as [([] & w1 & [Hens <-]%lift_inv & H)|(e & [He <-]%lift_inv & ->)].
  2: { destruct there; [done|]. by injection He as <-. }
  apply ensure_Ok in Hens as ->. cbn [negb].
  assert (∀ name, has_nul_char name = false →
            os_path_exists (fs w)
              (os_child (session_dir (PRIVATE_DATA_PATH cfg) eid sid) name) =
            Ok (found (fs w)
                  (resolve (fs w)
                     (os_child (session_dir (PRIVATE_DATA_PATH cfg) eid sid)
                        name)))) as Hchild.
  { intros name Hname. apply os_path_exists_Ok.
    by rewrite has_nul_child, Hnul, Hname. }
  apply M_bind_inv in H
    as [(raw & w1 & [Hw Hraw]%os_exists_inv & H)
       |(e & [_ He]%os_exists_inv & _)];
    [subst w1|by rewrite Hchild in He].
  rewrite Hchild in Hraw by done. injection Hraw as ->.
  apply M_bind_inv in H as [(key & w1 & Hkey & H)|(e & Hkey & _)].
  2: { destruct (found _ (resolve _ (os_child _ "publicKey_raw")));
         [done|].
       apply os_exists_inv in Hkey as [_ Hkey].
       by rewrite Hchild in Hkey. }
  assert (w1 = w ∧
          key = found (fs w)
                  (resolve (fs w)
                     (os_child (session_dir (PRIVATE_DATA_PATH cfg) eid sid)
                        "publicKey_raw"))
                || found (fs w)
                     (resolve (fs w)
                        (os_child
                           (session_dir (PRIVATE_DATA_PATH cfg) eid sid)
                           "publicKey_json")))
    as [-> ->].
  { destruct (found _ (resolve _ (os_child _ "publicKey_raw"))).
    - by injection Hkey as <- <-.
    - apply os_exists_inv in Hkey as [Hw Hkey].
      rewrite Hchild in Hkey by done. by injection Hkey as ->. }
  apply M_bind_inv in H
    as [([] & w1 & [Hens <-]%lift_inv & H)|(e & [He <-]%lift_inv & ->)].
  2: { destruct (_ || _); [|done]. by injection He as <-. }
  apply ensure_Ok, negb_true_iff in Hens. by rewrite Hens.
Qed.

Lemma publish_key_frame (input : gmap string pyval)
    (election_id session_id : pyval) (dir : ospath) :
  keeps only_tools_ran untyped
    (publish_key engine cfg input election_id session_id dir).
Proof. unfold publish_key. repeat os_keeps_step. Qed.

Lemma merge_block_same_log (merged : bool) (p : ospath)
    (input : gmap string pyval) :
  keeps (λ w w', engine_log w' = engine_log w) (λ _, True)
    (if merged then mret tt
     else os_open_w p;;
          content ← lift (dict_getitem input "protInfo_content");
          os_file_write p content).
Proof. repeat same_log_step. Qed.

Lemma publish_block_same_log (published : bool) (dir pub : ospath) :
  keeps (λ w w', engine_log w' = engine_log w) (λ _, True)
    ((if published then mret tt else os_mkdir_recursive_ pub);;
     copyfile (os_child dir "publicKey_json") (os_child pub "publicKey_json");;
     copyfile (os_child dir "protInfo.xml") (os_child pub "protInfo.xml")).
Proof. repeat same_log_step. Qed.

(** The log of a run of the part that follows the guards. *)
Lemma publish_key_log (input : gmap string pyval) (eid sid : string)
    (dir : ospath) (w w' : world) (r : result unit) :
  publish_key engine cfg input (PStr eid) (PStr sid) dir w = (r, w') →
  (engine_log w' = engine_log w ∧ r ≠ Ok tt) ∨
  (engine_log w' = (engine_log w ++ [keygen_call (lexical dir)])%list ∧
   r ≠ Ok tt) ∨
  engine_log w' =
    (engine_log w ++
     [keygen_call (lexical dir); transcode_call (lexical dir)])%list.
Proof.
  unfold publish_key. intros H.
  apply M_bind_inv in H
    as [(merged & w1 & [Hw _]%os_exists_inv & H)
       |(e & [Hw _]%os_exists_inv & ->)]; [subst w1|subst w'; by left].
  apply M_bind_inv in H as [([] & wa & Hmerge & H)|(e & Hmerge & ->)].
  2: { left. split; [|done].
       by apply merge_block_same_log in Hmerge as [? _]. }
  apply merge_block_same_log in Hmerge as [Hlog_a _].
  apply M_bind_inv in H as [([] & wb & Hk & H)|(e & Hk & ->)].
  2: { eapply os_check_call_log in Hk as [[Hl _]|[_ Hl]]; [| |reflexivity].
       - left. split; [congruence|done].
       - right. left. split; [|done]. by rewrite Hl, Hlog_a. }
  eapply os_check_call_log in Hk as [[_ ?]|[_ Hlog_b]]; [done| |reflexivity].
  apply M_bind_inv in H as [([] & wc & Ht & H)|(e & Ht & ->)].
  2: { eapply os_check_call_log in Ht as [[Hl _]|[_ Hl]]; [| |reflexivity].
       - right. left. split; [|done]. by rewrite Hl, Hlog_b, Hlog_a.
       - right. right. by rewrite Hl, Hlog_b, Hlog_a, <- app_assoc. }
  eapply os_check_call_log in Ht as [[_ ?]|[_ Hlog_c]]; [done| |reflexivity].
  right. right.
  apply M_bind_inv in H
    as [(epub & w1 & [[= <-] <-]%lift_inv & H)|(e & [[=] _]%lift_inv & _)].
  apply M_bind_inv in H
    as [(pub & w1 & [[= <-] <-]%lift_inv & H)|(e & [[=] _]%lift_inv & _)].
  apply M_bind_inv in H
    as [(published & w1 & [Hw _]%os_exists_inv & H)
       |(e & [Hw _]%os_exists_inv & ->)];
    [subst w1|subst w'; by rewrite Hlog_c, Hlog_b, Hlog_a, <- app_assoc].
  apply publish_block_same_log in H as [Hlog_d _].
  by rewrite Hlog_d, Hlog_c, Hlog_b, Hlog_a, <- app_assoc.
Qed.
End KeyPublisher.

(** X2. A typed failure of [generate_public_key] is one of its two
    guards: "invalid session_id / election_id" when the system finds no
    session directory under the spelling of the two identifiers, and
    "pubkey already created" when it finds the directory and, in it, the
    raw or the encoded key file.  Either way the whole state is left as
    it was. *)
Theorem public_key_typed_failures
    (engine : list string → path → node → bool * node) (cfg : config)
    (task : task_data) (w w' : world) (reason : string)
    (Hrun : generate_public_key engine cfg task w
            = (Raise (TaskError reason), w')) :
  w' = w ∧
  ∃ eid sid,
    input_data task !! "session_id" = Some (PStr sid) ∧
    input_data task !! "election_id" = Some (PStr eid) ∧
    let dir := session_dir (PRIVATE_DATA_PATH cfg) eid sid in
    (reason = "invalid session_id / election_id" ∧
     os_path_exists (fs w) dir = Ok false ∨
     reason = "pubkey already created" ∧
     os_path_exists (fs w) dir = Ok true ∧
     (os_path_exists (fs w) (os_child dir "publicKey_raw") = Ok true ∨
      os_path_exists (fs w) (os_child dir "publicKey_json") = Ok true)).
Proof.
  apply generate_public_key_inv in Hrun
    as [(e & [= <-] & Hun & _)|(eid & sid & Hsid & Heid & Hcases)].
  { by destruct (Hun reason). }
  cbn zeta in Hcases. destruct Hcases as [Hnul Hcases].
  assert (∀ name, has_nul_char name = false →
            os_path_exists (fs w)
              (os_child (session_dir (PRIVATE_DATA_PATH cfg) eid sid) name) =
            Ok (found (fs w)
                  (resolve (fs w)
                     (os_child (session_dir (PRIVATE_DATA_PATH cfg) eid sid)
                        name)))) as Hchild.
  { intros name Hname. apply os_path_exists_Ok.
    by rewrite has_nul_child, Hnul, Hname. }
  destruct (found (fs w) (resolve (fs w) (session_dir _ eid sid)))
    eqn:Hdir; cbn [negb] in Hcases.
  - destruct (found _ (resolve _ (os_child _ "publicKey_raw"))) eqn:Hraw;
      [|destruct (found _ (resolve _ (os_child _ "publicKey_json")))
          eqn:Hjson]; cbn [orb] in Hcases.
    + destruct Hcases as [[= ->] ->]. split; [done|].
      exists eid, sid. split; [done|]. split; [done|]. cbn zeta. right.
      split; [done|]. split; [by apply os_path_exists_Ok|]. left.
      by rewrite Hchild, Hraw.
    + destruct Hcases as [[= ->] ->]. split; [done|].
      exists eid, sid. split; [done|]. split; [done|]. cbn zeta. right.
      split; [done|]. split; [by apply os_path_exists_Ok|]. right.
      by rewrite Hchild, Hjson.
    + apply publish_key_frame in Hcases as [_ Hun].
      by destruct (Hun _ eq_refl reason).
  - destruct Hcases as [[= ->] ->]. split; [done|].
    exists eid, sid. split; [done|]. split; [done|]. cbn zeta. left.
    split; [done|]. by apply os_path_exists_Ok.
Qed.

Lemma public_key_typed_failures_witness :
  generate_public_key Demo.engine Demo.cfg Demo.respelled_key_task
    Demo.world3 = (Raise (TaskError "pubkey already created"), Demo.world3) ∧
  ∃ eid sid,
    os_path_exists (fs Demo.world3)
      (session_dir (PRIVATE_DATA_PATH Demo.cfg) eid sid) = Ok true.
Proof.
  assert (generate_public_key Demo.engine Demo.cfg Demo.respelled_key_task
            Demo.world3 =
            (Raise (TaskError "pubkey already created"), Demo.world3))
    as Hrun by (vm_compute; reflexivity).
  split; [exact Hrun|].
  destruct (public_key_typed_failures Demo.engine Demo.cfg
              Demo.respelled_key_task Demo.world3 Demo.world3
              "pubkey already created" Hrun)
    as (_ & eid & sid & _ & _ & [[Hr _]|(_ & Hdir & _)]).
  - discriminate Hr.
  - exists eid, sid. exact Hdir.
Defined.

(** X3. Whatever its outcome, [generate_public_key] leaves the store,
    the pending rows, the subtasks and the outputs of the tasks as they
    were: it changes files and runs tools, and records no status. *)
Theorem public_key_leaves_store
    (engine : list string → path → node → bool * node) (cfg : config)
    (task : task_data) (w w' : world) (r : result unit) :
  generate_public_key engine cfg task w = (r, w') → only_tools_ran w w'.
Proof.
  intros [(e & _ & _ & ->)|(eid & sid & _ & _ & Hcases)]
    %generate_public_key_inv; [apply only_tools_ran_refl|].
  cbn zeta in Hcases. destruct Hcases as [_ Hcases].
  destruct (negb _); [destruct Hcases as [_ ->]; apply only_tools_ran_refl|].
  destruct (_ || _); [destruct Hcases as [_ ->]; apply only_tools_ran_refl|].
  by apply publish_key_frame in Hcases as [? _].
Qed.

Lemma public_key_leaves_store_witness :
  Demo.publish Demo.world2 = (Ok tt, Demo.world3) ∧
  db Demo.world3 = db Demo.world2.
Proof.
  assert (Demo.publish Demo.world2 = (Ok tt, Demo.world3)) as Hrun
    by (vm_compute; reflexivity).
  split; [exact Hrun|].
  exact (proj1 (public_key_leaves_store Demo.engine Demo.cfg Demo.key_task
                  Demo.world2 Demo.world3 (Ok tt) Hrun)).
Defined.

(** X4. [generate_public_key] runs the key generator and then the
    transcoder, both in the place that the spelling of the private
    directory of the session leads to, and nothing else: a run that
    succeeds found the directory there and ran exactly the two, in this
    order, and a run that fails ran none, the first only, or both. *)
Theorem public_key_runs_tools_in_order
    (engine : list string → path → node → bool * node) (cfg : config)
    (task : task_data) (w w' : world) (r : result unit) (eid sid : string)
    (Hsid : input_data task !! "session_id" = Some (PStr sid))
    (Heid : input_data task !! "election_id" = Some (PStr eid))
    (Hrun : generate_public_key engine cfg task w = (r, w')) :
  let dir := lexical (session_dir (PRIVATE_DATA_PATH cfg) eid sid) in
  (r = Ok tt →
   resolve (fs w) (session_dir (PRIVATE_DATA_PATH cfg) eid sid) = Some dir ∧
   path_exists (fs w) dir = true ∧
   engine_log w' =
     (engine_log w ++ [keygen_call dir; transcode_call dir])%list) ∧
  (r ≠ Ok tt →
   engine_log w' = engine_log w ∨
   engine_log w' = (engine_log w ++ [keygen_call dir])%list ∨
   engine_log w' =
     (engine_log w ++ [keygen_call dir; transcode_call dir])%list).
Proof.
  cbn zeta.
  apply generate_public_key_inv in Hrun
    as [(e & -> & _ & ->)|(eid' & sid' & Hsid' & Heid' & Hcases)].
  { split; [done|]. intros _. by left. }
  rewrite Hsid in Hsid'. rewrite Heid in Heid'.
  injection Hsid' as <-. injection Heid' as <-.
  cbn zeta in Hcases. destruct Hcases as [_ Hcases].
  destruct (found (fs w) (resolve (fs w) (session_dir _ eid sid)))
    eqn:Hdir; cbn [negb] in Hcases.
  2: { destruct Hcases as [-> ->]. split; [done|]. intros _. by left. }
  destruct (_ || _).
  { destruct Hcases as [-> ->]. split; [done|]. intros _. by left. }
  apply publish_key_log in Hcases as Hlog. split.
  - intros ->.
    destruct (resolve (fs w) (session_dir _ eid sid)) as [q|] eqn:Hq;
      [|done].
    pose proof (resolve_lexical _ _ _ Hq) as ->.
    split; [done|]. split; [done|].
    by destruct Hlog as [[_ ?]|[[_ ?]|?]].
  - intros _. destruct Hlog as [[? _]|[[? _]|?]]; auto.
Qed.

Lemma public_key_runs_tools_in_order_witness :
  generate_public_key Demo.engine Demo.cfg Demo.respelled_key_task
    Demo.world2 = (Ok tt, Demo.world3) ∧
  engine_log Demo.world3 =
    (engine_log Demo.world2 ++
     [keygen_call ["private"; "E1"; "S1"];
      transcode_call ["private"; "E1"; "S1"]])%list.
Proof.
  assert (generate_public_key Demo.engine Demo.cfg Demo.respelled_key_task
            Demo.world2 = (Ok tt, Demo.world3)) as Hrun
    by (vm_compute; reflexivity).
  assert (input_data Demo.respelled_key_task !! "session_id"
          = Some (PStr "./S1")) as Hsid by (vm_compute; reflexivity).
  assert (input_data Demo.respelled_key_task !! "election_id"
          = Some (PStr "E1")) as Heid by (vm_compute; reflexivity).
  split; [exact Hrun|].
  exact (proj2 (proj2 (proj1 (public_key_runs_tools_in_order Demo.engine
                                Demo.cfg Demo.respelled_key_task Demo.world2
                                Demo.world3 (Ok tt) "E1" "./S1" Hsid Heid
                                Hrun) eq_refl))).
Defined.

(** X5. After a successful [generate_public_key] the public directory
    of the session holds [publicKey_json] and [protInfo.xml] with the
    very contents of the private files of the same names, each file
    looked up as the system does under the spelling of the two
    identifiers. *)
Theorem public_key_publishes_copies
    (engine : list string → path → node → bool * node) (cfg : config)
    (task : task_data) (w w' : world) (eid sid : string)
    (Hsid : input_data task !! "session_id" = Some (PStr sid))
    (Heid : input_data task !! "election_id" = Some (PStr eid))
    (Hrun : generate_public_key engine cfg task w = (Ok tt, w')) :
  let dir := session_dir (PRIVATE_DATA_PATH cfg) eid sid in
  let pub := session_dir (PUBLIC_DATA_PATH cfg) eid sid in
  ∃ key info,
    os_read_file (fs w') (os_child dir "publicKey_json") = Some key ∧
    os_read_file (fs w') (os_child pub "publicKey_json") = Some key ∧
    os_read_file (fs w') (os_child dir "protInfo.xml") = Some info ∧
    os_read_file (fs w') (os_child pub "protInfo.xml") = Some info.
Proof.
  apply generate_public_key_Ok in Hrun
    as (eid' & sid' & Hsid' & Heid' & Hrun).
  rewrite Hsid in Hsid'. rewrite Heid in Heid'.
  injection Hsid' as <-. injection Heid' as <-.
  by apply publish_key_copies in Hrun as [_ Hfiles].
Qed.

Lemma public_key_publishes_copies_witness :
  generate_public_key Demo.engine Demo.cfg Demo.respelled_key_task
    Demo.world2 = (Ok tt, Demo.world3) ∧
  ∃ key,
    read_file (fs Demo.world3) ["private"; "E1"; "S1"; "publicKey_json"]
      = Some key ∧
    read_file (fs Demo.world3) ["public"; "E1"; "S1"; "publicKey_json"]
      = Some key.
Proof.
  assert (generate_public_key Demo.engine Demo.cfg Demo.respelled_key_task
            Demo.world2 = (Ok tt, Demo.world3)) as Hrun
    by (vm_compute; reflexivity).
  assert (input_data Demo.respelled_key_task !! "session_id"
          = Some (PStr "./S1")) as Hsid by (vm_compute; reflexivity).
  assert (input_data Demo.respelled_key_task !! "election_id"
          = Some (PStr "E1")) as Heid by (vm_compute; reflexivity).
  assert (∀ name,
            os_read_file (fs Demo.world3)
              (os_child (session_dir ["private"] "E1" "./S1") name) =
            match resolve (fs Demo.world3)
                    (os_child (session_dir ["private"] "E1" "./S1") name)
            with
            | Some q => read_file (fs Demo.world3) q
            | None => None
            end) as Hunfold by reflexivity.
  split; [exact Hrun|].
  destruct (public_key_publishes_copies Demo.engine Demo.cfg
              Demo.respelled_key_task Demo.world2 Demo.world3 "E1" "./S1"
              Hsid Heid Hrun)
    as (key & info & Hpriv & Hpub & _).
  exists key. split.
  - rewrite <- Hpriv. vm_compute. reflexivity.
  - rewrite <- Hpub. vm_compute. reflexivity.
Defined.

(** ** The bootstrap: what fails where *)

Lemma bind_untyped {A B} (m : result A) (f : A → result B) (e : exn) :
  (∀ e, m = Raise e → untyped e) →
  (∀ a e, f a = Raise e → untyped e) →
  m ≫= f = Raise e → untyped e.
Proof.
  intros Hm Hf. destruct m as [a|e']; cbn.
  - apply Hf.
  - intros [= <-]. by apply Hm.
Qed.

Lemma new_election_untyped (input : gmap string pyval) (e : exn) :
  new_election input = Raise e → untyped e.
Proof.
  unfold new_election.
  repeat (apply bind_untyped; [apply dict_getitem_untyped|intros ??]).
  done.
Qed.

Lemma py_text_untyped (v : pyval) (e : exn) :
  py_text v = Raise e → untyped e.
Proof. destruct v; by intros [= <-] ?. Qed.

Lemma str_date_untyped (isoformat : Z → string) (v : pyval) (e : exn) :
  str_date isoformat v = Raise e → untyped e.
Proof.
  unfold str_date. destruct (py_truthy v); [|done].
  destruct v; by intros [= <-] ?.
Qed.

Lemma approval_text_untyped (loads : string → option pyval)
    (dumps : pyval → string) (isoformat : Z → string)
    (input : gmap string pyval) (election : option Election.t) (e : exn) :
  approval_text loads dumps isoformat input election = Raise e → untyped e.
Proof.
  unfold approval_text.
  apply bind_untyped; [apply dict_getitem_untyped|intros u ?].
  destruct election as [el|]; [|by intros [= <-] ?].
  apply bind_untyped; [apply str_date_untyped|intros ??].
  apply bind_untyped; [apply str_date_untyped|intros ??].
  apply bind_untyped; [apply dict_getitem_untyped|intros ??].
  apply bind_untyped; [apply py_text_untyped|intros qs ?].
  destruct (loads qs); [|by intros [= <-] ?].
  apply bind_untyped; [apply dict_getitem_untyped|intros ??]. done.
Qed.

Lemma any_state_trans (a b c : world) :
  any_state a b → any_state b c → any_state a c.
Proof. done. Qed.

Lemma untyped_total {A} (m : M A) :
  (∀ w, ∃ a w', m w = (Ok a, w')) → keeps any_state untyped m.
Proof.
  intros Hm w r w' H. split; [done|]. intros e ->.
  destruct (Hm w) as (a & w1 & Hw). congruence.
Qed.

Lemma untyped_of_frame {A} (P : world → world → Prop) (m : M A) :
  keeps P untyped m → keeps any_state untyped m.
Proof. intros Hm w r w' H. split; [done|]. by apply (Hm _ _ _ H). Qed.

Ltac untyped_step :=
  first
    [ apply keeps_bind; [exact any_state_trans| |intros ?]
    | apply keeps_if
    | apply (untyped_of_frame only_tools_ran); repeat keeps_step; fail
    | apply untyped_total; intros ?; eexists _, _; reflexivity
    | apply keeps_ret; done
    | apply keeps_lift;
      [ done
      | first [ apply dict_getitem_untyped | apply path_join_untyped
              | apply py_getitem_untyped | apply new_election_untyped
              | apply approval_text_untyped | apply py_text_untyped ] ] ].

Lemma add_authorities_untyped (election_id : pyval) (l : list pyval) :
  keeps any_state untyped (add_authorities election_id l).
Proof.
  induction l as [|a l IH]; cbn [add_authorities]; repeat untyped_step.
  exact IH.
Qed.

Lemma add_sessions_untyped (election_id : pyval) (election_privpath : path)
    (l : list pyval) (i : nat) :
  keeps any_state untyped (add_sessions election_id election_privpath l i).
Proof.
  revert i. induction l as [|s l IH]; intros i; cbn [add_sessions];
    repeat untyped_step.
  apply IH.
Qed.

Section BootstrapFailures.
Variable json_loads : string → option pyval.
Variable loads : string → option pyval.
Variable dumps : pyval → string.
Variable isoformat : Z → string.
Variable certs_differ : string → string → bool.
Variable cfg : config.

Lemma create_local_data_typed (input : gmap string pyval)
    (election_id : pyval) (election_privpath : path)
    (auths sess : list pyval) (w w' : world) (reason : string) :
  create_local_data input election_id election_privpath auths sess w
    = (Raise (TaskError reason), w') →
  w' = w ∧ path_exists (fs w) election_privpath = true ∧
  reason = "Already existing election id " +:+ name_of election_id.
Proof.
  unfold create_local_data. intros H.
  apply M_bind_inv in H as [(there & w1 & [= <- <-] & H)|(e & [=] & _)].
  apply M_bind_inv in H as [([] & w1 & Hguard & H)|(e & Hguard & [= <-])].
  - exfalso.
    assert (keeps any_state untyped
              (election ← lift (new_election input);
               db_add (ElectionRow election);;
               add_authorities election_id auths;;
               add_sessions election_id election_privpath sess 0;;
               db_commit;;
               mret election)) as Hbody.
    { repeat untyped_step.
      - apply add_authorities_untyped.
      - apply add_sessions_untyped. }
    destruct (Hbody _ _ _ H) as [_ Hun].
    by destruct (Hun _ eq_refl reason).
  - destruct (path_exists (fs w) election_privpath); [|done].
    apply M_bind_inv in Hguard
      as [(s & w1 & [Hs <-]%lift_inv & [= <- <-])|(e & [He <-]%lift_inv & [= <-])].
    + split; [done|]. split; [done|]. f_equal.
      destruct election_id; try done. by injection Hs as ->.
    + by destruct (py_text_untyped _ _ He reason).
Qed.

Lemma bootstrap_tail_untyped (input : gmap string pyval)
    (election : option Election.t) :
  keeps any_state untyped
    ((if negb (AUTOACCEPT_REQUESTS cfg)
      then info ← lift (approval_text loads dumps isoformat input election);
           task_add (ExternalTask "approve_election" info)
      else mret tt);;
     task_add (SimpleTask (ROOT_URL cfg) "generate_private_info_verificatum"
                 "orchestra_performer" ∅)).
Proof. repeat untyped_step. Qed.

Lemma generate_private_info_typed (task : task_data) (w w' : world)
    (reason : string) :
  generate_private_info json_loads loads dumps isoformat certs_differ cfg
    task w = (Raise (TaskError reason), w') →
  w' = w.
Proof.
  unfold generate_private_info. intros H.
  apply M_bind_inv in H as [(c & w1 & [= Hc <-] & H)|(e & [= He <-] & _)];
    [|done].
  apply M_bind_inv in H as [(el & w1 & Hbranch & H)|(e & Hbranch & [= <-])].
  - destruct (bootstrap_tail_untyped _ _ _ _ _ H) as [_ Hun].
    by destruct (Hun _ eq_refl reason).
  - destruct (certs_differ _ _).
    + apply M_bind_inv in Hbranch
        as [(el & w1 & _ & [=])|(e & Hcreate & [= <-])].
      by apply create_local_data_typed in Hcreate as [-> _].
    + by injection Hbranch.
Qed.
End BootstrapFailures.

(** X6. A typed failure of [generate_private_info] always comes before
    the first change: the state it leaves is the state it found, with no
    row added or committed, no directory or file made and no subtask
    added. *)
Theorem bootstrap_typed_failures_change_nothing
    (json_loads loads : string → option pyval) (dumps : pyval → string)
    (isoformat : Z → string) (certs_differ : string → string → bool)
    (cfg : config) (task : task_data) (w w' : world) (reason : string)
    (Hrun : generate_private_info json_loads loads dumps isoformat
              certs_differ cfg task w = (Raise (TaskError reason), w')) :
  w' = w.
Proof. by eapply generate_private_info_typed. Qed.

Lemma bootstrap_typed_failures_change_nothing_witness :
  Demo.bootstrap Demo.world1 =
    (Raise (TaskError "Already existing election id E1"),
     Demo.run Demo.bootstrap Demo.world1) ∧
  Demo.run Demo.bootstrap Demo.world1 = Demo.world1.
Proof.
  assert (Demo.bootstrap Demo.world1 =
            (Raise (TaskError "Already existing election id E1"),
             Demo.run Demo.bootstrap Demo.world1)) as Hrun
    by (vm_compute; reflexivity).
  split; [exact Hrun|].
  exact (bootstrap_typed_failures_change_nothing Demo.json_loads
           Demo.json_loads Demo.dumps Demo.isoformat Demo.certs_differ
           Demo.cfg Demo.task Demo.world1
           (Demo.run Demo.bootstrap Demo.world1)
           "Already existing election id E1" Hrun).
Defined.

(** ** The bootstrap: what a success has checked *)

Lemma find_auth_name_Ok (root_url : string) (l : list pyval)
    (acc v : pyval) :
  find_auth_name root_url l acc = Ok v →
  v = acc ∨
  ∃ a, a ∈ l ∧ field_of "orchestra_url" a = PStr root_url ∧
       field_of "name" a = v.
Proof.
  revert acc. induction l as [|a l IH]; intros acc.
  { intros [= <-]. by left. }
  cbn [find_auth_name]. intros H.
  apply bind_Ok in H as (u & Hu & H).
  apply py_getitem_field in Hu.
  case_bool_decide as Hmatch.
  - apply bind_Ok in H as (n & Hn & H). apply py_getitem_field in Hn.
    destruct (IH _ H) as [->|(a' & Ha' & Hurl & Hname)].
    + right. exists a. split; [by left|]. by rewrite Hu, Hn.
    + right. exists a'. split; [by right|done].
  - destruct (IH _ H) as [->|(a' & Ha' & Hurl & Hname)]; [by left|].
    right. exists a'. split; [by right|done].
Qed.

Lemma check_sessions_Ok (l : list pyval) :
  check_sessions l = Ok tt → Forall session_wellformed l.
Proof.
  induction l as [|s l IH]; [constructor|].
  cbn [check_sessions]. intros H.
  apply bind_Ok in H as (ok & Hok & H).
  apply bind_Ok in H as ([] & Hens & H).
  apply ensure_Ok in Hens as ->.
  constructor; [|by apply IH].
  unfold session_ok in Hok. destruct s as [| | | | | |d]; try done.
  destruct (d !! "id") as [i|] eqn:Hi; [|done].
  destruct (d !! "stub") as [[| | |stub| | |]|] eqn:Hstub; try done.
  destruct i as [| | |sid| | |]; try done. injection Hok as Hok.
  unfold session_wellformed, is_text_field, session_id_of, field_of.
  by rewrite Hi, Hstub.
Qed.

Section BootstrapChecked.
Variable json_loads : string → option pyval.
Variable loads : string → option pyval.
Variable dumps : pyval → string.
Variable isoformat : Z → string.
Variable certs_differ : string → string → bool.
Variable cfg : config.

Lemma preliminary_checks_member (n : node) (store : store)
    (input : gmap string pyval) (c : checked_input) :
  preliminary_checks json_loads cfg n store input = Ok c →
  ∃ a, a ∈ checked_authorities c ∧
       field_of "orchestra_url" a = PStr (ROOT_URL cfg) ∧
       py_truthy (field_of "name" a) = true.
Proof.
  unfold preliminary_checks. intros H.
  apply bind_Ok in H as (veid & _ & H).
  apply bind_Ok in H as (priv & _ & H).
  apply bind_Ok in H as ([] & _ & H).
  apply bind_Ok in H as (sess & _ & H).
  apply bind_Ok in H as ([] & _ & H).
  apply bind_Ok in H as (auths & _ & H).
  apply bind_Ok in H as (auth_name & Hname & H).
  apply bind_Ok in H as ([] & Htruthy & H).
  apply bind_Ok in H as ([] & _ & H).
  injection H as <-. cbn. apply ensure_Ok in Htruthy.
  apply find_auth_name_Ok in Hname as [->|(a & Ha & Hurl & <-)]; [done|].
  by exists a.
Qed.

Lemma generate_private_info_Ok_checked (task : task_data) (w w' : world) :
  generate_private_info json_loads loads dumps isoformat certs_differ cfg
    task w = (Ok tt, w') →
  ∃ c, preliminary_checks json_loads cfg (fs w) (db w) (input_data task)
       = Ok c.
Proof.
  intros H%generate_private_info_inv.
  destruct (preliminary_checks _ _ _ _ _) as [c|]; [by exists c|].
  by destruct H.
Qed.
End BootstrapChecked.

(** X7. A bootstrap that succeeds, of a director or of a performer, was
    given an authority list that names this node: one of its entries has
    the endpoint of the node and a non-empty name. *)
Theorem bootstrap_requires_membership
    (json_loads loads : string → option pyval) (dumps : pyval → string)
    (isoformat : Z → string) (certs_differ : string → string → bool)
    (cfg : config) (task : task_data) (w w' : world)
    (Hrun : generate_private_info json_loads loads dumps isoformat
              certs_differ cfg task w = (Ok tt, w')) :
  ∃ auths a,
    input_data task !! "authorities" = Some (PList auths) ∧ a ∈ auths ∧
    field_of "orchestra_url" a = PStr (ROOT_URL cfg) ∧
    py_truthy (field_of "name" a) = true.
Proof.
  apply generate_private_info_Ok_checked in Hrun as [c Hc].
  pose proof (preliminary_checks_member _ _ _ _ _ _ Hc)
    as (a & Ha & Hurl & Hname).
  apply preliminary_checks_Ok in Hc as (_ & _ & _ & _ & _ & _ & _ & Hauths & _).
  by exists (checked_authorities c), a.
Qed.

Lemma bootstrap_requires_membership_witness :
  Demo.bootstrap Demo.world0 = (Ok tt, Demo.world1) ∧
  ∃ a, field_of "orchestra_url" a = PStr "https://a2" ∧
       py_truthy (field_of "name" a) = true.
Proof.
  assert (Demo.bootstrap Demo.world0 = (Ok tt, Demo.world1)) as Hrun
    by (vm_compute; reflexivity).
  split; [exact Hrun|].
  destruct (bootstrap_requires_membership Demo.json_loads Demo.json_loads
              Demo.dumps Demo.isoformat Demo.certs_differ Demo.cfg
              Demo.task Demo.world0 Demo.world1 Hrun)
    as (auths & a & _ & _ & Hurl & Hname).
  exists a. split; [exact Hurl|exact Hname].
Defined.

(** X8. A bootstrap that succeeds was given a non-empty list of
    sessions, each of them a dictionary with a text stub and an
    identifier that matches the pattern of identifiers. *)
Theorem bootstrap_sessions_wellformed
    (json_loads loads : string → option pyval) (dumps : pyval → string)
    (isoformat : Z → string) (certs_differ : string → string → bool)
    (cfg : config) (task : task_data) (w w' : world)
    (Hrun : generate_private_info json_loads loads dumps isoformat
              certs_differ cfg task w = (Ok tt, w')) :
  ∃ sess,
    input_data task !! "sessions" = Some (PList sess) ∧ sess ≠ [] ∧
    Forall session_wellformed sess.
Proof.
  apply generate_private_info_Ok_checked in Hrun as [c Hc].
  apply preliminary_checks_Ok in Hc
    as (_ & _ & _ & _ & _ & Hsess & Hne & _ & Hcheck & _).
  exists (checked_sessions c). split; [done|]. split; [done|].
  by apply check_sessions_Ok.
Qed.

Lemma bootstrap_sessions_wellformed_witness :
  Demo.bootstrap Demo.world0 = (Ok tt, Demo.world1) ∧
  ∃ sess, Demo.input !! "sessions" = Some (PList sess) ∧ sess ≠ [].
Proof.
  assert (Demo.bootstrap Demo.world0 = (Ok tt, Demo.world1)) as Hrun
    by (vm_compute; reflexivity).
  split; [exact Hrun|].
  destruct (bootstrap_sessions_wellformed Demo.json_loads Demo.json_loads
              Demo.dumps Demo.isoformat Demo.certs_differ Demo.cfg
              Demo.task Demo.world0 Demo.world1 Hrun)
    as (sess & Hsess & Hne & _).
  exists sess. split; [exact Hsess|exact Hne].
Defined.

(** ** The bootstrap: the subtasks *)

Lemma same_tasks_refl (w : world) : same_tasks w w.
Proof. by repeat split. Qed.

Lemma same_tasks_trans (a b c : world) :
  same_tasks a b → same_tasks b c → same_tasks a c.
Proof.
  unfold same_tasks. intros (?&?&?&?&?) (?&?&?&?&?).
  repeat split; congruence.
Qed.

Lemma same_tasks_exists (p : path) :
  keeps same_tasks (λ _, True) (exists_ p).
Proof. intros w r w' [= <- <-]. split; [apply same_tasks_refl|done]. Qed.

Lemma same_tasks_open_w (p : path) :
  keeps same_tasks (λ _, True) (open_w p).
Proof.
  intros w r w'. unfold open_w.
  by destruct (write_file (fs w) p ""); intros [= <- <-].
Qed.

Lemma same_tasks_file_write (p : path) (v : pyval) :
  keeps same_tasks (λ _, True) (file_write p v).
Proof.
  intros w r w'. unfold file_write.
  destruct v; try by intros [= <- <-].
  by destruct (write_file (fs w) p s); intros [= <- <-].
Qed.

Lemma same_tasks_mkdir (p : path) :
  keeps same_tasks (λ _, True) (mkdir_recursive_ p).
Proof.
  intros w r w'. unfold mkdir_recursive_.
  by destruct (mkdir_recursive (fs w) p); intros [= <- <-].
Qed.

Lemma same_tasks_db_add (r : row) :
  keeps same_tasks (λ _, True) (db_add r).
Proof. by intros w r' w' [= <- <-]. Qed.

Lemma same_tasks_db_commit : keeps same_tasks (λ _, True) db_commit.
Proof. by intros w r' w' [= <- <-]. Qed.

Lemma same_tasks_query (v : pyval) :
  keeps same_tasks (λ _, True) (query_election_first v).
Proof. by intros w r' w' [= <- <-]. Qed.

Lemma same_tasks_raise {A} (e : exn) :
  keeps same_tasks (λ _, True) (raise (A:=A) e).
Proof. by intros w r' w' [= <- <-]. Qed.

Ltac same_tasks_step :=
  first
    [ apply keeps_bind; [exact same_tasks_trans| |intros ?]
    | apply keeps_if
    | apply same_tasks_exists
    | apply same_tasks_open_w
    | apply same_tasks_file_write
    | apply same_tasks_mkdir
    | apply same_tasks_db_add
    | apply same_tasks_db_commit
    | apply same_tasks_query
    | apply same_tasks_raise
    | apply keeps_ret; exact same_tasks_refl
    | apply keeps_lift; [exact same_tasks_refl|done] ].

Lemma same_tasks_add_authorities (election_id : pyval) (l : list pyval) :
  keeps same_tasks (λ _, True) (add_authorities election_id l).
Proof.
  induction l as [|a l IH]; cbn [add_authorities]; repeat same_tasks_step.
  exact IH.
Qed.

Lemma same_tasks_add_sessions (election_id : pyval)
    (election_privpath : path) (l : list pyval) (i : nat) :
  keeps same_tasks (λ _, True)
    (add_sessions election_id election_privpath l i).
Proof.
  revert i. induction l as [|s l IH]; intros i; cbn [add_sessions];
    repeat same_tasks_step.
  apply IH.
Qed.

Lemma same_tasks_create_local_data (input : gmap string pyval)
    (election_id : pyval) (election_privpath : path)
    (auths sess : list pyval) :
  keeps same_tasks (λ _, True)
    (create_local_data input election_id election_privpath auths sess).
Proof.
  unfold create_local_data. repeat same_tasks_step.
  - apply same_tasks_add_authorities.
  - apply same_tasks_add_sessions.
Qed.

Lemma same_tasks_role (certs_differ : string → string → bool)
    (cfg : config) (task : task_data) (c : checked_input) :
  keeps same_tasks (λ _, True)
    (if certs_differ (sender_ssl_cert task) (SSL_CERT_STRING cfg)
     then el ← create_local_data (input_data task)
                 (checked_election_id c) (checked_privpath c)
                 (checked_authorities c) (checked_sessions c);
          mret (Some el)
     else query_election_first (checked_election_id c)).
Proof.
  repeat same_tasks_step;
    first [apply same_tasks_add_authorities|apply same_tasks_add_sessions].
Qed.

(** X9. A bootstrap that succeeds adds its subtasks at the end, after
    the ones already there: the task [generate_private_info_verificatum]
    for this node alone when auto-accept is on, and before it one
    external task [approve_election] when auto-accept is off.  It runs no
    tool and sets no output. *)
Theorem bootstrap_subtasks
    (json_loads loads : string → option pyval) (dumps : pyval → string)
    (isoformat : Z → string) (certs_differ : string → string → bool)
    (cfg : config) (task : task_data) (w w' : world)
    (Hrun : generate_private_info json_loads loads dumps isoformat
              certs_differ cfg task w = (Ok tt, w')) :
  let verificatum :=
    SimpleTask (ROOT_URL cfg) "generate_private_info_verificatum"
      "orchestra_performer" ∅ in
  (if AUTOACCEPT_REQUESTS cfg
   then subtasks w' = (subtasks w ++ [verificatum])%list
   else ∃ info,
          subtasks w' =
            (subtasks w ++
             [ExternalTask "approve_election" info; verificatum])%list) ∧
  engine_log w' = engine_log w ∧ output_data w' = output_data w ∧
  parent_output_data w' = parent_output_data w.
Proof.
  cbn zeta. unfold generate_private_info in Hrun.
  apply M_bind_Ok in Hrun as (c & w1 & [= _ <-] & H).
  apply M_bind_Ok in H as (el & w1 & Hbranch & H).
  destruct (same_tasks_role certs_differ cfg task c _ _ _ Hbranch)
    as [(Hlog & Hsub & Hout & Hpout & _) _].
  apply M_bind_Ok in H as ([] & w2 & Happrove & [= <-]).
  cbn [subtasks engine_log output_data parent_output_data].
  destruct (AUTOACCEPT_REQUESTS cfg); cbn [negb] in Happrove.
  - injection Happrove as <-. by rewrite Hsub.
  - apply M_bind_Ok in Happrove
      as (info & w3 & [_ <-]%lift_inv & [= <-]).
    cbn [subtasks engine_log output_data parent_output_data].
    split; [|done]. exists info. by rewrite Hsub, <- app_assoc.
Qed.

Lemma bootstrap_subtasks_witness :
  Demo.bootstrap Demo.world0 = (Ok tt, Demo.world1) ∧
  length (subtasks Demo.world1) = 1.
Proof.
  assert (Demo.bootstrap Demo.world0 = (Ok tt, Demo.world1)) as Hrun
    by (vm_compute; reflexivity).
  split; [exact Hrun|].
  destruct (bootstrap_subtasks Demo.json_loads Demo.json_loads
              Demo.dumps Demo.isoformat Demo.certs_differ Demo.cfg
              Demo.task Demo.world0 Demo.world1 Hrun) as (Hsub & _).
  cbn in Hsub. by rewrite Hsub.
Defined.

(** ** The bootstrap and the store *)

Lemma new_election_id (input : gmap string pyval) (el : Election.t) :
  new_election input = Ok el →
  input !! "election_id" = Some (Election.id el).
Proof.
  unfold new_election. intros H.
  apply bind_Ok in H as (i & Hi & H).
  do 9 (apply bind_Ok in H as (? & _ & H)).
  injection H as <-. cbn. unfold dict_getitem in Hi.
  destruct (input !! "election_id"); [|done]. by injection Hi as ->.
Qed.

Lemma election_count_added (s : store) (el : Election.t) (rest : store) :
  elections rest = (elections s ++ [el])%list →
  election_count rest (Election.id el) ≠ 0.
Proof.
  unfold election_count. intros ->. rewrite filter_app, length_app.
  rewrite (filter_cons_True _ el []) by done. cbn. lia.
Qed.

Lemma resubmission_refused (json_loads : string → option pyval)
    (cfg : config) (db0 db1 : store) (data : gmap string pyval)
    (eid : string) :
  data !! "election_id" = Some (PStr eid) →
  election_count db1 (PStr eid) ≠ 0 →
  check_election_data json_loads cfg db0 data true = Ok tt →
  check_election_data json_loads cfg db1 data true =
    Raise (TaskError ("an election with id " +:+ eid +:+ " already exists")).
Proof.
  intros Heid Hcount Hok.
  pose proof (check_election_data_Ok_dicts _ _ _ _ _ Hok) as Hdicts.
  rewrite check_election_data_verdict by done.
  apply check_election_data_Ok in Hok. unfold validation_rules in *.
  rewrite !Forall_app in Hok.
  destruct Hok as (Hp & Hf & He & Hd & Hs & _).
  rewrite !verdict_app.
  apply verdict_Ok in Hp, Hf, He, Hd. rewrite Hp, Hf, He, Hd.
  cbn [mbind result_bind].
  unfold shape_rules in *. rewrite !Forall_cons in Hs.
  destruct Hs as (H1 & H2 & H3 & _). cbn [fst] in H1, H2, H3.
  cbn [verdict]. rewrite H1, H2, H3.
  unfold text_of. rewrite Heid. cbn [negb orb].
  by rewrite bool_decide_eq_false_2.
Qed.

(** X10. Once a performer has bootstrapped an election, the store holds
    its identifier: a first-time submission with this identifier that the
    validator would have accepted against any store is now refused with
    "an election with id <id> already exists". *)
Theorem bootstrap_blocks_resubmission
    (json_loads loads : string → option pyval) (dumps : pyval → string)
    (isoformat : Z → string) (certs_differ : string → string → bool)
    (cfg : config) (task : task_data) (w w' : world)
    (Hdiffer : certs_differ (sender_ssl_cert task) (SSL_CERT_STRING cfg)
               = true)
    (Hfresh : db_session w = [])
    (Hrun : generate_private_info json_loads loads dumps isoformat
              certs_differ cfg task w = (Ok tt, w')) :
  ∃ eid,
    input_data task !! "election_id" = Some (PStr eid) ∧
    ∀ json_loads' cfg' db0 data,
      data !! "election_id" = Some (PStr eid) →
      check_election_data json_loads' cfg' db0 data true = Ok tt →
      check_election_data json_loads' cfg' (db w') data true =
        Raise (TaskError ("an election with id " +:+ eid +:+
                          " already exists")).
Proof.
  destruct (generate_private_info_performer_Ok _ _ _ _ _ _ _ _ _
              Hdiffer Hrun)
    as (eid & auths & sess & el & Heid & _ & _ & _ & _ & _ & Hel & Hdb & _).
  rewrite Hfresh, store_rows in Hdb.
  apply new_election_id in Hel. rewrite Heid in Hel. injection Hel as Hid.
  exists eid. split; [done|].
  intros json_loads' cfg' db0 data Hdata Hok.
  eapply resubmission_refused; [done| |done].
  rewrite Hid. eapply election_count_added. by rewrite Hdb.
Qed.

Lemma bootstrap_blocks_resubmission_witness :
  Demo.certs_differ (sender_ssl_cert Demo.task) (SSL_CERT_STRING Demo.cfg)
    = true ∧
  db_session Demo.world0 = [] ∧
  Demo.bootstrap Demo.world0 = (Ok tt, Demo.world1) ∧
  check_election_data Demo.json_loads Demo.cfg (db Demo.world1)
    (Demo.submission (PList [PInt 1])) true =
    Raise (TaskError "an election with id E1 already exists").
Proof.
  assert (Demo.certs_differ (sender_ssl_cert Demo.task)
            (SSL_CERT_STRING Demo.cfg) = true) as Hdiffer
    by (vm_compute; reflexivity).
  assert (db_session Demo.world0 = []) as Hfresh by reflexivity.
  assert (Demo.bootstrap Demo.world0 = (Ok tt, Demo.world1)) as Hrun
    by (vm_compute; reflexivity).
  assert (check_election_data Demo.json_loads Demo.cfg Demo.empty_store
            (Demo.submission (PList [PInt 1])) true = Ok tt) as Hok
    by (vm_compute; reflexivity).
  assert (Demo.submission (PList [PInt 1]) !! "election_id"
          = Some (PStr "E1")) as Hdata by (vm_compute; reflexivity).
  assert (input_data Demo.task !! "election_id" = Some (PStr "E1"))
    as Htask by (vm_compute; reflexivity).
  split; [exact Hdiffer|]. split; [exact Hfresh|]. split; [exact Hrun|].
  destruct (bootstrap_blocks_resubmission Demo.json_loads Demo.json_loads
              Demo.dumps Demo.isoformat Demo.certs_differ Demo.cfg
              Demo.task Demo.world0 Demo.world1 Hdiffer Hfresh Hrun)
    as (eid & Heid & Hrefused).
  rewrite Htask in Heid. injection Heid as <-.
  exact (Hrefused Demo.json_loads Demo.cfg Demo.empty_store
           (Demo.submission (PList [PInt 1])) Hdata Hok).
Defined.

(** ** Phase 1: what it leaves untouched *)

(** X11. Whatever its outcome, phase 1 leaves the store, the pending
    rows and the subtasks as they were; the output of the task changes
    only when the step stops with "task not accepted". *)
Theorem phase1_leaves_store
    (get_server_url get_hint_server_url : string)
    (engine : list string → path → node → bool * node) (cfg : config)
    (task : local_task) (w w' : world) (r : result unit)
    (Hrun : generate_private_info_verificatum get_server_url
              get_hint_server_url engine cfg task w = (r, w')) :
  db w' = db w ∧ db_session w' = db_session w ∧
  subtasks w' = subtasks w ∧
  (output_data w' = output_data w ∨
   r = Raise (TaskError "task not accepted") ∧
   output_data w' = PStr "task not accepted").
Proof.
  apply verificatum_inv in Hrun.
  destruct (not_accepted cfg task) as [[]|].
  - destruct Hrun as [-> ->]. cbn. repeat split; try done. by right.
  - destruct (phase1_inputs cfg (parent_input_data task)) as [[[p a] l]|].
    + destruct Hrun as (r1 & w1 & Hc & Hr).
      apply collect_protinfos_spec in Hc
        as [(Hdb & Hses & Hsub & Hout & _) _].
      destruct r1 as [out|e]; destruct Hr as [-> ->]; cbn;
        repeat split; try done; by left.
    + destruct Hrun as [-> ->]. repeat split; try done. by left.
  - destruct Hrun as [-> ->]. repeat split; try done. by left.
Qed.

Lemma phase1_leaves_store_witness :
  Demo.phase1_manual Demo.refused_task Demo.world1 =
    (Raise (TaskError "task not accepted"), Demo.world_refused) ∧
  db Demo.world_refused = db Demo.world1 ∧
  subtasks Demo.world_refused = subtasks Demo.world1.
Proof.
  assert (Demo.phase1_manual Demo.refused_task Demo.world1 =
            (Raise (TaskError "task not accepted"), Demo.world_refused))
    as Hrun by (vm_compute; reflexivity).
  split; [exact Hrun|].
  destruct (phase1_leaves_store "a2:8443" "a2:8081" Demo.engine
              Demo.cfg_manual Demo.refused_task Demo.world1
              Demo.world_refused _ Hrun) as (Hdb & _ & Hsub & _).
  split; [exact Hdb|exact Hsub].
Defined.

(** ** Phase 1 and a later bootstrap *)

Lemma check_not_created_absent (n : node) (election_privpath : path)
    (l : list pyval) :
  check_not_created n election_privpath l = Ok tt →
  ∀ s, s ∈ l →
    path_exists n
      ((election_privpath ++ [session_id_of s]) ++ ["localProtInfo.xml"])%list
    = false.
Proof.
  induction l as [|session l IH]; intros H s Hs; [by apply elem_of_nil in Hs|].
  cbn [check_not_created] in H.
  apply bind_Ok in H as (sid & Hsid & H).
  apply bind_Ok in H as (dir & Hdir & H).
  apply bind_Ok in H as ([] & Hthere & H).
  apply elem_of_cons in Hs as [->|Hs]; [|by apply IH].
  apply py_getitem_field in Hsid.
  destruct sid as [| | |x| | |]; try discriminate Hdir.
  injection Hdir as <-.
  unfold session_id_of. rewrite Hsid.
  by destruct (path_exists n _).
Qed.

Section Phase1Files.
Variable get_server_url : string.
Variable get_hint_server_url : string.
Variable engine : list string → path → node → bool * node.

Lemma collect_protinfos_last (election_privpath : path) (auth_name : pyval)
    (l acc out : list pyval) (w w' : world) :
  collect_protinfos get_server_url get_hint_server_url engine
    election_privpath auth_name l acc w = (Ok out, w') →
  l ≠ [] →
  ∃ s, s ∈ l ∧
    path_exists (fs w')
      ((election_privpath ++ [session_id_of s]) ++ ["localProtInfo.xml"])%list
    = true.
Proof.
  revert acc w. induction l as [|session l IH]; intros acc w H Hne; [done|].
  cbn [collect_protinfos] in H.
  apply M_bind_Ok in H as (sid & w1 & [Hsid <-]%lift_inv & H).
  apply M_bind_Ok in H as (cwd & w1 & [Hcwd <-]%lift_inv & H).
  apply M_bind_Ok in H as ([] & w1 & _ & H).
  apply M_bind_Ok in H as (content & w2 & Hread & H).
  apply file_read_inv in Hread as [-> Hread].
  specialize (Hread _ eq_refl).
  destruct l as [|s2 l].
  - injection H as _ <-. exists session. split; [by left|].
    apply py_getitem_field in Hsid.
    destruct sid as [| | |x| | |]; try discriminate Hcwd.
    injection Hcwd as <-.
    unfold session_id_of. rewrite Hsid.
    unfold path_exists. unfold read_file in Hread.
    by destruct (walk (fs w1) _).
  - apply IH in H as (s & Hs & Hthere); [|done].
    exists s. split; [by right|done].
Qed.
End Phase1Files.

(** X12. Phase 1 closes the bootstrap.  For a payload that a bootstrap
    accepted before, once phase 1 has succeeded on this node every later
    bootstrap with the same payload, from the director or from another
    sender, is refused with "session_id <id> already created" for one of
    the sessions of the payload, and leaves the state as it found it. *)
Theorem phase1_closes_bootstrap
    (json_loads loads : string → option pyval) (dumps : pyval → string)
    (isoformat : Z → string) (certs_differ : string → string → bool)
    (get_server_url get_hint_server_url : string)
    (engine : list string → path → node → bool * node) (cfg : config)
    (task : task_data) (decision : option pyval) (w0 w1 w w' : world)
    (Hboot : generate_private_info json_loads loads dumps isoformat
               certs_differ cfg task w0 = (Ok tt, w1))
    (Hphase : generate_private_info_verificatum get_server_url
                get_hint_server_url engine cfg
                (mkLocal decision (input_data task)) w = (Ok tt, w')) :
  ∃ sess s,
    input_data task !! "sessions" = Some (PList sess) ∧ s ∈ sess ∧
    ∀ sender,
      generate_private_info json_loads loads dumps isoformat certs_differ
        cfg (mkTask (input_data task) sender) w' =
        (Raise (TaskError ("session_id " +:+ session_id_of s +:+
                           " already created")), w').
Proof.
  apply generate_private_info_Ok_checked in Hboot as [c Hc].
  pose proof (preliminary_checks_again _ _ _ (fs w') _ (db w') _ _ Hc)
    as Hagain.
  apply preliminary_checks_Ok in Hc
    as (eid & Heid & _ & Hpriv & _ & Hsess & Hne & _ & _ & Hnot).
  apply verificatum_inv in Hphase.
  destruct (not_accepted cfg _) as [[]|]; try by destruct Hphase.
  cbn [parent_input_data] in Hphase.
  destruct (phase1_inputs cfg (input_data task)) as [[[p a] l]|] eqn:Hin;
    [|by destruct Hphase].
  destruct Hphase as (r1 & w2 & Hcollect & Hr).
  destruct r1 as [out|]; [|by destruct Hr]. destruct Hr as [_ ->].
  apply phase1_inputs_Ok in Hin as (eid' & v & auths & Heid' & -> & Hv & Hl & _).
  rewrite Heid in Heid'. injection Heid' as <-.
  rewrite Hsess in Hv. injection Hv as <-. injection Hl as <-.
  apply collect_protinfos_last in Hcollect as (s' & Hs' & Hthere); [|done].
  rewrite Hpriv in Hnot, Hagain.
  destruct (check_not_created_again _ (fs w2) _ _ Hnot)
    as [Hok|(s & Hs & Hraise)].
  { by rewrite (check_not_created_absent _ _ _ Hok _ Hs') in Hthere. }
  exists (checked_sessions c), s. split; [done|]. split; [done|].
  intros sender.
  destruct (generate_private_info json_loads loads dumps isoformat
              certs_differ cfg (mkTask (input_data task) sender) _)
    as [r w3] eqn:Hrun.
  apply generate_private_info_inv in Hrun.
  cbn [input_data fs db parent_set_output_data snd] in Hrun, Hagain.
  rewrite Hagain, Hraise in Hrun. cbn [mbind result_bind] in Hrun.
  by destruct Hrun as [-> ->].
Qed.

Lemma phase1_closes_bootstrap_witness :
  Demo.bootstrap Demo.world0 = (Ok tt, Demo.world1) ∧
  Demo.phase1 (mkLocal None Demo.input) Demo.world1 = (Ok tt, Demo.world2) ∧
  ∃ s, ∀ sender,
    generate_private_info Demo.json_loads Demo.json_loads Demo.dumps
      Demo.isoformat Demo.certs_differ Demo.cfg
      (mkTask Demo.input sender) Demo.world2 =
      (Raise (TaskError ("session_id " +:+ session_id_of s +:+
                         " already created")), Demo.world2).
Proof.
  assert (Demo.bootstrap Demo.world0 = (Ok tt, Demo.world1)) as Hboot
    by (vm_compute; reflexivity).
  assert (Demo.phase1 (mkLocal None Demo.input) Demo.world1
          = (Ok tt, Demo.world2)) as Hphase by (vm_compute; reflexivity).
  split; [exact Hboot|]. split; [exact Hphase|].
  destruct (phase1_closes_bootstrap Demo.json_loads Demo.json_loads
              Demo.dumps Demo.isoformat Demo.certs_differ "a2:8443"
              "a2:8081" Demo.engine Demo.cfg Demo.task None Demo.world0
              Demo.world1 Demo.world1 Demo.world2 Hboot Hphase)
    as (sess & s & _ & _ & Hrefused).
  exists s. exact Hrefused.
Defined.

(** ** The validator: what it reads and what a success has checked *)

Ltac key_listed :=
  unfold validated_keys; cbn [app];
  repeat (apply elem_of_cons; first [left; reflexivity|right]).

(** X13. The validator looks at nine keys of the payload, and at
    [callback_url] and [extra] on a first submission: two payloads that
    agree on them get the same verdict.  The sessions and the numbers of
    parties are not among them. *)
Theorem validator_reads_only_its_keys
    (json_loads : string → option pyval) (cfg : config) (db : store)
    (data data' : gmap string pyval) (check_extra : bool)
    (Hagree : ∀ k, k ∈ validated_keys check_extra → data !! k = data' !! k) :
  check_election_data json_loads cfg db data check_extra =
  check_election_data json_loads cfg db data' check_extra.
Proof.
  assert (∀ k, k ∈ validated_keys false → data !! k = data' !! k) as Hbase.
  { intros k Hk. apply Hagree. unfold validated_keys in *.
    apply elem_of_app. left. by apply elem_of_app in Hk as [Hk|Hk%elem_of_nil]. }
  pose proof (Hbase "questions_data" ltac:(key_listed)) as Hq.
  pose proof (Hbase "election_id" ltac:(key_listed)) as Hi.
  pose proof (Hbase "title" ltac:(key_listed)) as Ht.
  pose proof (Hbase "url" ltac:(key_listed)) as Hu.
  pose proof (Hbase "description" ltac:(key_listed)) as Hd.
  pose proof (Hbase "is_recurring" ltac:(key_listed)) as Hr.
  pose proof (Hbase "authorities" ltac:(key_listed)) as Ha.
  pose proof (Hbase "voting_start_date" ltac:(key_listed)) as Hs.
  pose proof (Hbase "voting_end_date" ltac:(key_listed)) as He.
  unfold check_election_data, load_questions_data, dict_get, dict_getitem,
    date_holds.
  destruct check_extra.
  - pose proof (Hagree "callback_url" ltac:(key_listed)) as Hc.
    pose proof (Hagree "extra" ltac:(key_listed)) as Hx.
    cbn [check_requirements base_requirements extra_requirements app].
    unfold req_holds. cbn [fst snd].
    by rewrite Hq, Hi, Ht, Hu, Hd, Hr, Ha, Hs, He, Hc, Hx.
  - cbn [check_requirements base_requirements].
    unfold req_holds. cbn [fst snd].
    by rewrite Hq, Hi, Ht, Hu, Hd, Hr, Ha, Hs, He.
Qed.

Lemma validator_reads_only_its_keys_witness :
  check_election_data Demo.json_loads Demo.cfg Demo.empty_store
    Demo.input false =
  check_election_data Demo.json_loads Demo.cfg Demo.empty_store
    (delete "num_parties" (delete "sessions" Demo.input)) false.
Proof.
  apply (validator_reads_only_its_keys Demo.json_loads Demo.cfg
           Demo.empty_store Demo.input
           (delete "num_parties" (delete "sessions" Demo.input)) false).
  intros k Hk. unfold validated_keys in Hk. cbn [app] in Hk.
  repeat (apply elem_of_cons in Hk as [->|Hk];
          [vm_compute; reflexivity|]).
  by apply elem_of_nil in Hk.
Defined.

Lemma questions_count_ok_bounds (cfg : config) (l : list pyval) :
  questions_count_ok cfg (PList l) =
  bool_decide ((1 ≤ length l)%nat ∧
               (length l ≤ default 10 (MAX_NUM_QUESTIONS_PER_ELECTION cfg))%nat).
Proof.
  unfold questions_count_ok, max_questions.
  destruct (Nat.ltb_spec (length l) 1), (Nat.ltb_spec (default 10
              (MAX_NUM_QUESTIONS_PER_ELECTION cfg)) (length l));
    cbn [negb andb]; symmetry;
    first [apply bool_decide_eq_true; lia|apply bool_decide_eq_false; lia].
Qed.

(** X14. The number of questions is bounded on both sides, bounds
    included.  A payload that the validator accepts has between one and
    the configured maximum of questions, ten when the configuration sets
    none.  And when the questions of an accepted payload are replaced by
    a list of [n] questions (on re-validation by a text that parses to
    one), the payload is accepted when [n] lies between one and the
    maximum, both included, and refused with "Unsupported number of
    questions in the election" otherwise. *)
Theorem accepted_question_count
    (json_loads : string → option pyval) (cfg : config) (db : store)
    (data : gmap string pyval) (check_extra : bool)
    (Hok : check_election_data json_loads cfg db data check_extra = Ok tt) :
  let max := default 10 (MAX_NUM_QUESTIONS_PER_ELECTION cfg) in
  (∃ l, questions_of json_loads data check_extra = PList l ∧
        (1 ≤ length l)%nat ∧ (length l ≤ max)%nat) ∧
  (∀ questions l,
     (if check_extra then questions = PList l
      else ∃ s, questions = PStr s ∧ json_loads s = Some (PList l)) →
     check_election_data json_loads cfg db
       (<["questions_data" := questions]> data) check_extra =
       if bool_decide ((1 ≤ length l)%nat ∧ (length l ≤ max)%nat)
       then Ok tt
       else Raise (TaskError
                     "Unsupported number of questions in the election")).
Proof.
  cbn zeta.
  pose proof (check_election_data_Ok_dicts _ _ _ _ _ Hok) as Hdicts.
  apply check_election_data_Ok in Hok. unfold validation_rules in Hok.
  rewrite !Forall_app in Hok.
  destruct Hok as (Hp & Hf & He & Hd & Hs & Ha & Hu).
  split.
  { unfold shape_rules in Hs. rewrite !Forall_cons in Hs.
    destruct Hs as (_ & _ & Hcount & _). cbn [fst] in Hcount.
    destruct (questions_of _ _ _) as [| | | | |l|]; try done.
    rewrite questions_count_ok_bounds in Hcount.
    apply bool_decide_eq_true in Hcount. by exists l. }
  intros questions l Hq.
  set (data' := <["questions_data" := questions]> data).
  assert (∀ k, k ≠ "questions_data" → data' !! k = data !! k) as Hlook.
  { intros k Hk. by apply lookup_insert_ne. }
  assert (data' !! "questions_data" = Some questions) as Hnew
    by apply lookup_insert_eq.
  assert (authorities_are_dicts data' = true) as Hdicts'.
  { unfold authorities_are_dicts, list_of in *. by rewrite Hlook. }
  rewrite check_election_data_verdict by done.
  unfold validation_rules. rewrite !verdict_app.
  assert (verdict (parse_rules json_loads data' check_extra) = Ok tt) as ->.
  { unfold parse_rules, questions_parse, dict_get. rewrite Hnew. cbn.
    destruct check_extra; [done|]. destruct Hq as (s & -> & Hs').
    by rewrite Hs'. }
  assert (verdict (field_rules data') = Ok tt) as ->.
  { apply verdict_Ok. unfold field_rules, req_holds in *. cbn [fst snd] in *.
    by rewrite !Hlook. }
  assert (verdict (extra_rules data' check_extra) = Ok tt) as ->.
  { apply verdict_Ok. unfold extra_rules, req_holds in *.
    cbn [fst snd] in *. rewrite !Hlook by done. rewrite Hnew.
    rewrite !Forall_cons in *. destruct He as (H1 & H2 & _).
    repeat split; try done. cbn [fst].
    destruct check_extra; [|done]. by rewrite Hq. }
  assert (verdict (date_rules data') = Ok tt) as ->.
  { apply verdict_Ok. unfold date_rules, date_holds in *.
    by rewrite !Hlook. }
  cbn [mbind result_bind].
  assert (questions_of json_loads data' check_extra = PList l) as Hl.
  { unfold questions_of, dict_get. rewrite Hnew. cbn.
    destruct check_extra; [done|]. destruct Hq as (s & -> & Hs').
    by rewrite Hs'. }
  unfold shape_rules in *. rewrite Hl, questions_count_ok_bounds.
  rewrite !Forall_cons in Hs. destruct Hs as (H1 & H2 & _ & H4 & _).
  cbn [fst] in H1, H2, H4.
  unfold text_of, list_of in *. rewrite !Hlook by done.
  cbn [verdict]. rewrite H1, H2.
  destruct (bool_decide (_ ∧ _)); [|done].
  rewrite H4. cbn [mbind result_bind].
  assert (verdict (authority_rules data') = Ok tt) as ->.
  { apply verdict_Ok. unfold authority_rules, list_of in *.
    by rewrite Hlook. }
  cbn [mbind result_bind].
  apply verdict_Ok. unfold uniqueness_rules, list_of in *. by rewrite Hlook.
Qed.

Lemma accepted_question_count_witness :
  check_election_data Demo.json_loads Demo.cfg Demo.empty_store
    (Demo.submission (PList [PInt 1])) true = Ok tt ∧
  check_election_data Demo.json_loads Demo.cfg Demo.empty_store
    (<["questions_data" := PList (replicate 10 (PInt 1))]>
       (Demo.submission (PList [PInt 1]))) true = Ok tt ∧
  check_election_data Demo.json_loads Demo.cfg Demo.empty_store
    (<["questions_data" := PList (replicate 11 (PInt 1))]>
       (Demo.submission (PList [PInt 1]))) true =
    Raise (TaskError "Unsupported number of questions in the election").
Proof.
  assert (check_election_data Demo.json_loads Demo.cfg Demo.empty_store
            (Demo.submission (PList [PInt 1])) true = Ok tt) as Hok
    by (vm_compute; reflexivity).
  pose proof (proj2 (accepted_question_count Demo.json_loads Demo.cfg
                       Demo.empty_store (Demo.submission (PList [PInt 1]))
                       true Hok)) as Hcount.
  split; [exact Hok|]. split.
  - exact (Hcount (PList (replicate 10 (PInt 1))) (replicate 10 (PInt 1))
             eq_refl).
  - exact (Hcount (PList (replicate 11 (PInt 1))) (replicate 11 (PInt 1))
             eq_refl).
Defined.

(** X15. A payload that the validator accepts names its election with a
    non-empty run of letters, digits, [_] and [-], alone or followed by
    one final newline, and lists at least one authority, each of them a
    dictionary with a text under each of the keys [name],
    [orchestra_url] and [ssl_cert]. *)
Theorem accepted_payload_shape
    (json_loads : string → option pyval) (cfg : config) (db : store)
    (data : gmap string pyval) (check_extra : bool)
    (Hok : check_election_data json_loads cfg db data check_extra = Ok tt) :
  ∃ eid auths,
    data !! "election_id" = Some (PStr eid) ∧
    (∃ body, body ≠ "" ∧ all_id_chars body = true ∧
             (eid = body ∨ eid = body +:+ newline)) ∧
    data !! "authorities" = Some (PList auths) ∧ auths ≠ [] ∧
    Forall (λ a, ∃ d name url cert,
                   a = PDict d ∧ d !! "name" = Some (PStr name) ∧
                   d !! "orchestra_url" = Some (PStr url) ∧
                   d !! "ssl_cert" = Some (PStr cert)) auths.
Proof.
  pose proof (check_election_data_Ok_dicts _ _ _ _ _ Hok) as Hdicts.
  apply check_election_data_Ok in Hok. unfold validation_rules in Hok.
  rewrite !Forall_app in Hok.
  destruct Hok as (_ & Hf & _ & _ & Hs & Ha & _).
  apply verdict_Ok, field_rules_Ok in Hf as (eid & auths & Heid & Hauths).
  unfold shape_rules in Hs. rewrite !Forall_cons in Hs.
  destruct Hs as (Hid & Hne & _). cbn [fst] in Hid, Hne.
  unfold authority_rules, authorities_are_dicts, text_of, list_of in *.
  rewrite ?Heid, ?Hauths in *. cbn [default] in *.
  exists eid, auths. split; [done|].
  split; [by apply re_match_id_body|]. split; [done|].
  split; [by apply negb_true_iff, bool_decide_eq_false in Hne|].
  apply verdict_Ok, auth_rules_Ok in Ha.
  rewrite forallb_forall in Hdicts. rewrite Forall_forall in Ha |- *.
  intros a Hin. specialize (Ha a Hin) as (Hn & Hu & Hc).
  pose proof (Hdicts a (proj1 (list_elem_of_In _ _) Hin)) as Hd.
  destruct a as [| | | | | |d]; try done.
  unfold is_text_field, field_of in Hn, Hu, Hc.
  destruct (d !! "name") as [[| | |name| | |]|] eqn:En; try done.
  destruct (d !! "orchestra_url") as [[| | |url| | |]|] eqn:Eu; try done.
  destruct (d !! "ssl_cert") as [[| | |cert| | |]|] eqn:Ec; try done.
  by exists d, name, url, cert.
Qed.

Lemma accepted_payload_shape_witness :
  ∃ eid auths,
    Demo.input !! "election_id" = Some (PStr eid) ∧
    Demo.input !! "authorities" = Some (PList auths) ∧ auths ≠ [].
Proof.
  assert (check_election_data Demo.json_loads Demo.cfg Demo.empty_store
            Demo.input false = Ok tt) as Hok by (vm_compute; reflexivity).
  destruct (accepted_payload_shape Demo.json_loads Demo.cfg
              Demo.empty_store Demo.input false Hok)
    as (eid & auths & Heid & _ & Hauths & Hne & _).
  exists eid, auths. split; [exact Heid|]. split; [exact Hauths|exact Hne].
Defined.

(** ** The bootstrap: what the checks do not cover *)

Section BootstrapEdges.
Variable json_loads : string → option pyval.
Variable loads : string → option pyval.
Variable dumps : pyval → string.
Variable isoformat : Z → string.
Variable certs_differ : string → string → bool.
Variable cfg : config.

Lemma preliminary_checks_fields (n : node) (store : store)
    (input : gmap string pyval) (c : checked_input) :
  preliminary_checks json_loads cfg n store input = Ok c →
  Forall (λ k, is_Some (input !! k))
    [ "election_id"; "title"; "url"; "description"; "questions_data";
      "voting_start_date"; "voting_end_date"; "is_recurring" ].
Proof.
  intros H. apply preliminary_checks_Ok in H
    as (eid & _ & _ & _ & Hok & _).
  pose proof (check_election_data_Ok_dicts _ _ _ _ _ Hok) as Hdicts.
  apply check_election_data_Ok in Hok. unfold validation_rules in Hok.
  rewrite !Forall_app in Hok.
  destruct Hok as (Hp & Hf & _ & Hd & _).
  unfold parse_rules, field_rules, date_rules in *.
  rewrite !Forall_cons in Hp. rewrite !Forall_cons in Hf.
  rewrite !Forall_cons in Hd. cbn [fst orb] in Hp, Hf, Hd.
  destruct Hp as (Hq & _). destruct Hf as (Hi & Ht & Hu & Hde & Hr & _).
  destruct Hd as (Hs & He & _).
  unfold req_holds, date_holds, questions_parse, dict_get in *.
  cbn [fst] in *.
  repeat constructor;
    match goal with
    | |- is_Some (input !! ?k) =>
        destruct (input !! k); [by eexists|simpl in *; done]
    end.
Qed.

Lemma new_election_missing (input : gmap string pyval) :
  Forall (λ k, is_Some (input !! k))
    [ "election_id"; "title"; "url"; "description"; "questions_data";
      "voting_start_date"; "voting_end_date"; "is_recurring" ] →
  input !! "num_parties" = None ∨ input !! "threshold_parties" = None →
  new_election input = Raise KeyError.
Proof.
  rewrite !Forall_cons.
  intros ([? E1] & [? E2] & [? E3] & [? E4] & [? E5] & [? E6] & [? E7] &
          [? E8] & _) Hmissing.
  unfold new_election, dict_getitem.
  rewrite E1, E2, E3, E4, E5, E6, E7, E8. cbn [mbind result_bind].
  destruct Hmissing as [->| ->]; [done|].
  by destruct (input !! "num_parties").
Qed.
End BootstrapEdges.

(** X16. The checks of the bootstrap do not look at [num_parties] and
    [threshold_parties].  A performer that passes them for an election
    with no directory yet, with a payload that lacks one of the two keys,
    fails with [KeyError] while it builds the election row: nothing is
    added to the store and no directory is made. *)
Theorem bootstrap_party_counts_unchecked
    (json_loads loads : string → option pyval) (dumps : pyval → string)
    (isoformat : Z → string) (certs_differ : string → string → bool)
    (cfg : config) (task : task_data) (w : world) (c : checked_input)
    (Hdiffer : certs_differ (sender_ssl_cert task) (SSL_CERT_STRING cfg)
               = true)
    (Hchecks : preliminary_checks json_loads cfg (fs w) (db w)
                 (input_data task) = Ok c)
    (Habsent : path_exists (fs w) (checked_privpath c) = false)
    (Hmissing : input_data task !! "num_parties" = None ∨
                input_data task !! "threshold_parties" = None) :
  generate_private_info json_loads loads dumps isoformat certs_differ cfg
    task w = (Raise KeyError, w).
Proof.
  pose proof (new_election_missing _
                (preliminary_checks_fields _ _ _ _ _ _ Hchecks) Hmissing)
    as Hnew.
  unfold generate_private_info.
  cbv [mbind M_bind]. rewrite Hchecks, Hdiffer.
  unfold create_local_data.
  cbv [mbind M_bind exists_ lift mret M_ret]. by rewrite Habsent, Hnew.
Qed.

Lemma bootstrap_party_counts_unchecked_witness :
  generate_private_info Demo.json_loads Demo.json_loads Demo.dumps
    Demo.isoformat Demo.certs_differ Demo.cfg
    (mkTask (delete "num_parties" Demo.input) "CERT-A1") Demo.world0 =
    (Raise KeyError, Demo.world0).
Proof.
  assert (Demo.certs_differ "CERT-A1" (SSL_CERT_STRING Demo.cfg) = true)
    as Hdiffer by (vm_compute; reflexivity).
  assert (preliminary_checks Demo.json_loads Demo.cfg (fs Demo.world0)
            (db Demo.world0) (delete "num_parties" Demo.input) =
          Ok (mkChecked (PStr "E1") ["private"; "E1"]
                [Demo.session "S1" "<stub/>"]
                [Demo.authority "a1" "https://a1" "CERT-A1";
                 Demo.authority "a2" "https://a2" "CERT-A2"])) as Hchecks
    by (vm_compute; reflexivity).
  assert (path_exists (fs Demo.world0) ["private"; "E1"] = false)
    as Habsent by (vm_compute; reflexivity).
  assert (delete "num_parties" Demo.input !! "num_parties" = None)
    as Hmissing by (vm_compute; reflexivity).
  exact (bootstrap_party_counts_unchecked Demo.json_loads Demo.json_loads
           Demo.dumps Demo.isoformat Demo.certs_differ Demo.cfg
           (mkTask (delete "num_parties" Demo.input) "CERT-A1")
           Demo.world0 _ Hdiffer Hchecks Habsent (or_introl Hmissing)).
Defined.

(** X17. A director that passes the checks reads the election from the
    store and makes nothing.  With auto-accept on the row is not used:
    the step succeeds, whether the row is there or not, and its one
    effect is the subtask for phase 1.  With auto-accept off and no row
    for the election the step fails with [AttributeError] and changes
    nothing. *)
Theorem director_bootstrap
    (json_loads loads : string → option pyval) (dumps : pyval → string)
    (isoformat : Z → string) (certs_differ : string → string → bool)
    (cfg : config) (task : task_data) (w : world) (c : checked_input)
    (Hsame : certs_differ (sender_ssl_cert task) (SSL_CERT_STRING cfg)
             = false)
    (Hchecks : preliminary_checks json_loads cfg (fs w) (db w)
                 (input_data task) = Ok c) :
  (AUTOACCEPT_REQUESTS cfg = true →
   generate_private_info json_loads loads dumps isoformat certs_differ cfg
     task w =
     (Ok tt,
      mkWorld (fs w) (db w) (db_session w) (engine_log w)
        (subtasks w ++
         [SimpleTask (ROOT_URL cfg) "generate_private_info_verificatum"
            "orchestra_performer" ∅])%list
        (output_data w) (parent_output_data w) (parent_update_sent w))) ∧
  (AUTOACCEPT_REQUESTS cfg = false →
   election_first (db w) (checked_election_id c) = None →
   generate_private_info json_loads loads dumps isoformat certs_differ cfg
     task w = (Raise AttributeError, w)).
Proof.
  pose proof (preliminary_checks_fields _ _ _ _ _ _ Hchecks) as Hfields.
  rewrite !Forall_cons in Hfields.
  destruct Hfields as (_ & _ & [u Hu] & _).
  split.
  - intros Hauto. unfold generate_private_info.
    cbv [mbind M_bind]. rewrite Hchecks, Hsame, Hauto. reflexivity.
  - intros Hauto Hnone. unfold generate_private_info.
    cbv [mbind M_bind query_election_first]. rewrite Hchecks, Hsame, Hauto.
    rewrite Hnone. unfold approval_text, dict_getitem. by rewrite Hu.
Qed.

Lemma director_bootstrap_witness :
  generate_private_info Demo.json_loads Demo.json_loads Demo.dumps
    Demo.isoformat Demo.certs_differ Demo.cfg_manual
    (mkTask Demo.input "CERT-A2") Demo.world0 =
    (Raise AttributeError, Demo.world0).
Proof.
  assert (Demo.certs_differ "CERT-A2" (SSL_CERT_STRING Demo.cfg_manual)
          = false) as Hsame by (vm_compute; reflexivity).
  assert (preliminary_checks Demo.json_loads Demo.cfg_manual
            (fs Demo.world0) (db Demo.world0) Demo.input =
          Ok (mkChecked (PStr "E1") ["private"; "E1"]
                [Demo.session "S1" "<stub/>"]
                [Demo.authority "a1" "https://a1" "CERT-A1";
                 Demo.authority "a2" "https://a2" "CERT-A2"])) as Hchecks
    by (vm_compute; reflexivity).
  assert (AUTOACCEPT_REQUESTS Demo.cfg_manual = false) as Hauto
    by reflexivity.
  assert (election_first (db Demo.world0) (PStr "E1") = None) as Hnone
    by reflexivity.
  exact (proj2 (director_bootstrap Demo.json_loads Demo.json_loads
                  Demo.dumps Demo.isoformat Demo.certs_differ
                  Demo.cfg_manual (mkTask Demo.input "CERT-A2")
                  Demo.world0 _ Hsame Hchecks) Hauto Hnone).
Defined.

(** ** Phase 1: the invocations of the tool *)

Section Phase1Runs.
Variable get_server_url : string.
Variable get_hint_server_url : string.
Variable engine : list string → path → node → bool * node.


End Phase1Runs.



(** ** The bootstrap: the request for approval *)

Lemma new_election_texts (input : gmap string pyval) (el : Election.t) :
  new_election input = Ok el →
  input !! "title" = Some (Election.title el) ∧
  input !! "description" = Some (Election.description el).
Proof.
  unfold new_election. intros H.
  apply bind_Ok in H as (? & _ & H).
  apply bind_Ok in H as (t & Ht & H).
  apply bind_Ok in H as (? & _ & H).
  apply bind_Ok in H as (d & Hd & H).
  do 6 (apply bind_Ok in H as (? & _ & H)).
  injection H as <-. cbn. unfold dict_getitem in *.
  destruct (input !! "title"); [|done].
  destruct (input !! "description"); [|done].
  by injection Ht as ->; injection Hd as ->.
Qed.

Lemma str_date_Ok (isoformat : Z → string) (date : pyval) (s : string) :
  str_date isoformat date = Ok s →
  s = match date with PDate t => isoformat t | _ => "" end.
Proof.
  unfold str_date.
  destruct date; cbn [py_truthy];
    try (by intros [= <-]);
    match goal with |- context [if ?b then _ else _] => destruct b end;
    try done; by intros [= <-].
Qed.

Lemma approval_text_Ok (loads : string → option pyval)
    (dumps : pyval → string) (isoformat : Z → string)
    (input : gmap string pyval) (election : option Election.t)
    (info : approval_info) :
  approval_text loads dumps isoformat input election = Ok info →
  ∃ el qs parsed a,
    election = Some el ∧
    input !! "url" = Some (info_url info) ∧
    info_title info = Election.title el ∧
    info_description info = Election.description el ∧
    info_start_date info =
      match Election.voting_start_date el with
      | PDate t => isoformat t
      | _ => ""
      end ∧
    info_end_date info =
      match Election.voting_end_date el with
      | PDate t => isoformat t
      | _ => ""
      end ∧
    input !! "questions_data" = Some (PStr qs) ∧
    loads qs = Some parsed ∧ info_questions_data info = dumps parsed ∧
    input !! "authorities" = Some a ∧ info_authorities info = dumps a.
Proof.
  unfold approval_text. intros H.
  apply bind_Ok in H as (u & Hu & H).
  destruct election as [el|]; [|done].
  apply bind_Ok in H as (sd & Hsd%str_date_Ok & H).
  apply bind_Ok in H as (ed & Hed%str_date_Ok & H).
  apply bind_Ok in H as (q & Hq & H).
  apply bind_Ok in H as (qs & Hqs & H).
  destruct (loads qs) as [parsed|] eqn:Hloads; [|done].
  apply bind_Ok in H as (a & Ha & H).
  injection H as <-. cbn.
  unfold dict_getitem in *.
  destruct (input !! "url"); [|done]. injection Hu as ->.
  destruct (input !! "questions_data"); [|done]. injection Hq as ->.
  destruct (input !! "authorities"); [|done]. injection Ha as ->.
  destruct q; try done. injection Hqs as ->.
  by exists el, qs, parsed, a.
Qed.

(** X19. With auto-accept off, a bootstrap that succeeds asks for an
    approval whose summary carries the URL, the questions and the
    authorities of the payload, and the title, the description and the
    two dates of the election row: the row just built from the payload
    on a performer, the first row of the store with this identifier on
    the director.  A date that is null is shown as the empty text. *)
Theorem approval_summary
    (json_loads loads : string → option pyval) (dumps : pyval → string)
    (isoformat : Z → string) (certs_differ : string → string → bool)
    (cfg : config) (task : task_data) (w w' : world)
    (Hauto : AUTOACCEPT_REQUESTS cfg = false)
    (Hrun : generate_private_info json_loads loads dumps isoformat
              certs_differ cfg task w = (Ok tt, w')) :
  ∃ info el eid qs parsed a,
    subtasks w' =
      (subtasks w ++
       [ExternalTask "approve_election" info;
        SimpleTask (ROOT_URL cfg) "generate_private_info_verificatum"
          "orchestra_performer" ∅])%list ∧
    input_data task !! "election_id" = Some (PStr eid) ∧
    (if certs_differ (sender_ssl_cert task) (SSL_CERT_STRING cfg)
     then new_election (input_data task) = Ok el
     else election_first (db w) (PStr eid) = Some el) ∧
    input_data task !! "url" = Some (info_url info) ∧
    info_title info = Election.title el ∧
    info_description info = Election.description el ∧
    info_start_date info =
      match Election.voting_start_date el with
      | PDate t => isoformat t
      | _ => ""
      end ∧
    info_end_date info =
      match Election.voting_end_date el with
      | PDate t => isoformat t
      | _ => ""
      end ∧
    input_data task !! "questions_data" = Some (PStr qs) ∧
    loads qs = Some parsed ∧ info_questions_data info = dumps parsed ∧
    input_data task !! "authorities" = Some a ∧
    info_authorities info = dumps a.
Proof.
  unfold generate_private_info in Hrun.
  apply M_bind_Ok in Hrun as (c & w1 & [= Hc <-] & H).
  apply preliminary_checks_Ok in Hc as (eid & Heid & Hceid & _).
  apply M_bind_Ok in H as (election & w1 & Hbranch & H).
  destruct (same_tasks_role certs_differ cfg task c _ _ _ Hbranch)
    as [(_ & Hsub & _) _].
  apply M_bind_Ok in H as ([] & w2 & Happrove & [= <-]).
  rewrite Hauto in Happrove. cbn [negb] in Happrove.
  apply M_bind_Ok in Happrove
    as (info & w3 & [Htext <-]%lift_inv & [= <-]).
  apply approval_text_Ok in Htext
    as (el & qs & parsed & a & -> & Hu & Ht & Hd & Hs & He & Hq & Hl & Hqd &
        Ha & Had).
  exists info, el, eid, qs, parsed, a.
  split; [cbn [subtasks]; by rewrite Hsub, <- app_assoc|].
  split; [done|]. split; [|done].
  destruct (certs_differ _ _).
  - apply M_bind_Ok in Hbranch as (el' & w4 & Hcreate & [= -> _]).
    by apply create_local_data_Ok in Hcreate as [? _].
  - injection Hbranch as Hfirst _. by rewrite Hceid in Hfirst.
Qed.

Lemma approval_summary_witness :
  ∃ w' info,
    generate_private_info Demo.json_loads Demo.json_loads Demo.dumps
      Demo.isoformat Demo.certs_differ Demo.cfg_manual Demo.task
      Demo.world0 = (Ok tt, w') ∧
    head (subtasks w') = Some (ExternalTask "approve_election" info) ∧
    info_title info = PStr "Board" ∧ info_start_date info = "".
Proof.
  pose (w' := Demo.run
                (generate_private_info Demo.json_loads Demo.json_loads
                   Demo.dumps Demo.isoformat Demo.certs_differ
                   Demo.cfg_manual Demo.task) Demo.world0).
  assert (generate_private_info Demo.json_loads Demo.json_loads Demo.dumps
            Demo.isoformat Demo.certs_differ Demo.cfg_manual Demo.task
            Demo.world0 = (Ok tt, w')) as Hrun by (vm_compute; reflexivity).
  assert (AUTOACCEPT_REQUESTS Demo.cfg_manual = false) as Hauto
    by reflexivity.
  assert (Demo.certs_differ (sender_ssl_cert Demo.task)
            (SSL_CERT_STRING Demo.cfg_manual) = true) as Hdiffer
    by (vm_compute; reflexivity).
  assert (new_election (input_data Demo.task) =
          Ok (Election.mk (PStr "E1") (PStr "Board")
                (PStr "https://vote/E1") (PStr "A vote") (PStr "[1]")
                PNone PNone (PBool false) (PInt 2) (PInt 2))) as Hrow
    by (vm_compute; reflexivity).
  destruct (approval_summary Demo.json_loads Demo.json_loads Demo.dumps
              Demo.isoformat Demo.certs_differ Demo.cfg_manual Demo.task
              Demo.world0 w' Hauto Hrun)
    as (info & el & eid & qs & parsed & a & Hsub & _ & Hel & _ & Ht & _ &
        Hs & _).
  rewrite Hdiffer, Hrow in Hel. injection Hel as <-.
  exists w', info. split; [exact Hrun|].
  split; [rewrite Hsub; reflexivity|]. split; [exact Ht|exact Hs].
Defined.

(** ** The validator: entries of the authority list that are no
    dictionaries *)

Section ValidatorEntries.
Variable json_loads : string → option pyval.
Variable cfg : config.
Variable db : store.
Variable data : gmap string pyval.
Variable check_extra : bool.

Lemma check_election_data_early :
  verdict (parse_rules json_loads data check_extra ++ field_rules data ++
           extra_rules data check_extra ++ date_rules data ++
           shape_rules json_loads cfg db data check_extra) = Ok tt →
  check_election_data json_loads cfg db data check_extra =
    (check_authorities (list_of data "authorities");;
     distinct ← unique_by_keys (list_of data "authorities")
                  ["ssl_cert"; "orchestra_url"];
     ensure distinct (TaskError "invalid authorities parameters")).
Proof.
  rewrite !verdict_app. intros H.
  apply bind_Ok in H as ([] & Hparse & H).
  apply bind_Ok in H as ([] & Hfields & H).
  apply bind_Ok in H as ([] & Hextra & H).
  apply bind_Ok in H as ([] & Hdates & Hshape).
  unfold check_election_data.
  rewrite load_questions_data_verdict, requirements_verdict, verdict_app.
  rewrite Hparse, Hfields, Hextra. cbn [mbind result_bind].
  destruct (field_rules_Ok _ Hfields) as (eid & l & Heid & Hl).
  apply verdict_Ok in Hdates, Hshape.
  unfold date_rules, shape_rules in *.
  rewrite !Forall_cons in Hdates. rewrite !Forall_cons in Hshape.
  cbn [fst] in *.
  destruct Hdates as (Hs & He & _).
  destruct Hshape as (Hid & Hne & Hcount & Hstore & _).
  unfold text_of, list_of, dict_getitem, ensure in *.
  rewrite Heid, Hl in *. cbn [default] in *.
  rewrite Hs, He. cbn [mbind result_bind py_re_match_id py_list py_text].
  rewrite Hid. cbn [mbind result_bind].
  rewrite (bool_decide_ext (length l = 0) (l = []))
    by apply length_zero_iff_nil.
  rewrite Hne. cbn [mbind result_bind]. rewrite Hcount.
  cbn [mbind result_bind].
  assert ((0 <? election_count db (PStr eid))%nat =
          negb (bool_decide (election_count db (PStr eid) = 0))) as ->.
  { destruct (election_count db (PStr eid)); by case_bool_decide. }
  destruct check_extra; [|done].
  cbn [negb orb andb] in *. by rewrite Hstore.
Qed.
End ValidatorEntries.

Lemma check_authorities_app (l1 l2 : list pyval) :
  check_authorities (l1 ++ l2) =
  (check_authorities l1;; check_authorities l2).
Proof.
  induction l1 as [|a l1 IH]; [done|].
  cbn [app check_authorities]. rewrite IH.
  by destruct (check_auth_reqs a auth_reqs) as [[]|].
Qed.

Lemma check_auth_reqs_not_dict (a : pyval) :
  is_dict a = false →
  check_auth_reqs a auth_reqs =
    match py_in "name" a with
    | Ok false => Raise (TaskError "invalid name parameter")
    | _ => Raise TypeError
    end.
Proof.
  intros Ha. unfold auth_reqs. cbn [check_auth_reqs].
  unfold check_auth_req. cbn [fst snd].
  destruct a as [| | |s| |l|d]; try done; cbn [py_in mbind result_bind].
  - by destruct (is_substring "name" s).
  - by destruct (bool_decide (PStr "name" ∈ l)).
Qed.

(** X20. The loop over the authorities, for an entry that is no
    dictionary.  When the rules before the loop hold and the entries
    before it pass, the validator fails at this entry: with "invalid name
    parameter" when the entry is a list without the element "name" or a
    text without the substring "name", and with the untyped [TypeError]
    for every other entry. *)
Theorem authority_entry_without_keys
    (json_loads : string → option pyval) (cfg : config) (db : store)
    (data : gmap string pyval) (check_extra : bool)
    (before after : list pyval) (entry : pyval)
    (Hrules :
       verdict (parse_rules json_loads data check_extra ++ field_rules data ++
                extra_rules data check_extra ++ date_rules data ++
                shape_rules json_loads cfg db data check_extra) = Ok tt)
    (Hlist : data !! "authorities" = Some (PList (before ++ entry :: after)))
    (Hbefore : check_authorities before = Ok tt)
    (Hentry : is_dict entry = false) :
  check_election_data json_loads cfg db data check_extra =
    match entry with
    | PList l =>
        if bool_decide (PStr "name" ∈ l) then Raise TypeError
        else Raise (TaskError "invalid name parameter")
    | PStr s =>
        if is_substring "name" s then Raise TypeError
        else Raise (TaskError "invalid name parameter")
    | _ => Raise TypeError
    end.
Proof.
  rewrite check_election_data_early by done.
  unfold list_of. rewrite Hlist. cbn [default].
  rewrite check_authorities_app, Hbefore. cbn [mbind result_bind].
  cbn [check_authorities]. rewrite check_auth_reqs_not_dict by done.
  destruct entry as [| | |s| |l|d]; try done; cbn [py_in].
  - by destruct (is_substring "name" s).
  - by destruct (bool_decide (PStr "name" ∈ l)).
Qed.

Lemma authority_entry_without_keys_witness :
  check_election_data Demo.json_loads Demo.cfg Demo.empty_store
    (Demo.payload
       (PList [Demo.authority "a1" "https://a1" "CERT-A1"; PStr "a2"])
       (PStr "[1]") PNone PNone) false =
    Raise (TaskError "invalid name parameter").
Proof.
  pose (data := Demo.payload
                  (PList [Demo.authority "a1" "https://a1" "CERT-A1";
                          PStr "a2"]) (PStr "[1]") PNone PNone).
  assert (verdict (parse_rules Demo.json_loads data false ++
                   field_rules data ++ extra_rules data false ++
                   date_rules data ++
                   shape_rules Demo.json_loads Demo.cfg Demo.empty_store
                     data false) = Ok tt) as Hrules
    by (vm_compute; reflexivity).
  assert (data !! "authorities" =
          Some (PList ([Demo.authority "a1" "https://a1" "CERT-A1"] ++
                       PStr "a2" :: []))) as Hlist
    by (vm_compute; reflexivity).
  assert (check_authorities [Demo.authority "a1" "https://a1" "CERT-A1"]
          = Ok tt) as Hbefore by (vm_compute; reflexivity).
  assert (is_dict (PStr "a2") = false) as Hentry by reflexivity.
  exact (authority_entry_without_keys Demo.json_loads Demo.cfg
           Demo.empty_store data false
           [Demo.authority "a1" "https://a1" "CERT-A1"] [] (PStr "a2")
           Hrules Hlist Hbefore Hentry).
Defined.
